(** * Hyperspectral-Imagery-Unmixing: preprocessing and artifacts reporter

    A shallow embedding of [src/utils/preprocessing.py] and
    [src/utils/artifacts_reporter.py].

    - Python exceptions are an error type [exn]; a function that can raise
      returns [result A].
    - Python [float] is IEEE 754 binary64, embedded with the executable
      specification of the Standard Library ([spec_float], precision 53,
      [emax] 1024); Python [int] is [Z].
    - A numpy array with a sample axis is the [list] of its samples; an index
      array is a [list Z].
    - The helpers of the repository that are imported from [src.utils.utils]
      and [src.utils.io] are parameters of the sections that use them, and
      so are the memory of the machine and the file system. *)

From Stdlib Require Import String Ascii.
From Stdlib Require Import ZArith List Bool Lia Permutation.
From Stdlib Require Import Floats.SpecFloat.
Import ListNotations.

Set Implicit Arguments.
Open Scope Z_scope.

(* ================================================================== *)
(** ** Python: exceptions, dynamic values, floats *)

Module Py.

(** The reasons for which the modelled code meets a [TypeError]. *)
Inductive type_error : Set :=
| MissingArgument      (* f() missing 1 required positional argument *)
| TooManyArguments     (* f() takes n positional arguments but m were given *)
| NotIterable          (* 'int' object is not iterable *)
| BadIntArgument.      (* int() argument must be a string or a number *)

(** The subclasses of [OSError] that a call to the file system meets. *)
Inductive os_error : Set :=
| FileNotFoundError
| FileExistsError
| NotADirectoryError
| PermissionError
| OtherOSError.

Inductive exn : Set :=
| AssertionError (msg : string)
| NotImplementedError
| TypeError (why : type_error)
| IndexError
| ValueError
| OverflowError
| MemoryError
| OSError (why : os_error).

Inductive result (A : Type) : Type :=
| Ok (a : A)
| Raise (e : exn).

Arguments Ok {A} a.
Arguments Raise {A} e.

Definition bind {A B : Type} (r : result A) (k : A -> result B) : result B :=
  match r with
  | Ok a => k a
  | Raise e => Raise e
  end.

(** The values a caller can pass where the code dispatches on the type. *)
#[warnings="-register-all"]
Inductive value : Type :=
| VInt (z : Z)
| VFloat (f : spec_float)
| VList (l : list value)
| VOther.

End Py.
Export Py.

Declare Scope py_scope.
Delimit Scope py_scope with py.
Notation "x <- e ;; k" := (bind e (fun x => k))
  (at level 61, e at next level, right associativity) : py_scope.
Notation "' p <- e ;; k" := (bind e (fun p => k))
  (at level 61, p pattern, e at next level, right associativity) : py_scope.
Open Scope py_scope.

(** Binary64 arithmetic, as CPython performs it on [float] objects. *)
Module Float64.

Definition prec : Z := 53.
Definition emax : Z := 1024.

Definition zero : spec_float := S754_zero false.
Definition one : spec_float := S754_finite false 4503599627370496 (-52).

Definition is_nan (f : spec_float) : bool :=
  match f with S754_nan => true | _ => false end.

Definition ltb (x y : spec_float) : bool := SFltb x y.
Definition leb (x y : spec_float) : bool := SFleb x y.
Definition mul (x y : spec_float) : spec_float := SFmul prec emax x y.

(** [float(z)] for an [int]: the nearest double (ties to even);
    [OverflowError] when the integer is too large for a double. *)
Definition of_int (z : Z) : result spec_float :=
  match binary_normalize prec emax z 0 false with
  | S754_infinity _ => Raise OverflowError
  | f => Ok f
  end.

(** [int(f)]: truncation toward zero; [ValueError] on NaN and
    [OverflowError] on an infinity. *)
Definition to_int (f : spec_float) : result Z :=
  match f with
  | S754_zero _ => Ok 0
  | S754_nan => Raise ValueError
  | S754_infinity _ => Raise OverflowError
  | S754_finite s m e =>
      Ok (cond_Zopp s (if 0 <=? e then Zpos m * 2 ^ e else Zpos m / 2 ^ (- e)))
  end.

(** The mathematical floor of a finite double, for comparison with [to_int]. *)
Definition floor (f : spec_float) : option Z :=
  match f with
  | S754_zero _ => Some 0
  | S754_finite false m e =>
      Some (if 0 <=? e then Zpos m * 2 ^ e else Zpos m / 2 ^ (- e))
  | S754_finite true m e =>
      Some (if 0 <=? e then - (Zpos m * 2 ^ e) else (- Zpos m) / 2 ^ (- e))
  | _ => None
  end.

(** [z * f] for an [int] and a [float]: the [int] is converted first. *)
Definition int_mul (z : Z) (f : spec_float) : result spec_float :=
  x <- of_int z ;; Ok (mul x f).

(** The double nearest to the decimal literals used below. *)
Definition lit_0_8 : spec_float := S754_finite false 7205759403792794 (-53).
Definition lit_0_1 : spec_float := S754_finite false 7205759403792794 (-56).
Definition lit_0_7 : spec_float := S754_finite false 6305039478318694 (-53).

End Float64.

(** [int(v)] on a dynamic value. *)
Definition py_int (v : value) : result Z :=
  match v with
  | VInt z => Ok z
  | VFloat f => Float64.to_int f
  | _ => Raise (TypeError BadIntArgument)
  end.

(** [zip(v, r)] where [r] is a [range]: the first argument must be iterable. *)
Definition py_zip (v : value) (r : list nat) : result (list (value * nat)) :=
  match v with
  | VList l => Ok (combine l r)
  | _ => Raise (TypeError NotIterable)
  end.

(** [l[:n]] on a sequence: a negative bound counts from the end. *)
Definition slice_to {A : Type} (l : list A) (n : Z) : list A :=
  if n <? 0 then firstn (Z.to_nat (Z.of_nat (length l) + n)) l
  else firstn (Z.to_nat n) l.

(** [l[i]] and [l[i] = x] on a Python list, for a non-negative index. *)
Definition list_get {A : Type} (l : list A) (i : nat) : result A :=
  match nth_error l i with
  | Some x => Ok x
  | None => Raise IndexError
  end.

Fixpoint list_set {A : Type} (l : list A) (i : nat) (x : A) : result (list A) :=
  match l, i with
  | [], _ => Raise IndexError
  | _ :: r, O => Ok (x :: r)
  | y :: r, S j => r' <- list_set r j x ;; Ok (y :: r')
  end.

(* ================================================================== *)
(** ** The numpy operations the code uses *)

Module Np.

(** [np.arange(k)]: the integers [0 .. k-1], empty when [k <= 0]. *)
Definition arange (k : Z) : list Z := map Z.of_nat (seq 0 (Z.to_nat k)).

(** [np.arange(stop, dtype=int)] for a Python [int] of any size. numpy
    computes the length of the result in double precision, as the true
    division [(stop - 0) / 1] rounded up, and converts it to a signed
    64-bit length:
    - an [int] too large for a double, or a double beyond [2^63] in
      magnitude, is an overflow, which [arange] reports as [ValueError]
      (maximum allowed size exceeded);
    - at the double [2^63], which is the quotient for [2^63 - 1], the
      conversion wraps to a negative length (x86-64), and the array is
      empty, as for every length that is not positive;
    - [2^60] indices of 8 bytes or more do not fit in a signed 64-bit
      number of bytes: [ValueError] (array is too big);
    - an array below that limit is allocated when the machine holds it,
      [capacity] being the largest number of indices that it holds, and
      [MemoryError] is raised otherwise.
    The result is [0 .. length - 1]: it is [0 .. stop - 1] when [stop] is
    a double, which every [int] up to [2^53] is. *)
Definition arange_int (capacity stop : Z) : result (list Z) :=
  match Float64.of_int stop with
  | Raise _ => Raise ValueError
  | Ok quotient =>
      len <- Float64.to_int quotient ;;
      if (len <? - 9223372036854775808) || (9223372036854775808 <? len)
      then Raise ValueError
      else if len =? 9223372036854775808 then Ok []
      else if 1152921504606846976 <=? len then Raise ValueError
      else if len <=? 0 then Ok []
      else if len <=? capacity then Ok (arange len)
      else Raise MemoryError
  end.

(** An index [i] into an axis of length [n]: [-n <= i < n], negative
    indices counting from the end; [IndexError] otherwise. *)
Definition normalize_index (n : nat) (i : Z) : result nat :=
  if (0 <=? i) && (i <? Z.of_nat n) then Ok (Z.to_nat i)
  else if (- Z.of_nat n <=? i) && (i <? 0) then Ok (Z.to_nat (i + Z.of_nat n))
  else Raise IndexError.

Definition getitem {A : Type} (a : list A) (i : Z) : result A :=
  j <- normalize_index (length a) i ;; list_get a j.

(** [a[idx]] for an integer index array [idx] (a gather along axis 0). *)
Fixpoint take {A : Type} (a : list A) (idx : list Z) : result (list A) :=
  match idx with
  | [] => Ok []
  | i :: r => x <- getitem a i ;; xs <- take a r ;; Ok (x :: xs)
  end.

(** [a[mask]] for a boolean mask: the mask must be as long as the axis. *)
Definition mask_select {A : Type} (a : list A) (mask : list bool)
  : result (list A) :=
  if Nat.eqb (length a) (length mask)
  then Ok (map fst (filter snd (combine a mask)))
  else Raise IndexError.

(** [np.unique(a)]: the sorted distinct values. *)
Fixpoint insert_sorted (x : Z) (l : list Z) : list Z :=
  match l with
  | [] => [x]
  | y :: r =>
      if x <? y then x :: l
      else if x =? y then l
      else y :: insert_sorted x r
  end.

Definition unique (a : list Z) : list Z := fold_right insert_sorted [] a.

Definition in1d (x : Z) (b : list Z) : bool := existsb (Z.eqb x) b.

(** [np.setdiff1d(a, b)]: the sorted distinct values of [a] not in [b]. *)
Definition setdiff1d (a b : list Z) : list Z :=
  filter (fun x => negb (in1d x b)) (unique a).

(** [np.concatenate(arrays, axis=0)] needs at least one array. *)
Definition concatenate (arrays : list (list Z)) : result (list Z) :=
  match arrays with
  | [] => Raise ValueError
  | _ => Ok (concat arrays)
  end.

End Np.

(* ================================================================== *)
(** ** src/utils/preprocessing.py *)

Module Preprocessing.

(** *** remove_nan_samples

    [data] has dimensions [SAMPLES, ...]: it is the list of its samples, each
    sample being the list of the values on its remaining axes. *)
Definition remove_nan_samples {L : Type}
    (data : list (list spec_float)) (labels : list L)
  : result (list (list spec_float) * list L) :=
  let nan_samples_indexes := map (existsb Float64.is_nan) data in
  labels' <- Np.mask_select labels (map negb nan_samples_indexes) ;;
  data' <- Np.mask_select data (map negb nan_samples_indexes) ;;
  Ok (data', labels').

Section Split.

(** The type of class labels and of samples. *)
Variable L : Type.
Variable X : Type.

(** [get_label_indices_per_class(labels, return_uniques=True)], imported
    from [src.utils.utils], is a parameter: it returns the list of the index
    arrays of the classes and the array of the unique labels. *)
Variable get_label_indices_per_class : list L -> list (list Z) * list L.

(** [_get_set_indices.register(float)] *)
Definition _get_set_indices_float (size : spec_float) (labels : list L)
  : result (list Z) :=
  if negb (Float64.ltb Float64.zero size && Float64.leb size Float64.one)
  then Raise (AssertionError "")
  else
    p <- Float64.int_mul (Z.of_nat (length labels)) size ;;
    n <- Float64.to_int p ;;
    let train_indices := Np.arange n in
    Ok train_indices.

(** The memory of the machine at hand: [memory] is a number of indices
    that it is known to hold. It holds the labels, hence also an index
    array that is no longer than the labels. *)
Variable memory : Z.

Definition capacity (labels : list L) : Z :=
  Z.max memory (Z.of_nat (length labels)).

(** [_get_set_indices.register(int)] *)
Definition _get_set_indices_int (size : Z) (labels : list L)
  : result (list Z) :=
  if size <? 1 then Raise (AssertionError "")
  else
    train_indices <- Np.arange_int (capacity labels) size ;;
    Ok train_indices.

(** The loop of the list register:
    [label_indices[label] = label_indices[label][:int(n_samples)]]. *)
Fixpoint truncate_classes (pairs : list (value * nat))
    (label_indices : list (list Z)) : result (list (list Z)) :=
  match pairs with
  | [] => Ok label_indices
  | (n_samples, label) :: rest =>
      cls <- list_get label_indices label ;;
      n <- py_int n_samples ;;
      label_indices' <- list_set label_indices label (slice_to cls n) ;;
      truncate_classes rest label_indices'
  end.

(** [_get_set_indices.register(list)]: the registered function declares three
    positional parameters, [size], [labels] and [_]. *)
Definition _get_set_indices_list (size : list value) (labels : list L)
    (_ : value) : result (list Z) :=
  let '(label_indices, unique_labels) := get_label_indices_per_class labels in
  size' <- (if Nat.eqb (length size) 1
            then z <- py_int (nth 0 size VOther) ;; Ok (VInt z)
            else Ok (VList size)) ;;
  pairs <- py_zip size' (seq 0 (length unique_labels)) ;;
  label_indices' <- truncate_classes pairs label_indices ;;
  train_indices <- Np.concatenate label_indices' ;;
  Ok train_indices.

(** [_get_set_indices]: [functools.singledispatch] selects the registered
    function by the class of the first argument and calls it with all the
    positional arguments of the call, here [size], [labels] and [rest]. *)
Definition _get_set_indices (size : value) (labels : list L)
    (rest : list value) : result (list Z) :=
  match size, rest with
  | VFloat f, [] => _get_set_indices_float f labels
  | VInt z, [] => _get_set_indices_int z labels
  | VList l, [x] => _get_set_indices_list l labels x
  | VList _, [] => Raise (TypeError MissingArgument)
  | VOther, [] => Raise NotImplementedError
  | _, _ => Raise (TypeError TooManyArguments)
  end.

(** Lines 89-93 of [train_val_test_split]: the three index arrays, computed
    from the shuffled labels and [len(data)]. *)
Definition split_indices (len_data : nat) (labels : list L)
    (train_size val_size : value) : result (list Z * list Z * list Z) :=
  train_indices <- _get_set_indices train_size labels [] ;;
  train_labels <- Np.take labels train_indices ;;
  val_indices <- _get_set_indices val_size train_labels [] ;;
  val_indices <- Np.take train_indices val_indices ;;
  let test_indices :=
    Np.setdiff1d (Np.arange (Z.of_nat len_data)) train_indices in
  let train_indices := Np.setdiff1d train_indices val_indices in
  Ok (train_indices, val_indices, test_indices).

(** [shuffle_arrays_together], imported from [src.utils.utils], is a
    parameter. The specification has it apply one permutation, fixed by the
    seed, to both arrays: for a seed and a length, [shuffle_order] is the
    order in which the samples are gathered. *)
Variable shuffle_order : Z -> nat -> list nat.
Hypothesis shuffle_order_perm :
  forall seed n, Permutation (shuffle_order seed n) (seq 0 n).

Definition shuffle {A : Type} (seed : Z) (a : list A) : list A :=
  flat_map (fun i => match nth_error a i with Some x => [x] | None => [] end)
           (shuffle_order seed (length a)).

(** [train_val_test_split] *)
Definition train_val_test_split (data : list X) (labels : list L)
    (train_size val_size : value) (seed : Z)
  : result (list X * list L * list X * list L * list X * list L) :=
  let data := shuffle seed data in
  let labels := shuffle seed labels in
  '(train_indices, val_indices, test_indices) <-
     split_indices (length data) labels train_size val_size ;;
  train_x <- Np.take data train_indices ;;
  train_y <- Np.take labels train_indices ;;
  val_x <- Np.take data val_indices ;;
  val_y <- Np.take labels val_indices ;;
  test_x <- Np.take data test_indices ;;
  test_y <- Np.take labels test_indices ;;
  Ok (train_x, train_y, val_x, val_y, test_x, test_y).

End Split.

(** Modelled from the spec: [get_label_indices_per_class] of
    [src/utils/utils.py], which is not among the sources. The indices are
    grouped by class label, each group in positional order, the classes in
    the sorted order of the unique labels. *)
Definition positions_of (label : Z) (labels : list Z) : list Z :=
  map (fun p => Z.of_nat (fst p))
      (filter (fun p => snd p =? label)
              (combine (seq 0 (length labels)) labels)).

Definition get_label_indices_per_class (labels : list Z)
  : list (list Z) * list Z :=
  let unique_labels := Np.unique labels in
  (map (fun label => positions_of label labels) unique_labels, unique_labels).

End Preprocessing.

(* ================================================================== *)
(** ** src/utils/artifacts_reporter.py *)

Module ArtifactsReporter.

(** *** File-system effects

    The reporter touches the file system through [os.makedirs] and
    [io.save_metrics]; a run is a computation over the trace of these
    calls, in their order. Whether a call returns or raises depends on the
    file system, a parameter of the run: [fs call trace] is the [OSError]
    that [call] raises after the calls of [trace], if it raises one. A
    call is in the trace whether it returned or raised. *)
Inductive cell : Type :=
| CStr (s : string)
| CNum (f : spec_float).

Definition report : Type := list (string * list cell).

Inductive fs_event : Type :=
| MakeDirs (path : string)
| SaveMetrics (dest_path : string) (stat_report : report)
              (file_name : option string).

Definition io (A : Type) : Type := list fs_event -> result A * list fs_event.

Definition io_ret {A : Type} (a : A) : io A := fun t => (Ok a, t).

Definition io_bind {A B : Type} (m : io A) (k : A -> io B) : io B :=
  fun t =>
    match m t with
    | (Ok a, t') => k a t'
    | (Raise e, t') => (Raise e, t')
    end.

Definition io_lift {A : Type} (r : result A) : io A := fun t => (r, t).

Definition io_raise {A : Type} (e : exn) : io A := fun t => (Raise e, t).

Definition file_system : Type := fs_event -> list fs_event -> option os_error.

Definition io_call (fs : file_system) (ev : fs_event) : io unit :=
  fun t =>
    match fs ev t with
    | None => (Ok tt, t ++ [ev])
    | Some why => (Raise (OSError why), t ++ [ev])
    end.

(** [os.makedirs(name, exist_ok=True)]: the empty name is refused with
    [FileNotFoundError] on every file system. *)
Definition os_makedirs (fs : file_system) (name : string) : io unit :=
  match name with
  | EmptyString =>
      fun t => (Raise (OSError FileNotFoundError), t ++ [MakeDirs name])
  | _ => io_call fs (MakeDirs name)
  end.

(** [io.save_metrics(dest_path, stat_report, file_name)], from
    [src.utils.io], is not among the sources: its call is an event, and
    the file system decides whether it returns. *)
Definition save_metrics (fs : file_system) (dest_path : string)
    (stat_report : report) (file_name : option string) : io unit :=
  io_call fs (SaveMetrics dest_path stat_report file_name).

Notation "x <~ e ;; k" := (io_bind e (fun x => k))
  (at level 61, e at next level, right associativity).
Notation "e ;;; k" := (io_bind e (fun _ => k))
  (at level 61, right associativity).

(** *** Dictionaries in insertion order *)
Definition dict (V : Type) : Type := list (string * V).

Fixpoint dict_set {V : Type} (d : dict V) (k : string) (v : V) : dict V :=
  match d with
  | [] => [(k, v)]
  | (k', v') :: r =>
      if String.eqb k' k then (k', v) :: r else (k', v') :: dict_set r k v
  end.

Definition dict_keys {V : Type} (d : dict V) : list string := map fst d.

(** [d[k].append(x)] for a key of [d]. *)
Definition dict_append {V : Type} (d : dict (list V)) (k : string) (x : V)
  : dict (list V) :=
  map (fun kv => if String.eqb (fst kv) k then (fst kv, snd kv ++ [x]) else kv)
      d.

(** *** os.path.splitext (posixpath) *)
Fixpoint rfind_from (c : ascii) (p : list ascii) (i acc : Z) : Z :=
  match p with
  | [] => acc
  | x :: r => rfind_from c r (i + 1) (if Ascii.eqb x c then i else acc)
  end.

Definition rfind (c : ascii) (p : list ascii) : Z := rfind_from c p 0 (-1).

Definition splitext (path : string) : string * string :=
  let p := list_ascii_of_string path in
  let sepIndex := rfind "/"%char p in
  let dotIndex := rfind "."%char p in
  if (sepIndex <? dotIndex)
     && existsb (fun ch => negb (Ascii.eqb ch "."%char))
                (firstn (Z.to_nat (dotIndex - (sepIndex + 1)))
                        (skipn (Z.to_nat (sepIndex + 1)) p))
  then (string_of_list_ascii (firstn (Z.to_nat dotIndex) p),
        string_of_list_ascii (skipn (Z.to_nat dotIndex) p))
  else (path, EmptyString).

Definition inconsistent_metric_names : string :=
  "The metric names should be consistent across all experiment runs.".

(** What [io.load_metrics] returns: the header row and the value row of the
    metrics file of every run. *)
Record all_metrics : Type := {
  metric_keys : list (list string);
  metric_values : list (list string)
}.

Definition tuple_eq_dec : forall a b : list string, {a = b} + {a <> b} :=
  list_eq_dec string_dec.

Section Reporter.

(** [io.load_metrics(experiments_path, filename)], from [src.utils.io]. *)
Variable load_metrics : string -> option string -> result all_metrics.

(** The file system on which the report is written. *)
Variable fs : file_system.

(** The builtin [float] on a field of the metrics file, and the numpy
    reductions on a non-empty list of floats. *)
Variable py_float : string -> option spec_float.
Variables np_mean np_std np_min np_max : list spec_float -> spec_float.

(** [np.min] and [np.max] raise [ValueError] on an empty list; [np.mean] and
    [np.std] return NaN there. *)
Definition mean_or_nan (f : list spec_float -> spec_float)
    (l : list spec_float) : result spec_float :=
  match l with [] => Ok S754_nan | _ => Ok (f l) end.

Definition reduce_nonempty (f : list spec_float -> spec_float)
    (l : list spec_float) : result spec_float :=
  match l with [] => Raise ValueError | _ => Ok (f l) end.

(** The inner loop over [zip(artifacts.keys(), metric_values)]. *)
Fixpoint append_row (pairs : list (string * string))
    (artifacts : dict (list spec_float)) : result (dict (list spec_float)) :=
  match pairs with
  | [] => Ok artifacts
  | (metric_key, metric_value) :: rest =>
      match py_float metric_value with
      | None => Raise ValueError
      | Some x => append_row rest (dict_append artifacts metric_key x)
      end
  end.

(** The outer loop over [all_metrics['metric_values']]. *)
Fixpoint append_rows (rows : list (list string))
    (artifacts : dict (list spec_float)) : result (dict (list spec_float)) :=
  match rows with
  | [] => Ok artifacts
  | metric_values :: rest =>
      artifacts' <- append_row (combine (dict_keys artifacts) metric_values)
                               artifacts ;;
      append_rows rest artifacts'
  end.

(** The loop that fills [stat_report]. *)
Fixpoint fill_stats (keys : list string) (artifacts : dict (list spec_float))
    (stat_report : report) : result report :=
  match keys with
  | [] => Ok stat_report
  | key :: rest =>
      let column :=
        match find (fun kv => String.eqb (fst kv) key) artifacts with
        | Some kv => snd kv
        | None => []
        end in
      m <- mean_or_nan np_mean column ;;
      s <- mean_or_nan np_std column ;;
      lo <- reduce_nonempty np_min column ;;
      hi <- reduce_nonempty np_max column ;;
      fill_stats rest artifacts
                 (dict_set stat_report key [CNum m; CNum s; CNum lo; CNum hi])
  end.

(** [collect_artifacts_report] *)
Definition collect_artifacts_report (experiments_path dest_path : string)
    (filename : option string) : io unit :=
  all_metrics <~ io_lift (load_metrics experiments_path filename) ;;
  let metric_keys := nodup tuple_eq_dec (metric_keys all_metrics) in
  if negb (Nat.eqb (length metric_keys) 1)
  then io_raise (AssertionError inconsistent_metric_names)
  else
    let artifacts :=
      fold_left (fun d metric_key => dict_set d metric_key [])
                (hd [] metric_keys) ([] : dict (list spec_float)) in
    artifacts <~ io_lift (append_rows (metric_values all_metrics) artifacts) ;;
    let stat_report :=
      [("Stats"%string,
        [CStr "mean"; CStr "std"; CStr "min"; CStr "max"])] in
    stat_report <~
      io_lift (fill_stats (dict_keys artifacts) artifacts stat_report) ;;
    if negb (Nat.eqb (String.length (snd (splitext dest_path))) 0)
    then save_metrics fs dest_path stat_report None
    else
      os_makedirs fs dest_path ;;;
      save_metrics fs dest_path stat_report (Some "report.csv"%string).

End Reporter.


(** The calls of a run that writes its report. *)
Definition report_written (dest_path : string) (stat_report : report)
  : list fs_event :=
  if negb (Nat.eqb (String.length (snd (splitext dest_path))) 0)
  then [SaveMetrics dest_path stat_report None]
  else [MakeDirs dest_path;
        SaveMetrics dest_path stat_report (Some "report.csv"%string)].

(** The file system accepts the calls that write a report at
    [dest_path], which is not the empty path. *)
Definition accepts_report (fs : file_system) (dest_path : string) : Prop :=
  dest_path <> EmptyString /\
  forall (stat_report : report) (ev : fs_event) (trace : list fs_event),
    In ev (report_written dest_path stat_report) -> fs ev trace = None.

End ArtifactsReporter.

(* ================================================================== *)
(** * Vocabulary of the properties *)

(** A float size is accepted exactly when [0 < size <= 1]. *)
Definition in_unit_interval (f : spec_float) : bool :=
  Float64.ltb Float64.zero f && Float64.leb f Float64.one.

Definition raises_assertion {A : Type} (r : result A) : Prop :=
  match r with
  | Raise (AssertionError _) => True
  | _ => False
  end.

(** A sample has a NaN when some value on its non-sample axes is NaN. *)
Definition has_nan (sample : list spec_float) : bool :=
  existsb Float64.is_nan sample.

Definition nan_free (sample : list spec_float) : bool := negb (has_nan sample).

(** A fraction size the float register accepts: a double with
    [0 < size <= 1]. *)
Definition valid_fraction (f : spec_float) : Prop :=
  valid_binary Float64.prec Float64.emax f = true /\
  in_unit_interval f = true.

(** The train sizes for which the split of [N] samples returns. *)
Definition valid_train_size (N : nat) (size : value) : Prop :=
  match size with
  | VFloat f => valid_fraction f
  | VInt z => 1 <= z <= Z.of_nat N
  | _ => False
  end.

(** Strictly increasing index arrays. *)
Inductive increasing : list Z -> Prop :=
| increasing_nil : increasing []
| increasing_cons x l :
    (forall y, In y l -> x < y) -> increasing l -> increasing (x :: l).

(** *** Rounding

    The scaled comparisons used to follow the rounding of a product. *)
Module Rounding.

(** The record [rec] is the mantissa [M] shifted right by [k] bits, and it
    keeps no inexact bit when the shift lost nothing. *)
Definition shifted (M k : Z) (rec : shr_record) : Prop :=
  shr_m rec = M / 2 ^ k /\
  (M mod 2 ^ k = 0 -> shr_r rec = false /\ shr_s rec = false).

(** [m * 2^e <= N] for a non-positive exponent [e]. *)
Definition below (m e N : Z) : Prop := m <= N * 2 ^ (- e).

End Rounding.

(* ================================================================== *)
(** * Sample inputs *)

Module Samples.

Import ArtifactsReporter.

(** A reader for the fields that are unsigned decimal integers, and plain
    reductions over doubles (sums taken from left to right), to run the
    reporter on concrete inputs. *)
Definition digit_of (c : ascii) : option Z :=
  let n := Z.of_nat (nat_of_ascii c) in
  if (48 <=? n) && (n <=? 57) then Some (n - 48) else None.

Fixpoint read_digits (s : string) (acc : Z) : option Z :=
  match s with
  | EmptyString => Some acc
  | String c r =>
      match digit_of c with
      | Some d => read_digits r (10 * acc + d)
      | None => None
      end
  end.

Definition double (z : Z) : spec_float :=
  binary_normalize Float64.prec Float64.emax z 0 false.

Definition float_of_digits (s : string) : option spec_float :=
  match s with
  | EmptyString => None
  | _ =>
      match read_digits s 0 with
      | Some z => Some (double z)
      | None => None
      end
  end.

Definition mean (l : list spec_float) : spec_float :=
  SFdiv Float64.prec Float64.emax
    (fold_left (SFadd Float64.prec Float64.emax) l Float64.zero)
    (double (Z.of_nat (length l))).

Definition std (l : list spec_float) : spec_float :=
  let m := mean l in
  let deviation x := SFsub Float64.prec Float64.emax x m in
  SFsqrt Float64.prec Float64.emax
    (mean (map (fun x => Float64.mul (deviation x) (deviation x)) l)).

Definition pick (better : spec_float -> spec_float -> bool)
    (l : list spec_float) : spec_float :=
  match l with
  | [] => S754_nan
  | x :: r =>
      fold_left (fun a b =>
                   if Float64.is_nan a then a
                   else if Float64.is_nan b then b
                   else if better b a then b else a) r x
  end.

Definition minimum : list spec_float -> spec_float := pick Float64.ltb.
Definition maximum : list spec_float -> spec_float :=
  pick (fun b a => Float64.ltb a b).

(** A shuffle that gathers the samples in reverse order. *)
Definition reverse_order (seed : Z) (n : nat) : list nat := rev (seq 0 n).

(** A machine that is known to hold a million indices. *)
Definition memory : Z := 1000000.

(** A file system that accepts every call. *)
Definition accepting : file_system := fun _ _ => None.


Definition glipc := Preprocessing.get_label_indices_per_class.

(** Thirteen labels of three classes, and hundred and ten samples. *)
Definition labels13 : list Z := [0; 0; 0; 0; 0; 0; 1; 1; 1; 1; 2; 2; 2].
Definition labels16 : list Z :=
  [0; 0; 0; 0; 0; 0; 1; 1; 1; 1; 1; 2; 2; 2; 2; 2].
Definition labels100 : list Z := map (fun i => Z.of_nat i mod 3) (seq 0 100).
Definition data100 : list Z := map Z.of_nat (seq 1000 100).
Definition labels10 : list Z := [0; 1; 2; 0; 1; 2; 0; 1; 2; 0].
Definition data10 : list Z := [10; 11; 12; 13; 14; 15; 16; 17; 18; 19].

(** Three samples, the second with a NaN. *)
Definition samples3 : list (list spec_float) :=
  [[Float64.one; Float64.lit_0_8]; [S754_nan; Float64.one]; [Float64.lit_0_1]].

(** The reporter on loaded runs, with the decimal reader. *)
Definition run_reporter (loaded : all_metrics) (dest_path : string)
  : result unit * list fs_event :=
  collect_artifacts_report (fun _ _ => Ok loaded) accepting
    float_of_digits
    mean std minimum maximum "experiments" dest_path None [].


(** Two runs with the metric sets {acc, f1} and {acc}. *)
Definition inconsistent_runs : all_metrics :=
  {| metric_keys := [["acc"; "f1"]; ["acc"]];
     metric_values := [["1"; "2"]; ["1"]] |}%string.

Definition consistent_runs : all_metrics :=
  {| metric_keys := [["acc"; "f1"]; ["acc"; "f1"]];
     metric_values := [["1"; "2"]; ["3"; "4"]] |}%string.

(** The report of the two consistent runs: acc = [1, 3], f1 = [2, 4]. *)
Definition expected_report : report :=
  [("Stats", [CStr "mean"; CStr "std"; CStr "min"; CStr "max"]);
   ("acc", [CNum (double 2); CNum (double 1); CNum (double 1);
            CNum (double 3)]);
   ("f1", [CNum (double 3); CNum (double 1); CNum (double 2);
           CNum (double 4)])]%string.

End Samples.

(* ================================================================== *)
(** ** src/utils/preprocessing.py: reshape_cube_to_1d_samples *)

Module Reshape.

(** A numpy array as its shape and its elements in C order. *)
Record ndarray (A : Type) : Type := {
  shape : list nat;
  flat : list A
}.

Arguments shape {A} n.
Arguments flat {A} n.

Definition size (sh : list nat) : nat := fold_right Nat.mul 1%nat sh.

Definition well_formed {A : Type} (a : ndarray A) : Prop :=
  length (flat a) = size (shape a).

(** The failures of the function: [np.rollaxis] refuses the axis, the
    unpacking of [data.shape] into three names fails, or [labels] cannot be
    reshaped (the last two are [ValueError]s). *)
Inductive reshape_error : Set :=
| AxisError
| UnpackError
| ReshapeError.

(** [normalize_axis_index(axis, ndim)]: [-ndim <= axis < ndim], a negative
    axis counting from the end. *)
Definition normalize_axis (ndim : nat) (axis : Z) : option nat :=
  if (- Z.of_nat ndim <=? axis) && (axis <? Z.of_nat ndim)
  then Some (Z.to_nat (axis mod Z.of_nat ndim))
  else None.

(** [np.rollaxis(a, axis, 3)] on an array of shape [(d0, d1, d2)] moves
    the axis [axis] to the end: the shape of the result, and the position
    in [a] that its element [(i, j, k)] reads. *)
Definition rolled_shape (axis d0 d1 d2 : nat) : nat * nat * nat :=
  match axis with
  | 0%nat => (d1, d2, d0)
  | 1%nat => (d0, d2, d1)
  | _ => (d0, d1, d2)
  end.

Definition source_index (axis d0 d1 d2 i j k : nat) : nat :=
  match axis with
  | 0%nat => (k * d1 + i) * d2 + j
  | 1%nat => (i * d1 + k) * d2 + j
  | _ => (i * d1 + j) * d2 + k
  end.

Definition gather {A : Type} (elements : list A) (idx : list nat) : list A :=
  flat_map (fun i => match nth_error elements i with
                     | Some x => [x]
                     | None => []
                     end) idx.

(** [rolled.reshape(height * width, channels)]: one row per pair [(i, j)]
    of the first two axes of the rolled array, in C order. *)
Definition pixel_rows {A : Type} (axis d0 d1 d2 : nat) (elements : list A)
  : list (list A) :=
  let '(height, width, channels) := rolled_shape axis d0 d1 d2 in
  flat_map
    (fun i =>
       map (fun j =>
              gather elements
                (map (source_index axis d0 d1 d2 i j) (seq 0 channels)))
           (seq 0 width))
    (seq 0 height).

Fixpoint chunks {A : Type} (rows cols : nat) (l : list A) : list (list A) :=
  match rows with
  | O => []
  | S rows' => firstn cols l :: chunks rows' cols (skipn cols l)
  end.

(** [a.reshape(rows, -1)]: the unknown dimension is inferred when [rows]
    is not zero and divides the size of [a]. *)
Definition reshape_rows {A : Type} (rows : nat) (a : ndarray A)
  : option (list (list A)) :=
  let total := size (shape a) in
  if Nat.eqb rows 0 || negb (Nat.eqb (total mod rows) 0) then None
  else Some (chunks rows (total / rows) (flat a)).

Section Cube.

(** The element types of [data] and [labels], the type of 32-bit floats,
    and the two casts of [astype(np.float32)]. *)
Variables A B F : Type.
Variable data_to_float32 : A -> F.
Variable labels_to_float32 : B -> F.

(** [reshape_cube_to_1d_samples] *)
Definition reshape_cube_to_1d_samples (data : ndarray A)
    (labels : ndarray B) (channels_idx : Z)
  : reshape_error + (list (list F) * list (list F)) :=
  match normalize_axis (length (shape data)) channels_idx with
  | None => inl AxisError
  | Some axis =>
      match shape data with
      | [d0; d1; d2] =>
          let '(height, width, channels) := rolled_shape axis d0 d1 d2 in
          let data' := pixel_rows axis d0 d1 d2 (flat data) in
          match reshape_rows (height * width) labels with
          | None => inl ReshapeError
          | Some labels' =>
              inr (map (map data_to_float32) data',
                   map (map labels_to_float32) labels')
          end
      | _ => inl UnpackError
      end
  end.

End Cube.

(** [astype(np.float32)] on a double: rounding to binary32, to nearest
    with ties to even; NaN, infinities and zeros keep their kind. *)
Definition float32_of_double (f : spec_float) : spec_float :=
  match f with
  | S754_finite s m e => binary_round 24 128 s m e
  | _ => f
  end.

End Reshape.

(* ================================================================== *)
(** * Vocabulary of the further properties *)

(** A size that a double holds: a float that is a double, an int below
    [2^53]. *)
Definition held_by_a_double (size : value) : Prop :=
  match size with
  | VFloat f => valid_binary Float64.prec Float64.emax f = true
  | VInt z => z < 2 ^ 53
  | _ => True
  end.

(** *** The report the reporter is expected to write *)
Module ReportSpec.

Import ArtifactsReporter.

Section Expected.

Variable py_float : string -> option spec_float.
Variables np_mean np_std np_min np_max : list spec_float -> spec_float.

(** The numeric value of a field, as a list of at most one element. *)
Definition numeric (field : string) : list spec_float :=
  match py_float field with
  | Some x => [x]
  | None => []
  end.

(** The values that the pairs of one row give to the key [k]. *)
Definition row_values (k : string) (pairs : list (string * string))
  : list spec_float :=
  flat_map (fun p => if String.eqb (fst p) k then numeric (snd p) else [])
           pairs.

(** The column of the metric at position [i]: the [i]-th field of every
    run that has one, in the order of the runs. *)
Definition column (i : nat) (rows : list (list string)) : list spec_float :=
  flat_map (fun row => match nth_error row i with
                       | Some field => numeric field
                       | None => []
                       end) rows.

Definition stats_of (col : list spec_float) : list cell :=
  [CNum (np_mean col); CNum (np_std col); CNum (np_min col);
   CNum (np_max col)].

Definition expected_report (keys : list string) (rows : list (list string))
  : report :=
  ("Stats"%string, [CStr "mean"; CStr "std"; CStr "min"; CStr "max"])
  :: map (fun ik => (snd ik, stats_of (column (fst ik) rows)))
         (combine (seq 0 (length keys)) keys).

(** The key lists of the runs are one and the same sequence [keys]. *)
Definition consistent_keys (loaded : all_metrics) (keys : list string)
  : Prop :=
  metric_keys loaded <> [] /\
  forall k, In k (metric_keys loaded) -> k = keys.

End Expected.

End ReportSpec.

(** *** The classes after the loop of the list register

    Class [i] is cut to [sizes[i]] as long as there is a count; the
    classes after the last count are left whole. *)
Fixpoint cut_classes (sizes : list Z) (classes : list (list Z))
  : list (list Z) :=
  match sizes, classes with
  | n :: sizes', c :: classes' => slice_to c n :: cut_classes sizes' classes'
  | _, _ => classes
  end.

(** *** Positions in a cube

    The position, in C order, of the element [a][b][c] of an array whose
    last two axes have lengths [d1] and [d2]; and the element of the cube
    that entry [k] of the row of pixel [(i, j)] shows, by channel axis. *)
Definition c_order (d1 d2 a b c : nat) : nat := (a * d1 + b) * d2 + c.

Definition cube_position (axis d1 d2 i j k : nat) : nat :=
  match axis with
  | 0%nat => c_order d1 d2 k i j
  | 1%nat => c_order d1 d2 i k j
  | _ => c_order d1 d2 i j k
  end.

(* ================================================================== *)
(** * Further sample inputs *)

Module MoreSamples.

Import ArtifactsReporter Samples Reshape.

(** Two samples without any NaN. *)
Definition clean2 : list (list spec_float) :=
  [[Float64.one; Float64.lit_0_8]; [Float64.lit_0_1]].

(** Two runs, the second with a field that is not a number. *)
Definition non_numeric_runs : all_metrics :=
  {| metric_keys := [["acc"; "f1"]; ["acc"; "f1"]];
     metric_values := [["1"; "2"]; ["3"; "n/a"]] |}%string.

(** One run that has two metric names and a single field. *)
Definition short_runs : all_metrics :=
  {| metric_keys := [["acc"; "f1"]];
     metric_values := [["1"]] |}%string.

(** The reporter of [Samples.run_reporter] after earlier events. *)
Definition run_reporter_after (loaded : all_metrics) (dest_path : string)
    (before : list fs_event) : result unit * list fs_event :=
  collect_artifacts_report (fun _ _ => Ok loaded) accepting
    float_of_digits
    mean std minimum maximum "experiments" dest_path None before.

(** A file system that refuses every call. *)
Definition read_only : file_system := fun _ _ => Some PermissionError.

(** [astype(np.float32)] on an integer. *)
Definition float32_of_int (z : Z) : spec_float :=
  binary_normalize 24 128 z 0 false.

(** A cube with four channels of two rows and three columns, channels
    first, that holds [0 .. 23]; the same values with the channels last;
    one label per pixel; five labels. *)
Definition cube_chw : ndarray Z :=
  {| shape := [4; 2; 3]; flat := map Z.of_nat (seq 0 24) |}%nat.

Definition cube_hwc : ndarray Z :=
  {| shape := [2; 3; 4]; flat := map Z.of_nat (seq 0 24) |}%nat.

Definition pixel_labels : ndarray Z :=
  {| shape := [2%nat; 3%nat]; flat := [0; 1; 2; 0; 1; 2] |}.

(** A cube of doubles with two channels and two pixels, the second pixel
    with a NaN, and its labels. *)
Definition cube_nan : ndarray spec_float :=
  {| shape := [2; 1; 2];
     flat := [Float64.one; Float64.lit_0_8; Float64.lit_0_1; S754_nan] |}%nat.

Definition two_labels : ndarray Z :=
  {| shape := [1%nat; 2%nat]; flat := [3; 4] |}.

Definition reshape_ints :=
  reshape_cube_to_1d_samples float32_of_int float32_of_int.

(** The split of the ten samples of [Samples], gathered in reverse
    order. *)
Definition split10 :=
  @Preprocessing.train_val_test_split Z Z glipc memory reverse_order data10
    labels10.

End MoreSamples.

(* ================================================================== *)
(** * Properties *)

(** ** The result monad *)

Lemma bind_ok_inv {A B : Type} (r : result A) (k : A -> result B) (b : B) :
  bind r k = Ok b -> exists a, r = Ok a /\ k a = Ok b.
Proof.
  destruct r as [a | e]; simpl; intros H.
  - exists a; split; [reflexivity | exact H].
  - discriminate H.
Qed.

Lemma bind_raise_inv {A B : Type} (r : result A) (k : A -> result B) (e : exn) :
  bind r k = Raise e ->
  r = Raise e \/ exists a, r = Ok a /\ k a = Raise e.
Proof.
  destruct r as [a | e']; simpl; intros H.
  - right; exists a; split; [reflexivity | exact H].
  - left; congruence.
Qed.

Ltac bind_inv H :=
  let a := fresh "a" in
  let Ha := fresh "H" a in
  apply bind_ok_inv in H; destruct H as (a & Ha & H).

(** ** numpy: [arange], [take], [unique], [setdiff1d] *)

Lemma arange_of_nat (n : nat) : Np.arange (Z.of_nat n) = map Z.of_nat (seq 0 n).
Proof. unfold Np.arange. rewrite Nat2Z.id. reflexivity. Qed.

Lemma arange_nonpos (k : Z) : k <= 0 -> Np.arange k = [].
Proof.
  intros Hk. unfold Np.arange.
  replace (Z.to_nat k) with 0%nat by lia. reflexivity.
Qed.

Lemma arange_length (k : Z) : length (Np.arange k) = Z.to_nat k.
Proof. unfold Np.arange. rewrite length_map, length_seq. reflexivity. Qed.

Lemma in_arange (k i : Z) : In i (Np.arange k) <-> 0 <= i < k.
Proof.
  unfold Np.arange. rewrite in_map_iff. split.
  - intros (j & <- & Hj). apply in_seq in Hj. lia.
  - intros Hi. exists (Z.to_nat i). split; [lia |].
    apply in_seq. lia.
Qed.

Lemma arange_as_nat (k : Z) : Np.arange k = Np.arange (Z.of_nat (Z.to_nat k)).
Proof. unfold Np.arange. rewrite Nat2Z.id. reflexivity. Qed.

Lemma take_app {A : Type} (a : list A) (i1 i2 : list Z) :
  Np.take a (i1 ++ i2) =
  (x <- Np.take a i1 ;; y <- Np.take a i2 ;; Ok (x ++ y)).
Proof.
  induction i1 as [| i r IH]; simpl.
  - destruct (Np.take a i2); reflexivity.
  - destruct (Np.getitem a i) as [x | e]; simpl; [| reflexivity].
    rewrite IH.
    destruct (Np.take a r) as [xs | e]; simpl; [| reflexivity].
    destruct (Np.take a i2); reflexivity.
Qed.

Lemma getitem_in_range {A : Type} (a : list A) (j : nat) (x : A) :
  nth_error a j = Some x -> Np.getitem a (Z.of_nat j) = Ok x.
Proof.
  intros Hx. unfold Np.getitem, Np.normalize_index.
  assert (Hj : (j < length a)%nat) by (apply nth_error_Some; congruence).
  replace ((0 <=? Z.of_nat j) && (Z.of_nat j <? Z.of_nat (length a)))
    with true by (symmetry; apply andb_true_iff; split; lia).
  simpl. unfold list_get. rewrite Nat2Z.id, Hx. reflexivity.
Qed.

Lemma getitem_out_of_range {A : Type} (a : list A) (i : Z) :
  Z.of_nat (length a) <= i -> Np.getitem a i = Raise IndexError.
Proof.
  intros Hi. unfold Np.getitem, Np.normalize_index.
  replace ((0 <=? i) && (i <? Z.of_nat (length a)))
    with false by (symmetry; apply andb_false_iff; right; lia).
  replace ((- Z.of_nat (length a) <=? i) && (i <? 0))
    with false by (symmetry; apply andb_false_iff; right; lia).
  reflexivity.
Qed.

Lemma skipn_cons_nth {A : Type} (a : list A) (s : nat) (x : A) :
  nth_error a s = Some x -> skipn s a = x :: skipn (S s) a.
Proof.
  revert s. induction a as [| y a IH]; intros [| s] Hx; simpl in *;
    try discriminate.
  - injection Hx as ->. reflexivity.
  - apply IH. exact Hx.
Qed.

(** Gathering the indices [s, s+1, ..., s+n-1] inside the array is slicing. *)
Lemma take_seq {A : Type} (a : list A) (n s : nat) :
  (s + n <= length a)%nat ->
  Np.take a (map Z.of_nat (seq s n)) = Ok (firstn n (skipn s a)).
Proof.
  revert s. induction n as [| n IH]; intros s Hs.
  - reflexivity.
  - destruct (nth_error a s) as [x |] eqn:Hx.
    2: { apply nth_error_None in Hx. lia. }
    cbn [seq map Np.take].
    rewrite (getitem_in_range _ _ Hx). cbn [bind].
    rewrite IH by lia. cbn [bind].
    rewrite (skipn_cons_nth _ _ Hx). reflexivity.
Qed.

Lemma take_arange_prefix {A : Type} (a : list A) (k : nat) :
  (k <= length a)%nat ->
  Np.take a (Np.arange (Z.of_nat k)) = Ok (firstn k a).
Proof.
  intros Hk. rewrite arange_of_nat, take_seq by lia. reflexivity.
Qed.

Lemma take_arange_out_of_range {A : Type} (a : list A) (k : Z) :
  Z.of_nat (length a) < k -> Np.take a (Np.arange k) = Raise IndexError.
Proof.
  intros Hk. unfold Np.arange.
  replace (Z.to_nat k)
    with (length a + S (Z.to_nat k - length a - 1))%nat by lia.
  rewrite seq_app, map_app, take_app, take_seq by lia.
  simpl. rewrite getitem_out_of_range by lia. reflexivity.
Qed.

Lemma firstn_seq_prefix (j k s : nat) :
  (j <= k)%nat -> firstn j (seq s k) = seq s j.
Proof.
  revert k s. induction j as [| j IH]; intros k s Hjk.
  - reflexivity.
  - destruct k as [| k]; [lia |]. simpl. f_equal. apply IH. lia.
Qed.

(** A successful gather from [arange k] with [arange j] gives [arange j]. *)
Lemma take_arange_arange (k j : Z) (r : list Z) :
  Np.take (Np.arange k) (Np.arange j) = Ok r ->
  r = Np.arange j /\ j <= Z.max k 0.
Proof.
  intros H.
  destruct (Z_lt_le_dec (Z.of_nat (length (Np.arange k))) j) as [Hlt | Hle].
  - rewrite take_arange_out_of_range in H by exact Hlt. discriminate H.
  - rewrite arange_length in Hle. split; [| lia].
    rewrite (arange_as_nat j) in H |- *.
    rewrite take_arange_prefix in H by (rewrite arange_length; lia).
    injection H as <-.
    unfold Np.arange. rewrite !Nat2Z.id, firstn_map.
    rewrite firstn_seq_prefix by lia. reflexivity.
Qed.

Lemma in_insert_sorted (x y : Z) (l : list Z) :
  In x (Np.insert_sorted y l) <-> x = y \/ In x l.
Proof.
  induction l as [| z l IH]; simpl.
  - intuition congruence.
  - destruct (y <? z) eqn:Hlt; simpl.
    + intuition congruence.
    + destruct (y =? z) eqn:Heq; simpl.
      * apply Z.eqb_eq in Heq. subst z. intuition congruence.
      * rewrite IH. intuition congruence.
Qed.

Lemma in_unique (x : Z) (a : list Z) : In x (Np.unique a) <-> In x a.
Proof.
  induction a as [| y a IH]; simpl.
  - reflexivity.
  - rewrite in_insert_sorted, IH. intuition congruence.
Qed.

Lemma increasing_insert_sorted (x : Z) (l : list Z) :
  increasing l -> increasing (Np.insert_sorted x l).
Proof.
  induction 1 as [| z l Hz Hl IH]; simpl.
  - constructor; [intros y [] | constructor].
  - destruct (x <? z) eqn:Hlt.
    + apply Z.ltb_lt in Hlt. constructor.
      * intros y [<- | Hy]; [exact Hlt |]. specialize (Hz _ Hy). lia.
      * constructor; assumption.
    + destruct (x =? z) eqn:Heq.
      * constructor; assumption.
      * apply Z.ltb_ge in Hlt. apply Z.eqb_neq in Heq. constructor.
        -- intros y Hy. apply in_insert_sorted in Hy.
           destruct Hy as [-> | Hy]; [lia | auto].
        -- exact IH.
Qed.

Lemma increasing_unique (a : list Z) : increasing (Np.unique a).
Proof.
  induction a as [| x a IH]; simpl.
  - constructor.
  - apply increasing_insert_sorted. exact IH.
Qed.

Lemma increasing_NoDup (l : list Z) : increasing l -> NoDup l.
Proof.
  induction 1 as [| x l Hx Hl IH]; constructor.
  - intros Hin. specialize (Hx _ Hin). lia.
  - exact IH.
Qed.

Lemma increasing_filter (f : Z -> bool) (l : list Z) :
  increasing l -> increasing (filter f l).
Proof.
  induction 1 as [| x l Hx Hl IH]; simpl.
  - constructor.
  - destruct (f x); [| exact IH].
    constructor; [| exact IH].
    intros y Hy. apply filter_In in Hy. apply Hx, Hy.
Qed.

Lemma unique_increasing (l : list Z) : increasing l -> Np.unique l = l.
Proof.
  induction 1 as [| x l Hx Hl IH]; simpl.
  - reflexivity.
  - rewrite IH. destruct l as [| y r]; simpl.
    + reflexivity.
    + replace (x <? y) with true; [reflexivity |].
      symmetry. apply Z.ltb_lt, Hx. left. reflexivity.
Qed.

Lemma increasing_seq (s n : nat) : increasing (map Z.of_nat (seq s n)).
Proof.
  revert s. induction n as [| n IH]; intros s; simpl.
  - constructor.
  - constructor; [| apply IH].
    intros y Hy. apply in_map_iff in Hy. destruct Hy as (j & <- & Hj).
    apply in_seq in Hj. lia.
Qed.

Lemma filter_none {A : Type} (f : A -> bool) (l : list A) :
  (forall x, In x l -> f x = false) -> filter f l = [].
Proof.
  induction l as [| y l IH]; simpl; intros H.
  - reflexivity.
  - rewrite (H y) by (left; reflexivity). apply IH.
    intros x Hx. apply H. right. exact Hx.
Qed.

Lemma filter_all {A : Type} (f : A -> bool) (l : list A) :
  (forall x, In x l -> f x = true) -> filter f l = l.
Proof.
  induction l as [| y l IH]; simpl; intros H.
  - reflexivity.
  - rewrite (H y) by (left; reflexivity). f_equal. apply IH.
    intros x Hx. apply H. right. exact Hx.
Qed.

Lemma in1d_true (x : Z) (b : list Z) : Np.in1d x b = true <-> In x b.
Proof.
  unfold Np.in1d. rewrite existsb_exists. split.
  - intros (y & Hy & Heq). apply Z.eqb_eq in Heq. subst y. exact Hy.
  - intros Hx. exists x. split; [exact Hx | apply Z.eqb_refl].
Qed.

Lemma in_setdiff1d (x : Z) (a b : list Z) :
  In x (Np.setdiff1d a b) <-> In x a /\ ~ In x b.
Proof.
  unfold Np.setdiff1d. rewrite filter_In, in_unique. split.
  - intros [Ha Hb]. split; [exact Ha |].
    intros Hin. apply in1d_true in Hin. rewrite Hin in Hb. discriminate Hb.
  - intros [Ha Hb]. split; [exact Ha |].
    destruct (Np.in1d x b) eqn:E; [| reflexivity].
    apply in1d_true in E. contradiction.
Qed.

Lemma NoDup_setdiff1d (a b : list Z) : NoDup (Np.setdiff1d a b).
Proof.
  apply increasing_NoDup, increasing_filter, increasing_unique.
Qed.

(** The difference of two initial segments is the segment in between. *)
Lemma setdiff1d_arange (n k : nat) :
  (k <= n)%nat ->
  Np.setdiff1d (Np.arange (Z.of_nat n)) (Np.arange (Z.of_nat k)) =
  map Z.of_nat (seq k (n - k)).
Proof.
  intros Hk. unfold Np.setdiff1d.
  rewrite unique_increasing by (rewrite arange_of_nat; apply increasing_seq).
  rewrite (arange_of_nat n).
  assert (Hn : seq 0 n = seq 0 k ++ seq k (n - k)).
  { replace n with (k + (n - k))%nat at 1 by lia. apply seq_app. }
  rewrite Hn, map_app, filter_app.
  rewrite filter_none, filter_all; [reflexivity | |].
  - intros x Hx. apply negb_true_iff.
    destruct (Np.in1d x (Np.arange (Z.of_nat k))) eqn:Hin; [| reflexivity].
    apply in1d_true, in_arange in Hin.
    apply in_map_iff in Hx. destruct Hx as (j & <- & Hj).
    apply in_seq in Hj. lia.
  - intros x Hx. apply negb_false_iff, in1d_true, in_arange.
    apply in_map_iff in Hx. destruct Hx as (j & <- & Hj).
    apply in_seq in Hj. lia.
Qed.

(* ================================================================== *)
(** ** Binary64 rounding of a product below an integer bound

    [int(len(labels) * size)] rounds the product to a double before it is
    truncated. The lemmas below follow the rounding of the Standard
    Library's specification step by step and show that, for a bound
    [N < 2^53], a value that is at most [N] is rounded to a double that is
    at most [N]. *)

Module RoundingFacts.

Import Float64 Rounding.

Lemma digits2_pos_bounds (p : positive) :
  2 ^ (Zpos (digits2_pos p) - 1) <= Zpos p < 2 ^ Zpos (digits2_pos p).
Proof.
  induction p as [p IH | p IH |]; cbn [digits2_pos].
  - rewrite Pos2Z.inj_succ.
    replace (Z.succ (Zpos (digits2_pos p)) - 1)
      with (Zpos (digits2_pos p)) by lia.
    rewrite Z.pow_succ_r by lia.
    replace (2 ^ Zpos (digits2_pos p))
      with (2 * 2 ^ (Zpos (digits2_pos p) - 1)) at 1
      by (rewrite <- Z.pow_succ_r by lia; f_equal; lia).
    lia.
  - rewrite Pos2Z.inj_succ.
    replace (Z.succ (Zpos (digits2_pos p)) - 1)
      with (Zpos (digits2_pos p)) by lia.
    rewrite Z.pow_succ_r by lia.
    replace (2 ^ Zpos (digits2_pos p))
      with (2 * 2 ^ (Zpos (digits2_pos p) - 1)) at 1
      by (rewrite <- Z.pow_succ_r by lia; f_equal; lia).
    lia.
  - simpl. lia.
Qed.

(** A mantissa below [2^k] has at most [k] digits. *)
Lemma digits_le (p : positive) (k : Z) :
  Zpos p < 2 ^ k -> Zpos (digits2_pos p) <= k.
Proof.
  intros Hp. destruct (digits2_pos_bounds p) as [Hlo _].
  destruct (Z_le_gt_dec (Zpos (digits2_pos p)) k) as [Hle | Hgt];
    [exact Hle | exfalso].
  assert (0 <= k).
  { destruct (Z_le_gt_dec 0 k) as [? | Hneg]; [assumption |].
    rewrite Z.pow_neg_r in Hp by lia. lia. }
  assert (2 ^ k <= 2 ^ (Zpos (digits2_pos p) - 1))
    by (apply Z.pow_le_mono_r; lia).
  lia.
Qed.

Lemma shr_1_m (rec : shr_record) :
  0 <= shr_m rec -> shr_m (shr_1 rec) = shr_m rec / 2.
Proof.
  destruct rec as [m r s]. cbn [shr_m]. intros Hm.
  rewrite <- Z.div2_div.
  destruct m as [| [p | p |] | p]; try reflexivity. lia.
Qed.

Lemma shr_1_r (rec : shr_record) :
  0 <= shr_m rec -> shr_r (shr_1 rec) = Z.odd (shr_m rec).
Proof.
  destruct rec as [m r s]. simpl. intros Hm.
  destruct m as [| [p | p |] | p]; simpl; try lia; reflexivity.
Qed.

Lemma shr_1_s (rec : shr_record) :
  shr_s (shr_1 rec) = shr_r rec || shr_s rec.
Proof.
  destruct rec as [m r s]. simpl.
  destruct m as [| [p | p |] | [p | p |]]; reflexivity.
Qed.

Lemma shifted_step (M k : Z) (rec : shr_record) :
  0 <= M -> 0 <= k -> shifted M k rec -> shifted M (k + 1) (shr_1 rec).
Proof.
  intros HM Hk [Hm Hex].
  assert (Hpos : 0 < 2 ^ k) by (apply Z.pow_pos_nonneg; lia).
  assert (Hm0 : 0 <= shr_m rec).
  { rewrite Hm. apply Z.div_pos; lia. }
  assert (Hpow : 2 ^ (k + 1) = 2 ^ k * 2).
  { rewrite Z.pow_add_r by lia. reflexivity. }
  split.
  - rewrite shr_1_m by exact Hm0. rewrite Hm, Hpow.
    rewrite Z.div_div by lia. reflexivity.
  - intros Hmod.
    assert (Hdiv : M = 2 ^ k * 2 * (M / (2 ^ k * 2))).
    { rewrite Hpow in Hmod. pose proof (Z.div_mod M (2 ^ k * 2)). lia. }
    assert (Hmodk : M mod 2 ^ k = 0).
    { rewrite Hdiv. rewrite <- Z.mul_assoc, Z.mul_comm.
      apply Z.mod_mul. lia. }
    destruct (Hex Hmodk) as [Hr Hs].
    rewrite shr_1_r by exact Hm0. rewrite shr_1_s, Hr, Hs.
    split; [| reflexivity].
    rewrite Hm, Hdiv.
    replace (2 ^ k * 2 * (M / (2 ^ k * 2)))
      with ((2 * (M / (2 ^ k * 2))) * 2 ^ k) by lia.
    rewrite Z.div_mul by lia.
    rewrite Z.odd_mul. reflexivity.
Qed.

Lemma shifted_iter (M : Z) (p : positive) :
  0 <= M ->
  forall (k : Z) (rec : shr_record),
    0 <= k -> shifted M k rec ->
    shifted M (k + Zpos p) (iter_pos shr_1 p rec).
Proof.
  intros HM. induction p as [p IH | p IH |]; intros k rec Hk Hrec;
    cbn [iter_pos].
  - replace (k + Zpos p~1) with (k + 1 + Zpos p + Zpos p) by lia.
    apply IH; [lia |]. apply IH; [lia |].
    apply shifted_step; assumption.
  - replace (k + Zpos p~0) with (k + Zpos p + Zpos p) by lia.
    apply IH; [lia |]. apply IH; assumption.
  - apply shifted_step; assumption.
Qed.

Lemma pow_split (e n : Z) :
  0 <= n -> e + n <= 0 -> 2 ^ (- e) = 2 ^ (- (e + n)) * 2 ^ n.
Proof.
  intros Hn He. rewrite <- Z.pow_add_r by lia. f_equal. lia.
Qed.

Lemma below_shift (m e n N : Z) :
  0 <= n -> e + n <= 0 -> below m e N -> below (m / 2 ^ n) (e + n) N.
Proof.
  unfold below. intros Hn He Hm.
  rewrite (@pow_split e n Hn He) in Hm.
  assert (0 < 2 ^ n) by (apply Z.pow_pos_nonneg; lia).
  apply Z.div_le_upper_bound; [assumption | lia].
Qed.

Lemma below_shift_up (m e n N : Z) :
  0 <= n -> e + n <= 0 -> below m e N -> m mod 2 ^ n <> 0 ->
  below (m / 2 ^ n + 1) (e + n) N.
Proof.
  unfold below. intros Hn He Hm Hmod.
  rewrite (@pow_split e n Hn He) in Hm.
  assert (HP : 0 < 2 ^ n) by (apply Z.pow_pos_nonneg; lia).
  pose proof (Z.div_mod m (2 ^ n) ltac:(lia)) as Hdm.
  pose proof (Z.mod_pos_bound m (2 ^ n) HP) as Hb.
  set (q := m / 2 ^ n) in *. set (r := m mod 2 ^ n) in *.
  set (P := 2 ^ n) in *. set (B := N * 2 ^ (- (e + n))) in *.
  assert (P * q < P * B) by lia.
  assert (q < B) by (apply (Z.mul_lt_mono_pos_l P); assumption).
  lia.
Qed.

(** A positive mantissa below [N < 2^53] at exponent [e] has at most
    [53 - e] digits. *)
Lemma below_digits (m e N : Z) :
  0 <= m -> e <= 0 -> N < 2 ^ 53 -> below m e N -> Zdigits2 m + e <= 53.
Proof.
  unfold below. intros Hm He HN Hb.
  destruct m as [| p | p]; cbn [Zdigits2]; [lia | | lia].
  assert (HP : 0 < 2 ^ (- e)) by (apply Z.pow_pos_nonneg; lia).
  assert (Zpos p < 2 ^ (53 - e)).
  { replace (53 - e) with (53 + - e) by lia.
    rewrite Z.pow_add_r by lia.
    apply Z.le_lt_trans with (N * 2 ^ (- e)); [exact Hb |].
    apply Z.mul_lt_mono_pos_r; assumption. }
  pose proof (@digits_le p (53 - e) ltac:(assumption)). lia.
Qed.

Lemma shr_fexp_shifted (m e : Z) (rec : shr_record) (e' : Z) :
  0 <= m ->
  shr_fexp prec emax m e loc_Exact = (rec, e') ->
  exists n, 0 <= n /\ e' = e + n /\ shifted m n rec /\
            e' = Z.max e (fexp prec emax (Zdigits2 m + e)).
Proof.
  intros Hm. unfold shr_fexp, shr. cbn [shr_record_of_loc].
  assert (H0 : shifted m 0 {| shr_m := m; shr_r := false; shr_s := false |}).
  { split; cbn [shr_m shr_r shr_s]; [| auto].
    rewrite Z.pow_0_r, Z.div_1_r. reflexivity. }
  destruct (fexp prec emax (Zdigits2 m + e) - e) as [| p | p] eqn:Hn;
    intros H; injection H as <- <-.
  - exists 0. repeat split; try lia; apply H0.
  - exists (Zpos p). split; [lia |]. split; [reflexivity |]. split; [| lia].
    apply (@shifted_iter m p Hm 0 _ (Z.le_refl 0) H0).
  - exists 0. repeat split; try lia; apply H0.
Qed.

Lemma round_nearest_even_cases (rec : shr_record) :
  round_nearest_even (shr_m rec) (loc_of_shr_record rec) = shr_m rec \/
  (round_nearest_even (shr_m rec) (loc_of_shr_record rec) = shr_m rec + 1 /\
   (shr_r rec = true \/ shr_s rec = true)).
Proof.
  destruct rec as [m [|] [|]]; cbn; auto.
  destruct (Z.even m); auto.
Qed.

(** Rounding a value that is at most [N < 2^53] gives zero or a finite
    double that is at most [N]. *)
Lemma round_below (mx : positive) (ex N : Z) :
  N < 2 ^ 53 -> ex <= 0 -> below (Zpos mx) ex N ->
  binary_round_aux prec emax false (Zpos mx) ex loc_Exact = S754_zero false \/
  exists m e,
    binary_round_aux prec emax false (Zpos mx) ex loc_Exact =
      S754_finite false m e /\
    e <= 0 /\ below (Zpos m) e N.
Proof.
  intros HN Hex Hb. unfold binary_round_aux.
  destruct (shr_fexp prec emax (Zpos mx) ex loc_Exact) as [rec1 e1] eqn:H1.
  apply shr_fexp_shifted in H1; [| lia].
  destruct H1 as (n1 & Hn1 & He1 & [Hm1 Hexact1] & Hmax1).
  assert (Hd1 : Zdigits2 (Zpos mx) + ex <= 53)
    by (apply (@below_digits (Zpos mx) ex N); try assumption; lia).
  assert (He1' : e1 <= 0).
  { rewrite Hmax1. unfold fexp, emin, prec, emax. lia. }
  assert (HP1 : 0 < 2 ^ n1) by (apply Z.pow_pos_nonneg; lia).
  assert (Hm1pos : 0 <= shr_m rec1).
  { rewrite Hm1. apply Z.div_pos; lia. }
  set (m2 := round_nearest_even (shr_m rec1) (loc_of_shr_record rec1)).
  assert (Hm2 : 0 <= m2 /\ below m2 e1 N).
  { subst e1. unfold m2.
    destruct (round_nearest_even_cases rec1) as [-> | [-> Hinexact]].
    - split; [exact Hm1pos |]. rewrite Hm1. apply below_shift; assumption.
    - split; [lia |]. rewrite Hm1. apply below_shift_up; try assumption.
      intros Hmod. destruct (Hexact1 Hmod) as [Hr Hs].
      destruct Hinexact; congruence. }
  destruct Hm2 as [Hm2pos Hm2b].
  destruct (shr_fexp prec emax m2 e1 loc_Exact) as [rec2 e2] eqn:H2.
  apply shr_fexp_shifted in H2; [| exact Hm2pos].
  destruct H2 as (n2 & Hn2 & He2 & [Hm2' _] & Hmax2).
  assert (Hd2 : Zdigits2 m2 + e1 <= 53)
    by (apply (@below_digits m2 e1 N); assumption).
  assert (He2' : e2 <= 0).
  { rewrite Hmax2. unfold fexp, emin, prec, emax. lia. }
  assert (HP2 : 0 < 2 ^ n2) by (apply Z.pow_pos_nonneg; lia).
  assert (Hfinal : below (shr_m rec2) e2 N).
  { rewrite Hm2', He2. apply below_shift; try assumption. lia. }
  assert (Hpos2 : 0 <= shr_m rec2).
  { rewrite Hm2'. apply Z.div_pos; lia. }
  destruct (shr_m rec2) as [| m | m]; [left; reflexivity | | lia].
  right. exists m, e2.
  replace (e2 <=? emax - prec) with true
    by (symmetry; apply Z.leb_le; unfold emax, prec; lia).
  repeat split; assumption.
Qed.

Lemma iter_xO_pow (p d : positive) :
  Zpos (Pos.iter xO p d) = Zpos p * 2 ^ Zpos d.
Proof.
  induction d as [| d IH] using Pos.peano_ind.
  - simpl. lia.
  - rewrite Pos.iter_succ, Pos2Z.inj_xO, IH, Pos2Z.inj_succ.
    rewrite Z.pow_succ_r by lia. lia.
Qed.

(** [float(N)] for [0 <= N < 2^53] is zero or a finite non-negative double
    that is at most [N]. *)
Lemma of_int_below (N : Z) :
  0 <= N < 2 ^ 53 ->
  of_int N = Ok (S754_zero false) \/
  exists m e, of_int N = Ok (S754_finite false m e) /\
              e <= 0 /\ below (Zpos m) e N.
Proof.
  intros HN. unfold of_int, binary_normalize.
  destruct N as [| p | p]; [left; reflexivity | | lia].
  unfold binary_round, shl_align.
  assert (Hd : Zpos (digits2_pos p) <= 53) by (apply digits_le; lia).
  assert (Hstart :
    exists mz ez,
      (match fexp prec emax (Zpos (digits2_pos p) + 0) - 0 with
       | Zneg d => (Pos.iter xO p d, fexp prec emax (Zpos (digits2_pos p) + 0))
       | _ => (p, 0)
       end) = (mz, ez) /\ ez <= 0 /\ below (Zpos mz) ez (Zpos p)).
  { destruct (fexp prec emax (Zpos (digits2_pos p) + 0) - 0)
      as [| q | q] eqn:Hq.
    - exists p, 0. repeat split; try lia. unfold below. simpl. lia.
    - exists p, 0. repeat split; try lia. unfold below. simpl. lia.
    - eexists. eexists. split; [reflexivity |].
      assert (Hez : fexp prec emax (Zpos (digits2_pos p) + 0) = Zneg q) by lia.
      rewrite Hez. split; [lia |].
      unfold below. rewrite iter_xO_pow. simpl (- Zneg q). lia. }
  destruct Hstart as (mz & ez & -> & Hez & Hb).
  destruct (@round_below mz ez (Zpos p) ltac:(lia) Hez Hb)
    as [-> | (m & e & -> & He & Hm)].
  - left. reflexivity.
  - right. exists m, e. repeat split; assumption.
Qed.

(** A double [size] with [0 < size <= 1] is finite, positive and at most
    one. *)
Lemma unit_interval_below (size : spec_float) :
  valid_binary prec emax size = true ->
  (ltb zero size && leb size one = true) ->
  exists ms es, size = S754_finite false ms es /\
                es <= 0 /\ below (Zpos ms) es 1.
Proof.
  intros Hvalid Hunit. apply andb_true_iff in Hunit.
  destruct Hunit as [Hlt Hle]. unfold ltb, leb, SFltb, SFleb in *.
  destruct size as [s | s | | s m e]; cbn [SFcompare zero one] in Hlt, Hle;
    try discriminate.
  - destruct s; discriminate.
  - destruct s; [discriminate |].
    exists m, e. split; [reflexivity |].
    cbn [valid_binary] in Hvalid.
    unfold bounded, canonical_mantissa in Hvalid.
    apply andb_true_iff in Hvalid. destruct Hvalid as [Hcanon _].
    apply Z.eqb_eq in Hcanon. unfold fexp, emin, prec, emax in Hcanon.
    destruct (digits2_pos_bounds m) as [_ Hhi].
    assert (Hd : Zpos (digits2_pos m) <= 53) by lia.
    assert (Hm : Zpos m < 2 ^ 53).
    { apply Z.lt_le_trans with (2 ^ Zpos (digits2_pos m)); [exact Hhi |].
      apply Z.pow_le_mono_r; lia. }
    unfold below. rewrite Z.mul_1_l.
    destruct (e ?= -52) eqn:Hcmp.
    + apply Z.compare_eq in Hcmp. subst e. split; [lia |].
      change (- -52) with 52.
      destruct (Pos.compare_cont Eq m 4503599627370496) eqn:Hm52;
        try discriminate.
      * apply Pos.compare_eq in Hm52. subst m. apply Z.le_refl.
      * assert (Hz : Zpos m < 4503599627370496) by exact Hm52.
        clear Hm52 Hcanon Hhi. change (2 ^ 52) with 4503599627370496.
        apply Z.lt_le_incl. exact Hz.
    + change (e < -52) in Hcmp. split; [lia |].
      apply Z.le_trans with (2 ^ 53); [lia |].
      apply Z.pow_le_mono_r; lia.
    + discriminate.
Qed.

Lemma to_int_below (m : positive) (e N : Z) :
  e <= 0 -> below (Zpos m) e N ->
  exists n, to_int (S754_finite false m e) = Ok n /\
            floor (S754_finite false m e) = Some n /\ 0 <= n <= N.
Proof.
  unfold below. intros He Hb. simpl.
  eexists. split; [reflexivity |]. split; [reflexivity |].
  destruct (0 <=? e) eqn:H0.
  - apply Z.leb_le in H0. assert (e = 0) by lia. subst e.
    simpl in *. lia.
  - assert (0 < 2 ^ (- e)) by (apply Z.pow_pos_nonneg; lia).
    split.
    + apply Z.div_pos; lia.
    + apply Z.div_le_upper_bound; [assumption | lia].
Qed.

(** [int(N * size)] for [0 <= N < 2^53] and [0 < size <= 1]: the product
    is a finite double, its truncation is its floor, and it lies between
    [0] and [N]. *)
Lemma int_mul_in_range (N : Z) (size : spec_float) :
  0 <= N < 2 ^ 53 ->
  valid_binary prec emax size = true ->
  (ltb zero size && leb size one = true) ->
  exists p n, int_mul N size = Ok p /\ to_int p = Ok n /\
              floor p = Some n /\ 0 <= n <= N.
Proof.
  intros HN Hvalid Hunit.
  destruct (unit_interval_below size Hvalid Hunit)
    as (ms & es & -> & Hes & Hms).
  unfold int_mul.
  destruct (of_int_below HN) as [-> | (m & e & -> & He & Hm)]; cbn [bind].
  - exists (S754_zero false), 0. repeat split; try reflexivity; lia.
  - unfold mul, SFmul. cbn [xorb].
    assert (Hb : below (Zpos (m * ms)) (e + es) N).
    { unfold below in *. rewrite Pos2Z.inj_mul.
      replace (- (e + es)) with (- e + - es) by lia.
      rewrite Z.pow_add_r by lia. rewrite Z.mul_1_l in Hms.
      rewrite Z.mul_assoc.
      apply Z.mul_le_mono_nonneg; lia. }
    destruct (@round_below (m * ms)%positive (e + es) N
                ltac:(lia) ltac:(lia) Hb)
      as [-> | (m' & e' & -> & He' & Hm')].
    + exists (S754_zero false), 0. repeat split; try reflexivity; lia.
    + destruct (to_int_below He' Hm') as (n & Hn & Hf & Hrange).
      eexists. exists n. split; [reflexivity |]. auto.
Qed.

End RoundingFacts.

(* ================================================================== *)
(** ** Exact cases of the double product

    An integer below [2^53] is a double, and a double times [1.0] is
    itself: [int(N * 1.0)] is [N]. *)

Module RoundingExact.

Import Float64 Rounding RoundingFacts.

Lemma digits_unique (p : positive) (d : Z) :
  2 ^ (d - 1) <= Zpos p < 2 ^ d -> Zpos (digits2_pos p) = d.
Proof.
  intros [Hlo Hhi]. destruct (digits2_pos_bounds p) as [Dlo Dhi].
  set (D := Zpos (digits2_pos p)) in *.
  assert (HD : 1 <= D) by (unfold D; lia).
  assert (Hd : 1 <= d).
  { destruct (Z_le_gt_dec 1 d) as [? | Hneg]; [assumption |].
    assert (d = 0 \/ d < 0) as [-> | Hd] by lia.
    - simpl in Hhi. lia.
    - rewrite Z.pow_neg_r in Hhi by lia. lia. }
  destruct (Z.lt_trichotomy D d) as [Hlt | [Heq | Hgt]]; [| exact Heq |].
  - assert (2 ^ D <= 2 ^ (d - 1)) by (apply Z.pow_le_mono_r; lia). lia.
  - assert (2 ^ d <= 2 ^ (D - 1)) by (apply Z.pow_le_mono_r; lia). lia.
Qed.

Lemma digits_scaled (m mx : positive) (n : Z) :
  0 <= n -> Zpos mx = Zpos m * 2 ^ n ->
  Zpos (digits2_pos mx) = Zpos (digits2_pos m) + n.
Proof.
  intros Hn Hmx. apply digits_unique. rewrite Hmx.
  destruct (digits2_pos_bounds m) as [Dlo Dhi].
  assert (HP : 0 < 2 ^ n) by (apply Z.pow_pos_nonneg; lia).
  replace (Zpos (digits2_pos m) + n - 1)
    with (Zpos (digits2_pos m) - 1 + n) by lia.
  rewrite !Z.pow_add_r by lia. split.
  - apply Z.mul_le_mono_nonneg_r; lia.
  - apply Z.mul_lt_mono_pos_r; lia.
Qed.

(** Rounding a mantissa that is a canonical one shifted left by [n] bits
    gives the canonical double back. *)
Lemma round_exact_shift (s : bool) (m mx : positive) (e n : Z) :
  0 <= n ->
  fexp prec emax (Zpos (digits2_pos m) + e) = e ->
  e <= emax - prec ->
  Zpos mx = Zpos m * 2 ^ n ->
  binary_round_aux prec emax s (Zpos mx) (e - n) loc_Exact =
  S754_finite s m e.
Proof.
  intros Hn Hcanon Hmax Hmx. unfold binary_round_aux.
  assert (HP : 0 < 2 ^ n) by (apply Z.pow_pos_nonneg; lia).
  destruct (shr_fexp prec emax (Zpos mx) (e - n) loc_Exact)
    as [rec1 e1] eqn:H1.
  apply shr_fexp_shifted in H1; [| lia].
  destruct H1 as (n1 & Hn1 & He1 & [Hm1 Hexact1] & Hmax1).
  cbn [Zdigits2] in Hmax1.
  rewrite (@digits_scaled m mx n Hn Hmx) in Hmax1.
  replace (Zpos (digits2_pos m) + n + (e - n))
    with (Zpos (digits2_pos m) + e) in Hmax1 by lia.
  rewrite Hcanon in Hmax1.
  assert (n1 = n) by lia. subst n1.
  assert (He1' : e1 = e) by lia. subst e1.
  rewrite Hmx, Z.div_mul in Hm1 by lia.
  destruct Hexact1 as [Hr Hs].
  { rewrite Hmx. apply Z.mod_mul. lia. }
  destruct rec1 as [m1 r1 s1]. cbn [shr_m shr_r shr_s] in *. subst m1 r1 s1.
  cbn [loc_of_shr_record round_nearest_even].
  destruct (shr_fexp prec emax (Zpos m) (e - n + n) loc_Exact)
    as [rec2 e2] eqn:H2.
  apply shr_fexp_shifted in H2; [| lia].
  destruct H2 as (n2 & Hn2 & He2 & [Hm2 _] & Hmax2).
  cbn [Zdigits2] in Hmax2.
  replace (e - n + n) with e in * by lia.
  rewrite Hcanon in Hmax2.
  assert (n2 = 0) by lia. subst n2.
  rewrite Z.pow_0_r, Z.div_1_r in Hm2. rewrite Hm2.
  replace e2 with e by lia.
  replace (e <=? emax - prec) with true
    by (symmetry; apply Z.leb_le; exact Hmax).
  reflexivity.
Qed.

(** [x * 1.0 = x] for every finite double. *)
Lemma mul_one (s : bool) (m : positive) (e : Z) :
  valid_binary prec emax (S754_finite s m e) = true ->
  mul (S754_finite s m e) one = S754_finite s m e.
Proof.
  intros Hvalid. cbn [valid_binary] in Hvalid.
  unfold bounded, canonical_mantissa in Hvalid.
  apply andb_true_iff in Hvalid. destruct Hvalid as [Hcanon Hmax].
  apply Z.eqb_eq in Hcanon. apply Z.leb_le in Hmax.
  unfold mul, one, SFmul. rewrite xorb_false_r.
  change (e + -52) with (e - 52).
  apply round_exact_shift; try assumption; [lia |].
  rewrite Pos2Z.inj_mul. reflexivity.
Qed.

(** [float(N)] for [0 < N < 2^53] is the double of value [N]. *)
Lemma of_int_exact (N : Z) :
  0 < N < 2 ^ 53 ->
  exists m e,
    of_int N = Ok (S754_finite false m e) /\
    valid_binary prec emax (S754_finite false m e) = true /\
    e <= 0 /\ Zpos m = N * 2 ^ (- e).
Proof.
  intros HN. destruct N as [| p | p]; try lia.
  unfold of_int, binary_normalize, binary_round, shl_align.
  assert (Hd : Zpos (digits2_pos p) <= 53) by (apply digits_le; lia).
  assert (Hfexp : fexp prec emax (Zpos (digits2_pos p) + 0) =
                  Zpos (digits2_pos p) - 53).
  { unfold fexp, emin, prec, emax. lia. }
  rewrite Hfexp.
  assert (Hstart :
    exists mz,
      (match Zpos (digits2_pos p) - 53 - 0 with
       | Zneg d => (Pos.iter xO p d, Zpos (digits2_pos p) - 53)
       | _ => (p, 0)
       end) = (mz, Zpos (digits2_pos p) - 53) /\
      Zpos mz = Zpos p * 2 ^ (53 - Zpos (digits2_pos p))).
  { destruct (Zpos (digits2_pos p) - 53 - 0) as [| q | q] eqn:Hq.
    - exists p. replace (Zpos (digits2_pos p) - 53) with 0 by lia.
      split; [reflexivity |].
      replace (53 - Zpos (digits2_pos p)) with 0 by lia. simpl. lia.
    - lia.
    - eexists. split; [reflexivity |].
      rewrite iter_xO_pow. f_equal. f_equal. lia. }
  destruct Hstart as (mz & -> & Hmz).
  set (ez := Zpos (digits2_pos p) - 53) in *.
  assert (Hdz : Zpos (digits2_pos mz) = 53).
  { rewrite (@digits_scaled p mz (53 - Zpos (digits2_pos p)));
      [lia | lia | exact Hmz]. }
  assert (Hcanon : fexp prec emax (Zpos (digits2_pos mz) + ez) = ez).
  { rewrite Hdz. unfold fexp, emin, prec, emax, ez. lia. }
  assert (Hmax : ez <= emax - prec) by (unfold emax, prec, ez; lia).
  pose proof (@round_exact_shift false mz mz ez 0 (Z.le_refl 0) Hcanon Hmax)
    as Hround.
  rewrite Z.sub_0_r in Hround. rewrite Hround by (simpl; lia).
  exists mz, ez. split; [reflexivity |]. split.
  - cbn [valid_binary]. unfold bounded, canonical_mantissa.
    apply andb_true_iff. split; [apply Z.eqb_eq | apply Z.leb_le];
      assumption.
  - split; [unfold ez; lia |].
    rewrite Hmz. f_equal. f_equal. unfold ez. lia.
Qed.

(** [int(N * 1.0) = N] for [0 <= N < 2^53]. *)
Lemma int_mul_one (N : Z) :
  0 <= N < 2 ^ 53 ->
  exists p, int_mul N one = Ok p /\ to_int p = Ok N.
Proof.
  intros HN. unfold int_mul.
  destruct (Z.eq_dec N 0) as [-> | Hpos].
  - exists (S754_zero false). split; reflexivity.
  - destruct (@of_int_exact N ltac:(lia)) as (m & e & -> & Hvalid & He & Hm).
    cbn [bind]. rewrite (@mul_one false m e Hvalid).
    eexists. split; [reflexivity |].
    cbn [to_int cond_Zopp]. f_equal.
    assert (HP : 0 < 2 ^ (- e)) by (apply Z.pow_pos_nonneg; lia).
    destruct (0 <=? e) eqn:H0.
    + apply Z.leb_le in H0. assert (e = 0) by lia. subst e.
      simpl in *. lia.
    + rewrite Hm. apply Z.div_mul. lia.
Qed.

(** An [int] below [2^53] survives the conversion to a double and back. *)
Lemma of_int_to_int (N : Z) :
  0 < N < 2 ^ 53 ->
  exists f, of_int N = Ok f /\ to_int f = Ok N.
Proof.
  intros HN.
  destruct (@of_int_exact N HN) as (m & e & Hf & _ & He & Hm).
  exists (S754_finite false m e). split; [exact Hf |].
  cbn [to_int cond_Zopp]. f_equal.
  assert (HP : 0 < 2 ^ (- e)) by (apply Z.pow_pos_nonneg; lia).
  destruct (0 <=? e) eqn:H0.
  - apply Z.leb_le in H0. assert (e = 0) by lia. subst e.
    simpl in *. lia.
  - rewrite Hm. apply Z.div_mul. lia.
Qed.

End RoundingExact.

(* ================================================================== *)
(** ** Size resolution and the split *)

Lemma of_int_raise (z : Z) (e : exn) :
  Float64.of_int z = Raise e -> e = OverflowError.
Proof.
  unfold Float64.of_int.
  destruct (binary_normalize _ _ _ _ _); intros H; congruence.
Qed.

Lemma to_int_raise (f : spec_float) (e : exn) :
  Float64.to_int f = Raise e -> e = ValueError \/ e = OverflowError.
Proof.
  destruct f; simpl; intros H; try discriminate H;
    injection H as <-; auto.
Qed.

(** *** [np.arange] on an [int] of any size *)

Ltac decide_bounds :=
  repeat match goal with
         | |- context [?a <? ?b] => destruct (Z.ltb_spec a b); try lia
         | |- context [?a <=? ?b] => destruct (Z.leb_spec a b); try lia
         | |- context [?a =? ?b] => destruct (Z.eqb_spec a b); try lia
         end.

(** Up to [2^53] and within the capacity, the result is [0 .. stop - 1]. *)
Lemma arange_int_exact (capacity stop : Z) :
  0 < stop < 2 ^ 53 ->
  stop <= capacity ->
  Np.arange_int capacity stop = Ok (Np.arange stop).
Proof.
  intros Hstop Hcap. unfold Np.arange_int.
  destruct (RoundingExact.of_int_to_int Hstop) as (f & -> & ->).
  cbn [bind]. decide_bounds. reflexivity.
Qed.

Lemma arange_int_beyond_capacity (capacity stop : Z) :
  0 < stop < 2 ^ 53 ->
  capacity < stop ->
  Np.arange_int capacity stop = Raise MemoryError.
Proof.
  intros Hstop Hcap. unfold Np.arange_int.
  destruct (RoundingExact.of_int_to_int Hstop) as (f & -> & ->).
  cbn [bind]. decide_bounds. reflexivity.
Qed.

(** Whatever [stop], a result is an initial segment of the integers. *)
Lemma arange_int_ok (capacity stop : Z) (idx : list Z) :
  Np.arange_int capacity stop = Ok idx -> exists k, idx = Np.arange k.
Proof.
  unfold Np.arange_int.
  destruct (Float64.of_int stop) as [f | e]; [| discriminate].
  destruct (Float64.to_int f) as [len | e]; [| discriminate].
  cbn [bind].
  destruct (_ || _); [discriminate |].
  destruct (len =? _); [intros H; injection H as <-; exists 0; reflexivity |].
  destruct (_ <=? len); [discriminate |].
  destruct (len <=? 0); [intros H; injection H as <-; exists 0; reflexivity |].
  destruct (len <=? capacity); [| discriminate].
  intros H. injection H as <-. exists len. reflexivity.
Qed.

(** It never raises an assertion failure. *)
Lemma arange_int_raise (capacity stop : Z) (e : exn) :
  Np.arange_int capacity stop = Raise e ->
  e = ValueError \/ e = OverflowError \/ e = MemoryError.
Proof.
  unfold Np.arange_int.
  destruct (Float64.of_int stop) as [f | e']; [| intros H; injection H; auto].
  destruct (Float64.to_int f) as [len | e'] eqn:Hlen; cbn [bind].
  - destruct (_ || _); [intros H; injection H; auto |].
    destruct (len =? _); [discriminate |].
    destruct (_ <=? len); [intros H; injection H; auto |].
    destruct (len <=? 0); [discriminate |].
    destruct (len <=? capacity); [discriminate |].
    intros H; injection H; auto.
  - intros H. injection H as <-.
    destruct (to_int_raise _ Hlen) as [-> | ->]; auto.
Qed.

Section SplitFacts.

Variables L X : Type.
Variable get_label_indices_per_class : list L -> list (list Z) * list L.
Variable memory : Z.
Variable shuffle_order : Z -> nat -> list nat.
Hypothesis shuffle_order_perm :
  forall seed n, Permutation (shuffle_order seed n) (seq 0 n).

Local Abbreviation resolve :=
  (Preprocessing._get_set_indices get_label_indices_per_class memory).
Local Abbreviation resolve_list :=
  (Preprocessing._get_set_indices_list get_label_indices_per_class).
Local Abbreviation split_indices :=
  (Preprocessing.split_indices get_label_indices_per_class memory).
Local Abbreviation shuffle := (Preprocessing.shuffle shuffle_order).
Local Abbreviation train_val_test_split :=
  (@Preprocessing.train_val_test_split L X get_label_indices_per_class memory
     shuffle_order).

(** *** The joint shuffle is a permutation of each array *)

Lemma gather_all {A : Type} (pre a : list A) :
  flat_map (fun i => match nth_error (pre ++ a) i with
                     | Some x => [x]
                     | None => []
                     end)
           (seq (length pre) (length a)) = a.
Proof.
  revert pre. induction a as [| x a IH]; intros pre; simpl.
  - reflexivity.
  - rewrite nth_error_app2 by lia. rewrite Nat.sub_diag. simpl. f_equal.
    specialize (IH (pre ++ [x])).
    rewrite <- app_assoc, length_app in IH. simpl in IH.
    rewrite Nat.add_1_r in IH. exact IH.
Qed.

Lemma shuffle_perm {A : Type} (seed : Z) (a : list A) :
  Permutation (shuffle seed a) a.
Proof.
  unfold Preprocessing.shuffle.
  eapply Permutation_trans.
  - apply Permutation_flat_map, shuffle_order_perm.
  - pose proof (gather_all [] a) as H. simpl in H.
    rewrite H. apply Permutation_refl.
Qed.

Lemma shuffle_length {A : Type} (seed : Z) (a : list A) :
  length (shuffle seed a) = length a.
Proof. apply Permutation_length, shuffle_perm. Qed.

(** *** What size resolution returns *)

Lemma resolve_float_eq (f : spec_float) (labels : list L) :
  in_unit_interval f = true ->
  resolve (VFloat f) labels [] =
  (p <- Float64.int_mul (Z.of_nat (length labels)) f ;;
   n <- Float64.to_int p ;; Ok (Np.arange n)).
Proof.
  unfold in_unit_interval. intros Hf. simpl.
  unfold Preprocessing._get_set_indices_float. rewrite Hf. reflexivity.
Qed.

(** An int size that a double holds and the memory allows resolves to
    [0 .. size - 1]; the memory allows every size up to the number of
    labels. *)
Lemma resolve_int_eq (z : Z) (labels : list L) :
  1 <= z < 2 ^ 53 ->
  z <= Z.max memory (Z.of_nat (length labels)) ->
  resolve (VInt z) labels [] = Ok (Np.arange z).
Proof.
  intros Hz Hcap. simpl. unfold Preprocessing._get_set_indices_int.
  replace (z <? 1) with false by (symmetry; apply Z.ltb_ge; lia).
  unfold Preprocessing.capacity.
  rewrite arange_int_exact by (try exact Hcap; lia). reflexivity.
Qed.

(** Below [2^53] an int size that resolves at all resolves to
    [0 .. size - 1]. *)
Lemma resolve_int_ok_inv (z : Z) (labels : list L) (idx : list Z) :
  z < 2 ^ 53 ->
  resolve (VInt z) labels [] = Ok idx ->
  1 <= z /\ idx = Np.arange z.
Proof.
  intros Hz H. simpl in H. unfold Preprocessing._get_set_indices_int in H.
  destruct (z <? 1) eqn:Hone; [discriminate H |].
  apply Z.ltb_ge in Hone. split; [exact Hone |].
  destruct (Z_le_gt_dec z (Preprocessing.capacity memory labels))
    as [Hcap | Hcap].
  - rewrite arange_int_exact in H by (try exact Hcap; lia).
    injection H as <-. reflexivity.
  - rewrite arange_int_beyond_capacity in H by lia. discriminate H.
Qed.

(** Every successful two-argument resolution is an initial segment. *)
Lemma resolve_ok_arange (size : value) (labels : list L) (t : list Z) :
  resolve size labels [] = Ok t -> exists k, t = Np.arange k.
Proof.
  destruct size as [z | f | l |]; simpl; try discriminate.
  - unfold Preprocessing._get_set_indices_int.
    destruct (z <? 1); [discriminate |].
    intros H. bind_inv H. injection H as <-.
    eapply arange_int_ok. eassumption.
  - unfold Preprocessing._get_set_indices_float.
    destruct (negb _); [discriminate |].
    intros H. bind_inv H. bind_inv H.
    injection H as <-. exists a0. reflexivity.
Qed.

(** C1 (code defect). [train_val_test_split] calls
    [_get_set_indices(train_size, labels)] with two arguments, and the
    function registered for [list] declares three positional parameters:
    for every list size, [5, 3, 2] included, and every label vector the
    call raises [TypeError] and returns no index set, and so does
    [train_val_test_split]. *)
Theorem list_size_call_raises_type_error :
  forall (size : list value) (labels : list L),
    resolve (VList size) labels [] = Raise (TypeError MissingArgument) /\
    forall (data : list X) (val_size : value) (seed : Z),
      train_val_test_split data labels (VList size) val_size seed =
      Raise (TypeError MissingArgument).
Proof.
  intros size labels. split; [reflexivity |].
  intros data val_size seed. reflexivity.
Qed.

(** What the list register computes once it is given its third argument:
    with exactly three classes and [size = [5, 3, 2]] it takes the first
    5, 3 and 2 indices of the classes; a fourth class, which has no count,
    is kept whole. *)
Lemma list_register_three_classes (labels : list L) (u : list L)
    (c0 c1 c2 : list Z) (extra : value) :
  get_label_indices_per_class labels = ([c0; c1; c2], u) ->
  length u = 3%nat ->
  resolve_list [VInt 5; VInt 3; VInt 2] labels extra =
  Ok (firstn 5 c0 ++ firstn 3 c1 ++ firstn 2 c2).
Proof.
  intros Hg Hu. unfold Preprocessing._get_set_indices_list.
  rewrite Hg, Hu. cbn. rewrite app_nil_r. reflexivity.
Qed.

Lemma list_register_four_classes (labels : list L) (u : list L)
    (c0 c1 c2 c3 : list Z) (extra : value) :
  get_label_indices_per_class labels = ([c0; c1; c2; c3], u) ->
  length u = 4%nat ->
  resolve_list [VInt 5; VInt 3; VInt 2] labels extra =
  Ok (firstn 5 c0 ++ firstn 3 c1 ++ firstn 2 c2 ++ c3).
Proof.
  intros Hg Hu. unfold Preprocessing._get_set_indices_list.
  rewrite Hg, Hu. cbn. rewrite app_nil_r. reflexivity.
Qed.

(** C2 (code defect). With a one-element list [[k]] the list register
    rebinds [size] to the integer [int(size[0])] and then iterates
    [zip(size, ...)] over that integer: whatever the third argument and
    the labels, it raises [TypeError] instead of broadcasting the count,
    and the two-argument call of [train_val_test_split] does not reach the
    register at all. *)
Theorem single_count_is_not_broadcast :
  forall (k : Z) (labels : list L),
    (forall extra : value,
        resolve_list [VInt k] labels extra = Raise (TypeError NotIterable)) /\
    resolve (VList [VInt k]) labels [] = Raise (TypeError MissingArgument).
Proof.
  intros k labels. split; [| reflexivity].
  intros extra. unfold Preprocessing._get_set_indices_list.
  destruct (get_label_indices_per_class labels) as [label_indices uniques].
  reflexivity.
Qed.

(** C7. Size resolution raises an assertion failure if and only if the size
    is a float outside (0, 1] or an int below 1; inside those ranges no
    assertion failure is raised; and an assertion failure of either
    resolution inside [train_val_test_split] is the outcome of
    [train_val_test_split]. *)
Theorem size_assertion_iff_out_of_range :
  (forall (size : value) (labels : list L),
      raises_assertion (resolve size labels []) <->
      (exists f, size = VFloat f /\ in_unit_interval f = false) \/
      (exists z, size = VInt z /\ z < 1)) /\
  (forall (data : list X) (labels : list L) (train_size val_size : value)
          (seed : Z),
      raises_assertion (resolve train_size (shuffle seed labels) []) ->
      raises_assertion
        (train_val_test_split data labels train_size val_size seed)) /\
  (forall (data : list X) (labels : list L) (train_size val_size : value)
          (seed : Z) (train_indices : list Z) (train_labels : list L),
      resolve train_size (shuffle seed labels) [] = Ok train_indices ->
      Np.take (shuffle seed labels) train_indices = Ok train_labels ->
      raises_assertion (resolve val_size train_labels []) ->
      raises_assertion
        (train_val_test_split data labels train_size val_size seed)).
Proof.
  split; [| split].
  - intros size labels. split.
    + destruct size as [z | f | l |]; simpl; try contradiction.
      * unfold Preprocessing._get_set_indices_int.
        destruct (z <? 1) eqn:Hz; simpl.
        -- intros _. right. exists z. split; [reflexivity |].
           apply Z.ltb_lt. exact Hz.
        -- destruct (Np.arange_int _ z) as [t | e] eqn:Ht; simpl;
             [contradiction |].
           destruct (arange_int_raise _ _ Ht) as [-> | [-> | ->]];
             contradiction.
      * unfold Preprocessing._get_set_indices_float.
        fold (in_unit_interval f).
        destruct (in_unit_interval f) eqn:Hf; simpl.
        -- unfold Float64.int_mul.
           destruct (Float64.of_int _) as [x | e] eqn:Hx; simpl.
           ++ destruct (Float64.to_int _) as [n | e] eqn:Hn; simpl;
                [contradiction |].
              destruct (to_int_raise _ Hn) as [-> | ->]; contradiction.
           ++ rewrite (of_int_raise _ Hx). contradiction.
        -- intros _. left. exists f. split; [reflexivity | exact Hf].
    + intros [(f & -> & Hf) | (z & -> & Hz)]; simpl.
      * unfold Preprocessing._get_set_indices_float.
        fold (in_unit_interval f). rewrite Hf. exact I.
      * unfold Preprocessing._get_set_indices_int.
        replace (z <? 1) with true by (symmetry; apply Z.ltb_lt; exact Hz).
        exact I.
  - intros data labels train_size val_size seed H.
    unfold Preprocessing.train_val_test_split, Preprocessing.split_indices.
    destruct (resolve train_size (shuffle seed labels) []) as [t | e];
      [contradiction | exact H].
  - intros data labels train_size val_size seed train_indices train_labels
           Ht Hsub H.
    unfold Preprocessing.train_val_test_split, Preprocessing.split_indices.
    rewrite Ht. cbn [bind]. rewrite Hsub. cbn [bind].
    destruct (resolve val_size train_labels []) as [t | e];
      [contradiction | exact H].
Qed.

(** C10 (amended). Integer-count resolution compares the size with
    nothing but [1]: for every int size from [1] that a double holds
    (below [2^53]) and the memory allows, it returns [0 .. size-1] whatever
    the number of labels; when [size > N] the result contains an index
    outside [0, N) and the slicing [labels[train_indices]] of
    [train_val_test_split] is out of bounds; the indices lie in [0, N)
    exactly when [size <= N]. *)
Theorem int_size_has_no_upper_bound :
  forall (size : Z) (labels : list L),
    1 <= size < 2 ^ 53 ->
    size <= memory ->
    resolve (VInt size) labels [] = Ok (Np.arange size) /\
    (Z.of_nat (length labels) < size ->
     (exists i, In i (Np.arange size) /\
                ~ (0 <= i < Z.of_nat (length labels))) /\
     (forall (data : list X) (val_size : value) (seed : Z),
         train_val_test_split data labels (VInt size) val_size seed =
         Raise IndexError)) /\
    ((forall i, In i (Np.arange size) -> 0 <= i < Z.of_nat (length labels)) <->
     size <= Z.of_nat (length labels)).
Proof.
  intros size labels Hsize Hmem. split; [| split].
  - apply resolve_int_eq; [exact Hsize | lia].
  - intros Hbig. split.
    + exists (size - 1). split; [apply in_arange; lia | lia].
    + intros data val_size seed.
      unfold Preprocessing.train_val_test_split, Preprocessing.split_indices.
      rewrite resolve_int_eq by (try exact Hsize; lia). cbn [bind].
      rewrite take_arange_out_of_range by (rewrite shuffle_length; exact Hbig).
      reflexivity.
  - split.
    + intros H. specialize (H (size - 1)).
      assert (In (size - 1) (Np.arange size)) by (apply in_arange; lia).
      intuition lia.
    + intros Hle i Hi. apply in_arange in Hi. lia.
Qed.

(** *** The three index sets *)

(** The shape of every successful run of lines 89-93: the resolved train
    indices are [arange k], the validation indices [arange j] with
    [j <= k <= N], and the two differences are the segments in between. *)
Lemma split_indices_shape (N : nat) (labels : list L)
    (train_size val_size : value) (tr va te : list Z) :
  length labels = N ->
  split_indices N labels train_size val_size = Ok (tr, va, te) ->
  exists k j : nat,
    (j <= k <= N)%nat /\
    resolve train_size labels [] = Ok (Np.arange (Z.of_nat k)) /\
    va = Np.arange (Z.of_nat j) /\
    tr = map Z.of_nat (seq j (k - j)) /\
    te = map Z.of_nat (seq k (N - k)).
Proof.
  intros HN H. unfold Preprocessing.split_indices in H.
  apply bind_ok_inv in H. destruct H as (t & Ht & H).
  apply bind_ok_inv in H. destruct H as (sub & Hsub & H).
  apply bind_ok_inv in H. destruct H as (loc & Hloc & H).
  apply bind_ok_inv in H. destruct H as (v & Hv & H).
  injection H as <- <- <-.
  destruct (resolve_ok_arange _ _ Ht) as (k & ->).
  destruct (resolve_ok_arange _ _ Hloc) as (j & ->).
  assert (Hk : k <= Z.of_nat N).
  { destruct (Z_lt_le_dec (Z.of_nat N) k) as [Hlt | Hle]; [| exact Hle].
    rewrite take_arange_out_of_range in Hsub by (rewrite HN; exact Hlt).
    discriminate Hsub. }
  apply take_arange_arange in Hv. destruct Hv as [-> Hj].
  exists (Z.to_nat k), (Z.to_nat j).
  rewrite <- !arange_as_nat.
  split; [lia |]. split; [exact Ht |]. split; [reflexivity |].
  split.
  - rewrite (arange_as_nat k), (arange_as_nat j).
    apply setdiff1d_arange. lia.
  - rewrite (arange_as_nat k). apply setdiff1d_arange. lia.
Qed.

(** Whenever lines 89-93 succeed, the three index sets are pairwise
    disjoint, lie in [0, N), and their sizes sum to exactly [N]. *)
Lemma split_indices_partition_if_ok :
  forall (N : nat) (data : list X) (labels : list L)
         (train_size val_size : value) (seed : Z) (tr va te : list Z),
    length data = N ->
    length labels = N ->
    split_indices (length (shuffle seed data)) (shuffle seed labels)
                  train_size val_size = Ok (tr, va, te) ->
    (forall i, ~ (In i tr /\ In i va)) /\
    (forall i, ~ (In i tr /\ In i te)) /\
    (forall i, ~ (In i va /\ In i te)) /\
    (forall i, In i (tr ++ va ++ te) -> 0 <= i < Z.of_nat N) /\
    (length tr + length va + length te = N)%nat.
Proof.
  intros N data labels train_size val_size seed tr va te Hd Hl H.
  rewrite shuffle_length, Hd in H.
  apply split_indices_shape in H; [| rewrite shuffle_length; exact Hl].
  destruct H as (k & j & Hjk & _ & -> & -> & ->).
  assert (Hin : forall i s n, In i (map Z.of_nat (seq s n)) ->
                              Z.of_nat s <= i < Z.of_nat (s + n)).
  { intros i s n Hi. apply in_map_iff in Hi. destruct Hi as (x & <- & Hx).
    apply in_seq in Hx. lia. }
  repeat split.
  - intros i [H1 H2]. apply Hin in H1. apply in_arange in H2. lia.
  - intros i [H1 H2]. apply Hin in H1. apply Hin in H2. lia.
  - intros i [H1 H2]. apply in_arange in H1. apply Hin in H2. lia.
  - apply in_app_or in H. destruct H as [H | H].
    + apply Hin in H. lia.
    + apply in_app_or in H. destruct H as [H | H].
      * apply in_arange in H. lia.
      * apply Hin in H. lia.
  - apply in_app_or in H. destruct H as [H | H].
    + apply Hin in H. lia.
    + apply in_app_or in H. destruct H as [H | H].
      * apply in_arange in H. lia.
      * apply Hin in H. lia.
  - rewrite arange_length, !length_map, !length_seq. lia.
Qed.

End SplitFacts.

(* ================================================================== *)
(** ** remove_nan_samples *)

Lemma has_nan_spec (sample : list spec_float) :
  has_nan sample = true <-> exists x, In x sample /\ x = S754_nan.
Proof.
  unfold has_nan. rewrite existsb_exists. split.
  - intros (x & Hx & Hn). exists x. split; [exact Hx |].
    destruct x; simpl in Hn; try discriminate Hn. reflexivity.
  - intros (x & Hx & ->). exists S754_nan. split; [exact Hx | reflexivity].
Qed.

Section MaskSelect.

Variables A B : Type.
Variable keep : A -> bool.

Lemma select_self (a : list A) :
  map fst (filter snd (combine a (map keep a))) = filter keep a.
Proof.
  induction a as [| x a IH]; simpl.
  - reflexivity.
  - destruct (keep x); simpl; rewrite IH; reflexivity.
Qed.

Lemma select_pairs (a : list A) (b : list B) :
  length b = length a ->
  combine (map fst (filter snd (combine a (map keep a))))
          (map fst (filter snd (combine b (map keep a)))) =
  filter (fun p => keep (fst p)) (combine a b).
Proof.
  revert b. induction a as [| x a IH]; intros [| y b] Hlen; simpl in *;
    try discriminate; try reflexivity.
  destruct (keep x); simpl; rewrite IH by lia; reflexivity.
Qed.

Lemma select_other_length (a : list A) (b : list B) :
  length b = length a ->
  length (map fst (filter snd (combine b (map keep a)))) =
  length (filter keep a).
Proof.
  revert b. induction a as [| x a IH]; intros [| y b] Hlen; simpl in *;
    try discriminate; try reflexivity.
  destruct (keep x); simpl; rewrite IH by lia; reflexivity.
Qed.

Lemma filter_split_length (a : list A) :
  (length (filter keep a) + length (filter (fun x => negb (keep x)) a) =
   length a)%nat.
Proof.
  induction a as [| x a IH]; simpl.
  - reflexivity.
  - destruct (keep x); simpl; lia.
Qed.

End MaskSelect.

(** C9. For data of [N] samples and aligned labels, [remove_nan_samples]
    returns; it keeps exactly the samples without a NaN, in their order
    and paired with their labels; no retained sample holds a NaN; and the
    retained and the dropped samples together are [N]. *)
Theorem remove_nan_samples_keeps_nan_free :
  forall (L : Type) (data : list (list spec_float)) (labels : list L),
    length labels = length data ->
    exists data' labels',
      Preprocessing.remove_nan_samples data labels = Ok (data', labels') /\
      data' = filter nan_free data /\
      combine data' labels' =
        filter (fun p => nan_free (fst p)) (combine data labels) /\
      length labels' = length data' /\
      (forall sample, In sample data' <->
                      In sample data /\ has_nan sample = false) /\
      Forall (fun sample => forall x, In x sample -> x <> S754_nan) data' /\
      (length data' + length (filter has_nan data) = length data)%nat.
Proof.
  intros L data labels Hlen.
  unfold Preprocessing.remove_nan_samples, Np.mask_select.
  rewrite !length_map, Hlen, Nat.eqb_refl. cbn [bind].
  rewrite map_map. fold has_nan.
  change (fun x => negb (has_nan x)) with nan_free.
  eexists. eexists. split; [reflexivity |].
  rewrite select_self.
  split; [reflexivity |].
  split.
  { rewrite <- (select_self nan_free data) at 1. apply select_pairs, Hlen. }
  split; [apply select_other_length, Hlen |].
  split.
  { intros sample. rewrite filter_In. unfold nan_free.
    rewrite negb_true_iff. reflexivity. }
  split.
  { apply Forall_forall. intros sample Hs. apply filter_In in Hs.
    destruct Hs as [_ Hs]. unfold nan_free in Hs.
    apply negb_true_iff in Hs.
    intros x Hx ->.
    assert (H : has_nan sample = true) by (apply has_nan_spec; eauto).
    unfold has_nan in *. congruence. }
  pose proof (filter_split_length nan_free data) as Hsplit.
  replace (filter (fun x => negb (nan_free x)) data)
    with (filter has_nan data) in Hsplit; [exact Hsplit |].
  apply filter_ext. intros s. unfold nan_free.
  rewrite negb_involutive. reflexivity.
Qed.

(* ================================================================== *)
(** ** collect_artifacts_report *)

Section ReporterFacts.

Import ArtifactsReporter.

Variable load_metrics : string -> option string -> result all_metrics.
Variable fs : file_system.
Variable py_float : string -> option spec_float.
Variables np_mean np_std np_min np_max : list spec_float -> spec_float.

Local Abbreviation collect :=
  (collect_artifacts_report load_metrics fs py_float np_mean np_std np_min
     np_max).

(** *** The set of key tuples *)

Lemma nodup_two_distinct (l : list (list string)) (k1 k2 : list string) :
  In k1 l -> In k2 l -> k1 <> k2 ->
  Nat.eqb (length (nodup tuple_eq_dec l)) 1 = false.
Proof.
  intros H1 H2 Hne.
  apply (nodup_In tuple_eq_dec) in H1, H2.
  destruct (nodup tuple_eq_dec l) as [| a [| b r]]; simpl in *.
  - contradiction.
  - exfalso. apply Hne. destruct H1 as [<- | []], H2 as [<- | []]. reflexivity.
  - reflexivity.
Qed.

Lemma nodup_all_equal (l : list (list string)) (keys : list string) :
  l <> [] -> (forall k, In k l -> k = keys) ->
  nodup tuple_eq_dec l = [keys].
Proof.
  induction l as [| a l IH]; intros Hne Hall; [contradiction |].
  assert (Ha : a = keys) by (apply Hall; left; reflexivity). subst a.
  simpl. destruct (in_dec tuple_eq_dec keys l) as [Hin | Hnin].
  - apply IH.
    + intros ->. contradiction.
    + intros k Hk. apply Hall. right. exact Hk.
  - destruct l as [| b l].
    + reflexivity.
    + exfalso. apply Hnin. left. apply Hall. right. left. reflexivity.
Qed.

(** C8. If the loaded runs contain two key lists with different sets of
    names, [collect_artifacts_report] raises the assertion failure with the
    message about consistent metric names, and leaves the file system as it
    was: neither a directory nor a report file is written. *)
Theorem inconsistent_metric_names_write_nothing :
  forall (experiments_path dest_path : string) (filename : option string)
         (loaded : all_metrics) (k1 k2 : list string)
         (before : list fs_event),
    load_metrics experiments_path filename = Ok loaded ->
    In k1 (metric_keys loaded) ->
    In k2 (metric_keys loaded) ->
    ~ (forall name, In name k1 <-> In name k2) ->
    collect experiments_path dest_path filename before =
    (Raise (AssertionError
              "The metric names should be consistent across all experiment runs."),
     before).
Proof.
  intros experiments_path dest_path filename loaded k1 k2 before
         Hload H1 H2 Hsets.
  assert (Hne : k1 <> k2).
  { intros ->. apply Hsets. intros name. reflexivity. }
  unfold collect_artifacts_report, io_bind, io_lift.
  rewrite Hload.
  rewrite (nodup_two_distinct _ H1 H2 Hne). reflexivity.
Qed.

(** *** Filling the artifacts *)

Lemma dict_append_keys (d : dict (list spec_float)) (k : string)
    (x : spec_float) :
  dict_keys (dict_append d k x) = dict_keys d.
Proof.
  unfold dict_keys, dict_append. rewrite map_map.
  apply map_ext. intros [k' v]. simpl. destruct (String.eqb k' k); reflexivity.
Qed.









(** The last step on a file system that accepts the calls. *)
Lemma write_accepted (dest_path : string) (stat_report : report)
    (before : list fs_event) :
  accepts_report fs dest_path ->
  (if negb (Nat.eqb (String.length (snd (splitext dest_path))) 0)
   then save_metrics fs dest_path stat_report None
   else
     os_makedirs fs dest_path ;;;
     save_metrics fs dest_path stat_report (Some "report.csv"%string))
    before =
  (Ok tt, before ++ report_written dest_path stat_report).
Proof.
  intros [Hpath Hfs].
  specialize (Hfs stat_report). unfold report_written in *.
  unfold save_metrics, os_makedirs, io_bind, io_call.
  destruct (negb _).
  - rewrite (Hfs _ before) by (left; reflexivity). reflexivity.
  - destruct dest_path as [| c rest]; [contradiction |].
    rewrite (Hfs _ before) by (left; reflexivity).
    rewrite (Hfs _ (before ++ [MakeDirs (String c rest)]))
      by (right; left; reflexivity).
    rewrite <- app_assoc. reflexivity.
Qed.

(** The last step on any file system: either both calls are made, and the
    result is that of [io.save_metrics], or [os.makedirs] raises and
    [io.save_metrics] is not called. *)
Lemma write_outcome (dest_path : string) (stat_report : report)
    (before : list fs_event) :
  let run :=
    (if negb (Nat.eqb (String.length (snd (splitext dest_path))) 0)
     then save_metrics fs dest_path stat_report None
     else
       os_makedirs fs dest_path ;;;
       save_metrics fs dest_path stat_report (Some "report.csv"%string))
      before in
  (snd run = before ++ report_written dest_path stat_report /\
   (fst run = Ok tt \/ exists why, fst run = Raise (OSError why))) \/
  (String.length (snd (splitext dest_path)) = 0%nat /\
   exists why, run = (Raise (OSError why), before ++ [MakeDirs dest_path])).
Proof.
  unfold report_written, save_metrics, os_makedirs, io_bind, io_call.
  destruct (Nat.eqb (String.length (snd (splitext dest_path))) 0) eqn:Hext;
    cbn [negb].
  - apply Nat.eqb_eq in Hext.
    destruct dest_path as [| c rest].
    + right. split; [exact Hext |]. eexists. reflexivity.
    + destruct (fs (MakeDirs (String c rest)) before) as [why |].
      * right. split; [exact Hext |]. exists why. reflexivity.
      * left.
        destruct (fs _ (before ++ [MakeDirs (String c rest)])) as [why |];
          cbn [fst snd]; rewrite <- app_assoc;
          (split; [reflexivity |]); [right; exists why |left]; reflexivity.
  - left. destruct (fs _ before) as [why |]; cbn [fst snd];
      (split; [reflexivity |]); [right; exists why | left]; reflexivity.
Qed.


End ReporterFacts.

(* ================================================================== *)
(** ** Fraction mode and the split on valid sizes *)

Lemma take_in_range {A : Type} (a : list A) (idx : list Z) :
  (forall i, In i idx -> 0 <= i < Z.of_nat (length a)) ->
  exists r, Np.take a idx = Ok r /\ length r = length idx.
Proof.
  induction idx as [| i idx IH]; intros Hidx.
  - exists []. split; reflexivity.
  - assert (Hi : 0 <= i < Z.of_nat (length a))
      by (apply Hidx; left; reflexivity).
    destruct (nth_error a (Z.to_nat i)) as [x |] eqn:Hx.
    2: { apply nth_error_None in Hx. lia. }
    apply getitem_in_range in Hx. rewrite Z2Nat.id in Hx by lia.
    destruct IH as (r & Hr & Hlen).
    { intros j Hj. apply Hidx. right. exact Hj. }
    exists (x :: r). cbn [Np.take]. rewrite Hx. cbn [bind].
    rewrite Hr. cbn [bind]. split; [reflexivity | simpl; lia].
Qed.

Lemma take_ok_length {A : Type} (a : list A) (idx : list Z) (r : list A) :
  Np.take a idx = Ok r -> length r = length idx.
Proof.
  revert r. induction idx as [| i idx IH]; intros r H; simpl in H.
  - injection H as <-. reflexivity.
  - destruct (Np.getitem a i) as [x | e]; [| discriminate H].
    cbn [bind] in H.
    destruct (Np.take a idx) as [xs | e]; [| discriminate H].
    cbn [bind] in H. injection H as <-. simpl. f_equal. apply IH.
    reflexivity.
Qed.

Section FractionMode.

Variables L X : Type.
Variable get_label_indices_per_class : list L -> list (list Z) * list L.
Variable memory : Z.
Variable shuffle_order : Z -> nat -> list nat.
Hypothesis shuffle_order_perm :
  forall seed n, Permutation (shuffle_order seed n) (seq 0 n).

Local Abbreviation resolve :=
  (Preprocessing._get_set_indices get_label_indices_per_class memory).
Local Abbreviation split_indices :=
  (Preprocessing.split_indices get_label_indices_per_class memory).
Local Abbreviation shuffle := (Preprocessing.shuffle shuffle_order).
Local Abbreviation train_val_test_split :=
  (@Preprocessing.train_val_test_split L X get_label_indices_per_class memory
     shuffle_order).

(** The float register on a valid fraction: the count is the floor of the
    double product and lies between [0] and [N]. *)
Lemma resolve_fraction_in_range (size : spec_float) (labels : list L) :
  valid_fraction size ->
  Z.of_nat (length labels) < 2 ^ 53 ->
  exists (p : spec_float) (n : Z),
    Float64.int_mul (Z.of_nat (length labels)) size = Ok p /\
    Float64.floor p = Some n /\
    0 <= n <= Z.of_nat (length labels) /\
    resolve (VFloat size) labels [] = Ok (Np.arange n).
Proof.
  intros [Hvalid Hunit] HN.
  destruct (@RoundingFacts.int_mul_in_range (Z.of_nat (length labels)) size
              ltac:(lia) Hvalid Hunit) as (p & n & Hp & Hn & Hfloor & Hrange).
  exists p, n. split; [exact Hp |]. split; [exact Hfloor |].
  split; [exact Hrange |].
  rewrite resolve_float_eq by exact Hunit.
  rewrite Hp. cbn [bind]. rewrite Hn. reflexivity.
Qed.

(** C6. For a label vector of length [N] (below [2^53], as every array
    that fits in memory) and a fraction size with [0 < size <= 1],
    fraction-mode resolution returns the positions [0 .. n-1], where [n] is
    the floor of the double product [N * size] and [0 <= n <= N]: the first
    [n] positions of the label vector, in positional order and whatever the
    labels are. With [size = 0.8] and [N = 100], [n] is 80. *)
Theorem fraction_size_selects_prefix :
  forall (size : spec_float) (labels : list L),
    valid_fraction size ->
    Z.of_nat (length labels) < 2 ^ 53 ->
    exists (p : spec_float) (n : Z),
      Float64.int_mul (Z.of_nat (length labels)) size = Ok p /\
      Float64.floor p = Some n /\
      0 <= n <= Z.of_nat (length labels) /\
      resolve (VFloat size) labels [] = Ok (Np.arange n) /\
      Np.take labels (Np.arange n) = Ok (firstn (Z.to_nat n) labels) /\
      (size = Float64.lit_0_8 -> length labels = 100%nat -> n = 80).
Proof.
  intros size labels Hsize HN.
  destruct (resolve_fraction_in_range labels Hsize HN)
    as (p & n & Hp & Hfloor & Hrange & Hres).
  exists p, n. split; [exact Hp |]. split; [exact Hfloor |].
  split; [exact Hrange |]. split; [exact Hres |]. split.
  - rewrite (arange_as_nat n). apply take_arange_prefix. lia.
  - intros -> Hlen. rewrite Hlen in Hp.
    vm_compute in Hp. injection Hp as <-.
    vm_compute in Hfloor. injection Hfloor as <-. reflexivity.
Qed.

(** Lines 89-93 succeed on every valid pair of sizes. *)
Lemma split_indices_returns (N : nat) (labels : list L)
    (train_size : value) (val_size : spec_float) :
  length labels = N ->
  Z.of_nat N < 2 ^ 53 ->
  valid_train_size N train_size ->
  valid_fraction val_size ->
  exists tr va te,
    split_indices N labels train_size (VFloat val_size) = Ok (tr, va, te).
Proof.
  intros HN Hbound Htrain Hval.
  assert (Ht : exists k, 0 <= k <= Z.of_nat N /\
                         resolve train_size labels [] = Ok (Np.arange k)).
  { destruct train_size as [z | f | l |]; cbn [valid_train_size] in Htrain;
      try contradiction.
    - exists z. split; [lia |]. apply resolve_int_eq; lia.
    - destruct (@resolve_fraction_in_range f labels Htrain
                  ltac:(rewrite HN; exact Hbound))
        as (p & n & _ & _ & Hrange & Hres).
      exists n. rewrite HN in Hrange. split; assumption. }
  destruct Ht as (k & Hk & Ht).
  unfold Preprocessing.split_indices. rewrite Ht. cbn [bind].
  rewrite (arange_as_nat k), take_arange_prefix by lia. cbn [bind].
  destruct (@resolve_fraction_in_range val_size
              (firstn (Z.to_nat k) labels) Hval)
    as (p & n & _ & _ & Hrange & Hres).
  { rewrite length_firstn. lia. }
  rewrite Hres. cbn [bind].
  rewrite length_firstn in Hrange.
  rewrite (arange_as_nat n), take_arange_prefix
    by (rewrite arange_length; lia).
  cbn [bind]. eexists. eexists. eexists. reflexivity.
Qed.

(** C3 (amended). For every data/label pair of [N] samples ([N < 2^53])
    and every valid train and validation size, [train_val_test_split]
    slices with three index sets that are pairwise disjoint, lie in
    [0, N), and whose sizes sum to exactly [N]. *)
Theorem split_index_sets_partition :
  forall (N : nat) (data : list X) (labels : list L)
         (train_size : value) (val_size : spec_float) (seed : Z),
    length data = N ->
    length labels = N ->
    Z.of_nat N < 2 ^ 53 ->
    valid_train_size N train_size ->
    valid_fraction val_size ->
    exists tr va te,
      split_indices (length (shuffle seed data)) (shuffle seed labels)
                    train_size (VFloat val_size) = Ok (tr, va, te) /\
      (forall i, ~ (In i tr /\ In i va)) /\
      (forall i, ~ (In i tr /\ In i te)) /\
      (forall i, ~ (In i va /\ In i te)) /\
      (forall i, In i (tr ++ va ++ te) -> 0 <= i < Z.of_nat N) /\
      (length tr + length va + length te = N)%nat.
Proof.
  intros N data labels train_size val_size seed Hd Hl Hbound Htrain Hval.
  destruct (@split_indices_returns N (shuffle seed labels) train_size val_size)
    as (tr & va & te & Hsplit); try assumption.
  { rewrite (@shuffle_length shuffle_order shuffle_order_perm). exact Hl. }
  exists tr, va, te.
  rewrite (@shuffle_length shuffle_order shuffle_order_perm), Hd.
  split; [exact Hsplit |].
  apply (@split_indices_partition_if_ok L X get_label_indices_per_class memory
           shuffle_order shuffle_order_perm N data labels train_size
           (VFloat val_size) seed tr va te Hd Hl).
  rewrite (@shuffle_length shuffle_order shuffle_order_perm), Hd. exact Hsplit.
Qed.

(** On valid sizes [train_val_test_split] returns its six arrays. *)
Lemma train_val_test_split_returns (N : nat) (data : list X)
    (labels : list L) (train_size : value) (val_size : spec_float)
    (seed : Z) :
  length data = N ->
  length labels = N ->
  Z.of_nat N < 2 ^ 53 ->
  valid_train_size N train_size ->
  valid_fraction val_size ->
  exists out,
    train_val_test_split data labels train_size (VFloat val_size) seed =
    Ok out.
Proof.
  intros Hd Hl Hbound Htrain Hval.
  destruct (@split_indices_returns N (shuffle seed labels) train_size val_size)
    as (tr & va & te & Hsplit); try assumption.
  { rewrite (@shuffle_length shuffle_order shuffle_order_perm). exact Hl. }
  assert (Hin : forall i, In i (tr ++ va ++ te) -> 0 <= i < Z.of_nat N).
  { apply (@split_indices_partition_if_ok L X get_label_indices_per_class memory
             shuffle_order shuffle_order_perm N data labels train_size
             (VFloat val_size) seed tr va te Hd Hl).
    rewrite (@shuffle_length shuffle_order shuffle_order_perm), Hd.
    exact Hsplit. }
  rewrite <- Hd in Hsplit at 1.
  rewrite <- (@shuffle_length shuffle_order shuffle_order_perm X seed data)
    in Hsplit.
  unfold Preprocessing.train_val_test_split. rewrite Hsplit. cbn [bind].
  assert (Htake : forall (A : Type) (a : list A) (idx : list Z),
             length a = N -> incl idx (tr ++ va ++ te) ->
             exists r, Np.take (shuffle seed a) idx = Ok r).
  { intros A a idx Ha Hidx.
    destruct (@take_in_range A (shuffle seed a) idx) as (r & Hr & _).
    - intros i Hi.
      rewrite (@shuffle_length shuffle_order shuffle_order_perm), Ha.
      apply Hin, Hidx, Hi.
    - exists r. exact Hr. }
  destruct (Htake X data tr Hd) as (r1 & ->).
  { intros i Hi. apply in_or_app. left. exact Hi. }
  destruct (Htake L labels tr Hl) as (r2 & ->).
  { intros i Hi. apply in_or_app. left. exact Hi. }
  destruct (Htake X data va Hd) as (r3 & ->).
  { intros i Hi. apply in_or_app. right. apply in_or_app. left. exact Hi. }
  destruct (Htake L labels va Hl) as (r4 & ->).
  { intros i Hi. apply in_or_app. right. apply in_or_app. left. exact Hi. }
  destruct (Htake X data te Hd) as (r5 & ->).
  { intros i Hi. apply in_or_app. right. apply in_or_app. right. exact Hi. }
  destruct (Htake L labels te Hl) as (r6 & ->).
  { intros i Hi. apply in_or_app. right. apply in_or_app. right. exact Hi. }
  cbn [bind]. eexists. reflexivity.
Qed.

(** C4. What [train_val_test_split] returns is sliced as follows: the
    validation indices are the local indices that size resolution gives on
    [labels[train_indices]], mapped back through [train_indices]; the
    validation arrays are the shuffled arrays at these indices, the train
    arrays the shuffled arrays at the resolved train indices minus the
    validation indices, the test arrays the shuffled arrays at the
    complement of the resolved train indices. Every validation index is a
    resolved train index, and train and validation together hold as many
    samples as there are resolved train indices: validation is taken out
    of train and not added to it. On valid sizes, the validation size a
    fraction, the function does return. *)
Theorem validation_is_carved_out_of_train :
  forall (N : nat) (data : list X) (labels : list L)
         (train_size val_size : value) (seed : Z),
    length data = N ->
    length labels = N ->
    (forall (train_x : list X) (train_y : list L) (val_x : list X)
            (val_y : list L) (test_x : list X) (test_y : list L),
        train_val_test_split data labels train_size val_size seed =
          Ok (train_x, train_y, val_x, val_y, test_x, test_y) ->
        exists train_indices train_labels local_val_indices val_indices,
          resolve train_size (shuffle seed labels) [] = Ok train_indices /\
          Np.take (shuffle seed labels) train_indices = Ok train_labels /\
          resolve val_size train_labels [] = Ok local_val_indices /\
          Np.take train_indices local_val_indices = Ok val_indices /\
          incl val_indices train_indices /\
          (forall i, In i (Np.setdiff1d train_indices val_indices) <->
                     In i train_indices /\ ~ In i val_indices) /\
          Np.take (shuffle seed data) val_indices = Ok val_x /\
          Np.take (shuffle seed labels) val_indices = Ok val_y /\
          Np.take (shuffle seed data)
            (Np.setdiff1d train_indices val_indices) = Ok train_x /\
          Np.take (shuffle seed labels)
            (Np.setdiff1d train_indices val_indices) = Ok train_y /\
          Np.take (shuffle seed data)
            (Np.setdiff1d (Np.arange (Z.of_nat N)) train_indices) =
            Ok test_x /\
          Np.take (shuffle seed labels)
            (Np.setdiff1d (Np.arange (Z.of_nat N)) train_indices) =
            Ok test_y /\
          length val_x = length local_val_indices /\
          (length train_x + length val_x = length train_indices)%nat) /\
    (Z.of_nat N < 2 ^ 53 ->
     valid_train_size N train_size ->
     forall f : spec_float,
       val_size = VFloat f ->
       valid_fraction f ->
       exists out,
         train_val_test_split data labels train_size val_size seed = Ok out).
Proof.
  intros N data labels train_size val_size seed Hd Hl. split.
  - intros train_x train_y val_x val_y test_x test_y H.
    unfold Preprocessing.train_val_test_split in H.
    apply bind_ok_inv in H. destruct H as ([[tr va] te] & Hsplit & H).
    rewrite (@shuffle_length shuffle_order shuffle_order_perm), Hd in Hsplit.
    apply bind_ok_inv in H. destruct H as (x1 & Htx & H).
    apply bind_ok_inv in H. destruct H as (x2 & Hty & H).
    apply bind_ok_inv in H. destruct H as (x3 & Hvx & H).
    apply bind_ok_inv in H. destruct H as (x4 & Hvy & H).
    apply bind_ok_inv in H. destruct H as (x5 & Hex & H).
    apply bind_ok_inv in H. destruct H as (x6 & Hey & H).
    injection H as <- <- <- <- <- <-.
    pose proof Hsplit as Hshape.
    apply split_indices_shape in Hshape;
      [| rewrite (@shuffle_length shuffle_order shuffle_order_perm);
         exact Hl].
    destruct Hshape as (k & j & Hjk & Hk & Hva & Htr & _).
    unfold Preprocessing.split_indices in Hsplit.
    apply bind_ok_inv in Hsplit. destruct Hsplit as (t & Ht & Hsplit).
    apply bind_ok_inv in Hsplit. destruct Hsplit as (sub & Hsub & Hsplit).
    apply bind_ok_inv in Hsplit. destruct Hsplit as (loc & Hloc & Hsplit).
    apply bind_ok_inv in Hsplit. destruct Hsplit as (v & Hv & Hsplit).
    injection Hsplit as Etr Eva Ete. subst tr va te.
    assert (Et : t = Np.arange (Z.of_nat k)) by congruence.
    exists t, sub, loc, v.
    split; [exact Ht |]. split; [exact Hsub |]. split; [exact Hloc |].
    split; [exact Hv |]. split.
    { intros i Hi. rewrite Hva in Hi. apply in_arange in Hi.
      rewrite Et. apply in_arange. lia. }
    split; [intros i; apply in_setdiff1d |].
    split; [exact Hvx |]. split; [exact Hvy |].
    split; [exact Htx |]. split; [exact Hty |].
    split; [exact Hex |]. split; [exact Hey |].
    apply take_ok_length in Hvx, Htx, Hv.
    rewrite Hvx, Htx, Htr, <- Hv, Hva, Et.
    rewrite !arange_length, length_map, length_seq. lia.
  - intros Hbound Htrain f -> Hval.
    apply train_val_test_split_returns with (N := N); assumption.
Qed.

End FractionMode.

(* ================================================================== *)
(** ** Concrete runs *)

Module Runs.

Import ArtifactsReporter Samples.

Lemma reverse_order_perm (seed : Z) (n : nat) :
  Permutation (reverse_order seed n) (seq 0 n).
Proof. apply Permutation_sym, Permutation_rev. Qed.

(** The list register, given a third argument, selects per class. *)
Example list_register_given_third_argument :
  Preprocessing._get_set_indices_list glipc
    [VInt 5; VInt 3; VInt 2] labels13 VOther =
  Ok [0; 1; 2; 3; 4; 6; 7; 8; 10; 11].
Proof. vm_compute. reflexivity. Qed.

Example list_size_as_called :
  Preprocessing._get_set_indices glipc memory
    (VList [VInt 5; VInt 3; VInt 2]) labels13 [] =
  Raise (TypeError MissingArgument).
Proof. reflexivity. Qed.

Example single_count_given_third_argument :
  Preprocessing._get_set_indices_list glipc [VInt 5] labels16 VOther =
  Raise (TypeError NotIterable).
Proof. vm_compute. reflexivity. Qed.

(** [10 * 0.7] is rounded to the double [7.0]: seven indices. *)
Example fraction_0_7_of_10 :
  Preprocessing._get_set_indices glipc memory (VFloat Float64.lit_0_7)
    labels10 [] =
  Ok [0; 1; 2; 3; 4; 5; 6].
Proof. vm_compute. reflexivity. Qed.

Example split_100 :
  Preprocessing.split_indices glipc memory 100 labels100
    (VFloat Float64.lit_0_8) (VFloat Float64.lit_0_1) =
  Ok (map Z.of_nat (seq 8 72), map Z.of_nat (seq 0 8),
      map Z.of_nat (seq 80 20)).
Proof. vm_compute. reflexivity. Qed.

Lemma valid_0_8 : valid_fraction Float64.lit_0_8.
Proof. split; vm_compute; reflexivity. Defined.

Lemma valid_0_1 : valid_fraction Float64.lit_0_1.
Proof. split; vm_compute; reflexivity. Defined.

(** The claim of C3 as the specification words it fails at [N = 10],
    [train_size = 0.8], [val_size = 0.1]: the sizes of the three index sets
    sum to [N] although the resolved train indices [0 .. 7] do not cover
    [0, 10). *)
Lemma sizes_sum_to_N_without_cover :
  exists tr va te train_indices,
    Preprocessing._get_set_indices glipc memory (VFloat Float64.lit_0_8)
      (Preprocessing.shuffle reverse_order 0 labels10) [] = Ok train_indices /\
    Preprocessing.split_indices glipc memory
      (length (Preprocessing.shuffle reverse_order 0 data10))
      (Preprocessing.shuffle reverse_order 0 labels10)
      (VFloat Float64.lit_0_8) (VFloat Float64.lit_0_1) = Ok (tr, va, te) /\
    (length tr + length va + length te = 10)%nat /\
    ~ (forall i, 0 <= i < 10 -> In i train_indices).
Proof.
  exists [0; 1; 2; 3; 4; 5; 6; 7], [], [8; 9], [0; 1; 2; 3; 4; 5; 6; 7].
  split; [vm_compute; reflexivity |].
  split; [vm_compute; reflexivity |].
  split; [reflexivity |].
  intros H. specialize (H 9 ltac:(lia)). simpl in H.
  repeat (destruct H as [H | H]; [discriminate H |]). exact H.
Qed.

Lemma split_index_sets_partition_witness :
  length data100 = 100%nat /\
  length labels100 = 100%nat /\
  Z.of_nat 100 < 2 ^ 53 /\
  valid_train_size 100 (VFloat Float64.lit_0_8) /\
  valid_fraction Float64.lit_0_1 /\
  exists tr va te,
    Preprocessing.split_indices glipc memory
      (length (Preprocessing.shuffle reverse_order 0 data100))
      (Preprocessing.shuffle reverse_order 0 labels100)
      (VFloat Float64.lit_0_8) (VFloat Float64.lit_0_1) = Ok (tr, va, te) /\
    (forall i, ~ (In i tr /\ In i va)) /\
    (forall i, ~ (In i tr /\ In i te)) /\
    (forall i, ~ (In i va /\ In i te)) /\
    (forall i, In i (tr ++ va ++ te) -> 0 <= i < Z.of_nat 100) /\
    (length tr + length va + length te = 100)%nat.
Proof.
  assert (H1 : length data100 = 100%nat) by reflexivity.
  assert (H2 : length labels100 = 100%nat) by reflexivity.
  assert (H3 : Z.of_nat 100 < 2 ^ 53) by reflexivity.
  split; [exact H1 |]. split; [exact H2 |]. split; [exact H3 |].
  split; [exact valid_0_8 |]. split; [exact valid_0_1 |].
  exact (@split_index_sets_partition Z Z glipc memory reverse_order
           reverse_order_perm 100 data100 labels100
           (VFloat Float64.lit_0_8) Float64.lit_0_1 0
           H1 H2 H3 valid_0_8 valid_0_1).
Defined.

Lemma fraction_size_selects_prefix_witness :
  valid_fraction Float64.lit_0_8 /\
  Z.of_nat (length labels100) < 2 ^ 53 /\
  exists (p : spec_float) (n : Z),
    Float64.int_mul (Z.of_nat (length labels100)) Float64.lit_0_8 = Ok p /\
    Float64.floor p = Some n /\
    0 <= n <= Z.of_nat (length labels100) /\
    Preprocessing._get_set_indices glipc memory (VFloat Float64.lit_0_8)
      labels100 [] = Ok (Np.arange n) /\
    Np.take labels100 (Np.arange n) = Ok (firstn (Z.to_nat n) labels100) /\
    (Float64.lit_0_8 = Float64.lit_0_8 -> length labels100 = 100%nat ->
     n = 80).
Proof.
  assert (H : Z.of_nat (length labels100) < 2 ^ 53) by reflexivity.
  split; [exact valid_0_8 |]. split; [exact H |].
  exact (@fraction_size_selects_prefix Z glipc memory Float64.lit_0_8
           labels100
           valid_0_8 H).
Defined.

Lemma int_size_has_no_upper_bound_witness :
  1 <= 12 < 2 ^ 53 /\
  12 <= memory /\
  Preprocessing._get_set_indices glipc memory (VInt 12) labels10 [] =
    Ok (Np.arange 12) /\
  (Z.of_nat (length labels10) < 12 ->
   (exists i, In i (Np.arange 12) /\
              ~ (0 <= i < Z.of_nat (length labels10))) /\
   (forall (data : list Z) (val_size : value) (seed : Z),
       Preprocessing.train_val_test_split glipc memory reverse_order
         data labels10 (VInt 12) val_size seed = Raise IndexError)) /\
  ((forall i, In i (Np.arange 12) -> 0 <= i < Z.of_nat (length labels10)) <->
   12 <= Z.of_nat (length labels10)).
Proof.
  assert (H : 1 <= 12 < 2 ^ 53) by (split; [lia | reflexivity]).
  assert (Hmem : 12 <= memory) by (unfold memory; lia).
  split; [exact H |]. split; [exact Hmem |].
  exact (@int_size_has_no_upper_bound Z Z glipc memory reverse_order
           reverse_order_perm 12 labels10 H Hmem).
Defined.

(** The claim of C10 as the specification words it, a result
    [0 .. size-1] for every int size from [1], fails beyond the sizes that
    [np.arange] handles: at [2^62] the call raises [ValueError], and at
    [2^63 - 1] it returns no index at all, so that the split returns with
    every sample in the test set. *)
Lemma huge_int_sizes_are_not_prefixes :
  1 <= 2 ^ 62 /\
  (forall capacity : Z,
      Preprocessing._get_set_indices glipc capacity (VInt (2 ^ 62))
        labels10 [] = Raise ValueError) /\
  1 <= 2 ^ 63 - 1 /\
  (forall capacity : Z,
      Preprocessing._get_set_indices glipc capacity (VInt (2 ^ 63 - 1))
        labels10 [] = Ok []) /\
  (forall capacity : Z,
      Preprocessing.train_val_test_split glipc capacity reverse_order
        data10 labels10 (VInt (2 ^ 63 - 1)) (VFloat Float64.lit_0_1) 0 =
      Ok ([], [], [], [], Preprocessing.shuffle reverse_order 0 data10,
          Preprocessing.shuffle reverse_order 0 labels10)).
Proof.
  split; [vm_compute; discriminate |].
  split; [intros capacity; vm_compute; reflexivity |].
  split; [vm_compute; discriminate |].
  split; intros capacity; vm_compute; reflexivity.
Qed.

Lemma remove_nan_samples_witness :
  length [7; 8; 9] = length samples3 /\
  exists data' labels',
    Preprocessing.remove_nan_samples samples3 [7; 8; 9] = Ok (data', labels') /\
    data' = filter nan_free samples3 /\
    combine data' labels' =
      filter (fun p => nan_free (fst p)) (combine samples3 [7; 8; 9]) /\
    length labels' = length data' /\
    (forall sample, In sample data' <->
                    In sample samples3 /\ has_nan sample = false) /\
    Forall (fun sample => forall x, In x sample -> x <> S754_nan) data' /\
    (length data' + length (filter has_nan samples3) = length samples3)%nat.
Proof.
  assert (H : length [7; 8; 9] = length samples3) by reflexivity.
  split; [exact H |].
  exact (@remove_nan_samples_keeps_nan_free Z samples3 [7; 8; 9] H).
Defined.

Example remove_nan_samples_run :
  Preprocessing.remove_nan_samples samples3 [7; 8; 9] =
  Ok ([[Float64.one; Float64.lit_0_8]; [Float64.lit_0_1]], [7; 9]).
Proof. reflexivity. Qed.

(** Size [0] and fraction [0.0] are refused, also through the split. *)
Lemma size_assertion_witness :
  raises_assertion
    (Preprocessing._get_set_indices glipc memory (VInt 0) labels10 []) /\
  raises_assertion
    (Preprocessing._get_set_indices glipc memory (VFloat Float64.zero)
       labels10 []) /\
  raises_assertion
    (Preprocessing.train_val_test_split glipc memory reverse_order
       data10 labels10 (VInt 0) (VFloat Float64.lit_0_1) 0) /\
  raises_assertion
    (Preprocessing.train_val_test_split glipc memory reverse_order
       data10 labels10 (VFloat Float64.lit_0_8) (VFloat Float64.zero) 0).
Proof.
  destruct (@size_assertion_iff_out_of_range Z Z glipc memory reverse_order)
    as (Hiff & Htrain & Hval).
  assert (H0 : forall labels : list Z,
             raises_assertion
               (Preprocessing._get_set_indices glipc memory (VInt 0)
                  labels [])).
  { intros labels. apply Hiff. right. exists 0.
    split; [reflexivity | lia]. }
  assert (Hz : forall labels : list Z,
             raises_assertion
               (Preprocessing._get_set_indices glipc memory
                  (VFloat Float64.zero)
                  labels [])).
  { intros labels. apply Hiff. left. exists Float64.zero.
    split; reflexivity. }
  split; [apply H0 |]. split; [apply Hz |]. split.
  - apply Htrain. apply H0.
  - apply (Hval data10 labels10 (VFloat Float64.lit_0_8)
             (VFloat Float64.zero) 0 (Np.arange 8)
             (firstn 8 (Preprocessing.shuffle reverse_order 0 labels10))).
    + vm_compute. reflexivity.
    + vm_compute. reflexivity.
    + apply Hz.
Defined.

(** Ten samples gathered in reverse order, [train_size = 0.8] and
    [val_size = 0.7]: five of the eight train indices become validation
    indices, three stay train indices. *)
Lemma validation_is_carved_out_witness :
  exists train_indices train_labels local_val_indices val_indices,
    Preprocessing._get_set_indices glipc memory (VFloat Float64.lit_0_8)
      (Preprocessing.shuffle reverse_order 0 labels10) [] =
      Ok train_indices /\
    Np.take (Preprocessing.shuffle reverse_order 0 labels10) train_indices =
      Ok train_labels /\
    Preprocessing._get_set_indices glipc memory (VFloat Float64.lit_0_7)
      train_labels [] = Ok local_val_indices /\
    Np.take train_indices local_val_indices = Ok val_indices /\
    incl val_indices train_indices /\
    (forall i, In i (Np.setdiff1d train_indices val_indices) <->
               In i train_indices /\ ~ In i val_indices) /\
    Np.take (Preprocessing.shuffle reverse_order 0 data10) val_indices =
      Ok [19; 18; 17; 16; 15] /\
    Np.take (Preprocessing.shuffle reverse_order 0 labels10) val_indices =
      Ok [0; 2; 1; 0; 2] /\
    Np.take (Preprocessing.shuffle reverse_order 0 data10)
      (Np.setdiff1d train_indices val_indices) = Ok [14; 13; 12] /\
    Np.take (Preprocessing.shuffle reverse_order 0 labels10)
      (Np.setdiff1d train_indices val_indices) = Ok [1; 0; 2] /\
    Np.take (Preprocessing.shuffle reverse_order 0 data10)
      (Np.setdiff1d (Np.arange (Z.of_nat 10)) train_indices) =
      Ok [11; 10] /\
    Np.take (Preprocessing.shuffle reverse_order 0 labels10)
      (Np.setdiff1d (Np.arange (Z.of_nat 10)) train_indices) = Ok [1; 0] /\
    length [19; 18; 17; 16; 15] = length local_val_indices /\
    (length [14; 13; 12] + length [19; 18; 17; 16; 15] =
     length train_indices)%nat.
Proof.
  apply (proj1 (@validation_is_carved_out_of_train Z Z glipc memory
                  reverse_order reverse_order_perm 10 data10 labels10
                  (VFloat Float64.lit_0_8) (VFloat Float64.lit_0_7) 0
                  eq_refl eq_refl)).
  vm_compute. reflexivity.
Defined.

(** *** Reporter runs *)


Lemma acc_f1_differs_from_acc :
  ~ (forall name : string,
        In name ["acc"; "f1"]%string <-> In name ["acc"]%string).
Proof.
  intros H. destruct (proj1 (H "f1"%string)) as [E | []].
  - right. left. reflexivity.
  - discriminate E.
Defined.

Lemma inconsistent_metric_names_witness :
  In ["acc"; "f1"]%string (metric_keys inconsistent_runs) /\
  In ["acc"]%string (metric_keys inconsistent_runs) /\
  ~ (forall name : string,
        In name ["acc"; "f1"]%string <-> In name ["acc"]%string) /\
  run_reporter inconsistent_runs "out/report.csv" =
  (Raise (AssertionError
            "The metric names should be consistent across all experiment runs."),
   []).
Proof.
  assert (H1 : In ["acc"; "f1"]%string (metric_keys inconsistent_runs))
    by (left; reflexivity).
  assert (H2 : In ["acc"]%string (metric_keys inconsistent_runs))
    by (right; left; reflexivity).
  split; [exact H1 |]. split; [exact H2 |].
  split; [exact acc_f1_differs_from_acc |].
  exact (@inconsistent_metric_names_write_nothing
           (fun _ _ => Ok inconsistent_runs) accepting float_of_digits
           mean std minimum maximum
           "experiments" "out/report.csv" None inconsistent_runs
           ["acc"; "f1"]%string ["acc"]%string [] eq_refl H1 H2
           acc_f1_differs_from_acc).
Defined.






Example consistent_run_writes_file :
  run_reporter consistent_runs "out/report.csv" =
    (Ok tt, [SaveMetrics "out/report.csv" expected_report None]) /\
  run_reporter consistent_runs "out" =
    (Ok tt, [MakeDirs "out";
             SaveMetrics "out" expected_report (Some "report.csv"%string)]).
Proof. split; vm_compute; reflexivity. Qed.

End Runs.

(* ================================================================== *)
(** * Further properties *)

(** ** What [train_val_test_split] returns *)

Lemma firstn_skipn_split {A : Type} (a : list A) (j k : nat) :
  (j <= k)%nat ->
  firstn j a ++ firstn (k - j) (skipn j a) ++ skipn k a = a.
Proof.
  intros Hjk.
  replace (skipn k a) with (skipn (k - j) (skipn j a)).
  - rewrite (firstn_skipn (k - j) (skipn j a)). apply firstn_skipn.
  - rewrite skipn_skipn. f_equal. lia.
Qed.

Lemma nth_error_combine {A B : Type} (a : list A) (b : list B) (i : nat) :
  nth_error (combine a b) i =
  match nth_error a i, nth_error b i with
  | Some x, Some y => Some (x, y)
  | _, _ => None
  end.
Proof.
  revert b i. induction a as [| x a IH]; intros [| y b] [| i]; simpl;
    try reflexivity.
  - destruct (nth_error a i); reflexivity.
  - apply IH.
Qed.

Lemma combine_gather {A B : Type} (a : list A) (b : list B) (o : list nat) :
  length a = length b ->
  combine
    (flat_map (fun i => match nth_error a i with
                        | Some x => [x]
                        | None => []
                        end) o)
    (flat_map (fun i => match nth_error b i with
                        | Some y => [y]
                        | None => []
                        end) o)
  = flat_map (fun i => match nth_error (combine a b) i with
                       | Some p => [p]
                       | None => []
                       end) o.
Proof.
  intros Hlen. induction o as [| i o IH]; [reflexivity |].
  cbn [flat_map]. rewrite <- IH, nth_error_combine.
  destruct (nth_error a i) as [x |] eqn:Hx;
    destruct (nth_error b i) as [y |] eqn:Hy; try reflexivity.
  - apply nth_error_None in Hy.
    assert (i < length a)%nat by (apply nth_error_Some; congruence). lia.
  - apply nth_error_None in Hx.
    assert (i < length b)%nat by (apply nth_error_Some; congruence). lia.
Qed.

Lemma arange_inj (a b : Z) :
  0 <= a -> 0 <= b -> Np.arange a = Np.arange b -> a = b.
Proof.
  intros Ha Hb H. apply (f_equal (@length Z)) in H.
  rewrite !arange_length in H. lia.
Qed.

Section SplitOutputs.

Variables L X : Type.
Variable get_label_indices_per_class : list L -> list (list Z) * list L.
Variable memory : Z.
Variable shuffle_order : Z -> nat -> list nat.
Hypothesis shuffle_order_perm :
  forall seed n, Permutation (shuffle_order seed n) (seq 0 n).

Local Abbreviation resolve :=
  (Preprocessing._get_set_indices get_label_indices_per_class memory).
Local Abbreviation split_indices :=
  (Preprocessing.split_indices get_label_indices_per_class memory).
Local Abbreviation shuffle := (Preprocessing.shuffle shuffle_order).
Local Abbreviation train_val_test_split :=
  (@Preprocessing.train_val_test_split L X get_label_indices_per_class memory
     shuffle_order).

(** Both arrays are gathered in the same order, so the pairs stay
    together. *)
Lemma shuffle_combine (seed : Z) (data : list X) (labels : list L) :
  length data = length labels ->
  combine (shuffle seed data) (shuffle seed labels) =
  shuffle seed (combine data labels).
Proof.
  intros Hlen. unfold Preprocessing.shuffle.
  rewrite length_combine, <- Hlen, Nat.min_id.
  apply combine_gather. exact Hlen.
Qed.

(** The shape of every successful run: the six arrays are consecutive
    slices of the shuffled arrays, validation first, then train, then
    test. *)
Lemma split_outputs_shape (N : nat) (data : list X) (labels : list L)
    (train_size val_size : value) (seed : Z)
    (train_x : list X) (train_y : list L) (val_x : list X) (val_y : list L)
    (test_x : list X) (test_y : list L) :
  length data = N ->
  length labels = N ->
  train_val_test_split data labels train_size val_size seed =
    Ok (train_x, train_y, val_x, val_y, test_x, test_y) ->
  exists k j : nat,
    (j <= k <= N)%nat /\
    resolve train_size (shuffle seed labels) [] = Ok (Np.arange (Z.of_nat k)) /\
    resolve val_size (firstn k (shuffle seed labels)) [] =
      Ok (Np.arange (Z.of_nat j)) /\
    val_x = firstn j (shuffle seed data) /\
    val_y = firstn j (shuffle seed labels) /\
    train_x = firstn (k - j) (skipn j (shuffle seed data)) /\
    train_y = firstn (k - j) (skipn j (shuffle seed labels)) /\
    test_x = skipn k (shuffle seed data) /\
    test_y = skipn k (shuffle seed labels).
Proof.
  intros Hd Hl H.
  pose proof (@shuffle_length shuffle_order shuffle_order_perm X seed data)
    as HSd.
  pose proof (@shuffle_length shuffle_order shuffle_order_perm L seed labels)
    as HSl.
  unfold Preprocessing.train_val_test_split in H.
  apply bind_ok_inv in H. destruct H as ([[tr va] te] & Hsplit & H).
  rewrite HSd, Hd in Hsplit.
  pose proof Hsplit as Hshape.
  apply split_indices_shape in Hshape; [| rewrite HSl; exact Hl].
  destruct Hshape as (k & j & Hjk & Ht & -> & -> & ->).
  assert (Hv : resolve val_size (firstn k (shuffle seed labels)) [] =
               Ok (Np.arange (Z.of_nat j))).
  { unfold Preprocessing.split_indices in Hsplit.
    rewrite Ht in Hsplit. cbn [bind] in Hsplit.
    rewrite take_arange_prefix in Hsplit by lia. cbn [bind] in Hsplit.
    apply bind_ok_inv in Hsplit. destruct Hsplit as (loc & Hloc & Hsplit).
    apply bind_ok_inv in Hsplit. destruct Hsplit as (v & Hv & Hsplit).
    injection Hsplit as _ Hva _.
    destruct (resolve_ok_arange _ _ _ _ Hloc) as (j' & ->).
    apply take_arange_arange in Hv. destruct Hv as [-> _].
    rewrite Hloc. f_equal.
    destruct (Z_le_gt_dec j' 0) as [Hneg | Hpos].
    - rewrite (arange_nonpos Hneg) in *.
      destruct j; [reflexivity |].
      rewrite arange_of_nat in Hva. discriminate Hva.
    - rewrite (arange_as_nat j') in Hva |- *.
      assert (Hlen : length (Np.arange (Z.of_nat (Z.to_nat j'))) =
                     length (Np.arange (Z.of_nat j))) by congruence.
      rewrite !arange_length, !Nat2Z.id in Hlen. rewrite Hlen.
      reflexivity. }
  rewrite arange_of_nat in H.
  rewrite !take_seq in H by lia.
  cbn [bind] in H. injection H as <- <- <- <- <- <-.
  exists k, j. split; [exact Hjk |]. split; [exact Ht |]. split; [exact Hv |].
  repeat split; try reflexivity.
  - apply firstn_all2. rewrite length_skipn. lia.
  - apply firstn_all2. rewrite length_skipn. lia.
Qed.

(** X1. Whenever [train_val_test_split] returns, the validation arrays
    are the first [j] shuffled samples and labels, the train arrays the
    next [k - j] and the test arrays the rest, where [arange k] and
    [arange j] are the resolved train and validation indices. *)
Theorem split_outputs_are_consecutive_slices :
  forall (N : nat) (data : list X) (labels : list L)
         (train_size val_size : value) (seed : Z)
         (train_x : list X) (train_y : list L) (val_x : list X)
         (val_y : list L) (test_x : list X) (test_y : list L),
    length data = N ->
    length labels = N ->
    train_val_test_split data labels train_size val_size seed =
      Ok (train_x, train_y, val_x, val_y, test_x, test_y) ->
    exists k j : nat,
      (j <= k <= N)%nat /\
      resolve train_size (shuffle seed labels) [] =
        Ok (Np.arange (Z.of_nat k)) /\
      resolve val_size (firstn k (shuffle seed labels)) [] =
        Ok (Np.arange (Z.of_nat j)) /\
      val_x = firstn j (shuffle seed data) /\
      val_y = firstn j (shuffle seed labels) /\
      train_x = firstn (k - j) (skipn j (shuffle seed data)) /\
      train_y = firstn (k - j) (skipn j (shuffle seed labels)) /\
      test_x = skipn k (shuffle seed data) /\
      test_y = skipn k (shuffle seed labels).
Proof.
  intros. eapply split_outputs_shape; eassumption.
Qed.

(** X2. Whenever [train_val_test_split] returns, validation, train and
    test together are the shuffled data: every input sample is returned
    exactly once, and it stays paired with its label. *)
Theorem split_outputs_partition_the_input :
  forall (N : nat) (data : list X) (labels : list L)
         (train_size val_size : value) (seed : Z)
         (train_x : list X) (train_y : list L) (val_x : list X)
         (val_y : list L) (test_x : list X) (test_y : list L),
    length data = N ->
    length labels = N ->
    train_val_test_split data labels train_size val_size seed =
      Ok (train_x, train_y, val_x, val_y, test_x, test_y) ->
    val_x ++ train_x ++ test_x = shuffle seed data /\
    val_y ++ train_y ++ test_y = shuffle seed labels /\
    Permutation (val_x ++ train_x ++ test_x) data /\
    Permutation (combine (val_x ++ train_x ++ test_x)
                         (val_y ++ train_y ++ test_y))
                (combine data labels).
Proof.
  intros N data labels train_size val_size seed
         train_x train_y val_x val_y test_x test_y Hd Hl H.
  destruct (split_outputs_shape _ _ _ _ _ Hd Hl H)
    as (k & j & Hjk & _ & _ & -> & -> & -> & -> & -> & ->).
  rewrite !firstn_skipn_split by lia.
  split; [reflexivity |]. split; [reflexivity |]. split.
  - apply (@shuffle_perm shuffle_order shuffle_order_perm).
  - rewrite shuffle_combine by congruence.
    apply (@shuffle_perm shuffle_order shuffle_order_perm).
Qed.

(** X3. With an int [train_size] below [2^53], the count covers train and
    validation together: whenever the split returns, the count is between
    [1] and [N], the train and validation arrays hold [train_size] samples
    between them and the test arrays the other [N - train_size]. *)
Theorem int_train_size_counts_train_and_validation :
  forall (N : nat) (data : list X) (labels : list L)
         (size : Z) (val_size : value) (seed : Z)
         (train_x : list X) (train_y : list L) (val_x : list X)
         (val_y : list L) (test_x : list X) (test_y : list L),
    length data = N ->
    length labels = N ->
    size < 2 ^ 53 ->
    train_val_test_split data labels (VInt size) val_size seed =
      Ok (train_x, train_y, val_x, val_y, test_x, test_y) ->
    1 <= size <= Z.of_nat N /\
    Z.of_nat (length train_x + length val_x) = size /\
    Z.of_nat (length test_x) = Z.of_nat N - size /\
    length train_y = length train_x /\
    length val_y = length val_x /\
    length test_y = length test_x.
Proof.
  intros N data labels size val_size seed
         train_x train_y val_x val_y test_x test_y Hd Hl Hdouble H.
  pose proof (@shuffle_length shuffle_order shuffle_order_perm X seed data)
    as HSd.
  pose proof (@shuffle_length shuffle_order shuffle_order_perm L seed labels)
    as HSl.
  destruct (split_outputs_shape _ _ _ _ _ Hd Hl H)
    as (k & j & Hjk & Ht & _ & -> & -> & -> & -> & -> & ->).
  apply resolve_int_ok_inv in Ht; [| exact Hdouble].
  destruct Ht as [Hsize Ht].
  apply arange_inj in Ht; [| lia | lia].
  rewrite !length_firstn, !length_skipn. lia.
Qed.

(** X4. The split returns exactly on the sizes its registers accept: for
    [N < 2^53] samples, a float [val_size] and a [train_size] that, if it
    is an int, is below [2^53], [train_val_test_split] returns if and only
    if [train_size] is a fraction in (0, 1] or a count in [1, N], and
    [val_size] is a fraction in (0, 1]. *)
Theorem split_returns_iff_sizes_valid :
  forall (N : nat) (data : list X) (labels : list L)
         (train_size : value) (val_size : spec_float) (seed : Z),
    length data = N ->
    length labels = N ->
    Z.of_nat N < 2 ^ 53 ->
    held_by_a_double train_size ->
    valid_binary Float64.prec Float64.emax val_size = true ->
    ((exists out,
         train_val_test_split data labels train_size (VFloat val_size) seed =
         Ok out) <->
     valid_train_size N train_size /\ in_unit_interval val_size = true).
Proof.
  intros N data labels train_size val_size seed Hd Hl HN Hwf Hval. split.
  - intros ([[[[[train_x train_y] val_x] val_y] test_x] test_y] & H).
    destruct (split_outputs_shape _ _ _ _ _ Hd Hl H)
      as (k & j & Hjk & Ht & Hv & _).
    split.
    + destruct train_size as [z | f | l |];
        cbn [Preprocessing._get_set_indices] in Ht; try discriminate Ht.
      * destruct (@resolve_int_ok_inv L get_label_indices_per_class memory
                    z _ _ Hwf Ht) as [Hz Ht'].
        apply arange_inj in Ht'; [| lia | lia].
        cbn [valid_train_size]. lia.
      * unfold Preprocessing._get_set_indices_float in Ht.
        fold (in_unit_interval f) in Ht.
        destruct (in_unit_interval f) eqn:Hf; [| discriminate Ht].
        split; [exact Hwf | exact Hf].
    + cbn [Preprocessing._get_set_indices] in Hv.
      unfold Preprocessing._get_set_indices_float in Hv.
      fold (in_unit_interval val_size) in Hv.
      destruct (in_unit_interval val_size); [reflexivity | discriminate Hv].
  - intros [Htrain Hunit].
    apply (@train_val_test_split_returns L X get_label_indices_per_class memory
             shuffle_order shuffle_order_perm N); try assumption.
    split; assumption.
Qed.

(** X5. Fraction sizes count in two steps: the train and validation
    arrays together hold [k = floor(N * train_size)] samples, and the
    validation arrays [j = floor(k * val_size)] of them, a fraction of the
    training subset and not of the whole dataset; the test arrays hold the
    other [N - k]. *)
Theorem fraction_sizes_count_in_two_steps :
  forall (N : nat) (data : list X) (labels : list L)
         (train_size val_size : spec_float) (seed : Z),
    length data = N ->
    length labels = N ->
    Z.of_nat N < 2 ^ 53 ->
    valid_fraction train_size ->
    valid_fraction val_size ->
    exists train_x train_y val_x val_y test_x test_y p1 k p2 j,
      train_val_test_split data labels (VFloat train_size) (VFloat val_size)
        seed = Ok (train_x, train_y, val_x, val_y, test_x, test_y) /\
      Float64.int_mul (Z.of_nat N) train_size = Ok p1 /\
      Float64.floor p1 = Some k /\
      Float64.int_mul k val_size = Ok p2 /\
      Float64.floor p2 = Some j /\
      0 <= j <= k /\ k <= Z.of_nat N /\
      Z.of_nat (length val_x) = j /\
      Z.of_nat (length train_x) = k - j /\
      Z.of_nat (length test_x) = Z.of_nat N - k.
Proof.
  intros N data labels train_size val_size seed Hd Hl HN Htrain Hval.
  pose proof (@shuffle_length shuffle_order shuffle_order_perm X seed data)
    as HSd.
  pose proof (@shuffle_length shuffle_order shuffle_order_perm L seed labels)
    as HSl.
  destruct (@train_val_test_split_returns L X get_label_indices_per_class memory
              shuffle_order shuffle_order_perm N data labels
              (VFloat train_size) val_size seed Hd Hl HN Htrain Hval)
    as ([[[[[train_x train_y] val_x] val_y] test_x] test_y] & H).
  destruct (split_outputs_shape _ _ _ _ _ Hd Hl H)
    as (k & j & Hjk & Ht & Hv & -> & -> & -> & -> & -> & ->).
  destruct (@resolve_fraction_in_range L get_label_indices_per_class memory
              train_size (shuffle seed labels) Htrain)
    as (p1 & k' & Hp1 & Hf1 & Hr1 & Hres1).
  { rewrite HSl, Hl. exact HN. }
  rewrite Hres1 in Ht. injection Ht as Ht.
  apply arange_inj in Ht; [| lia | lia]. subst k'.
  destruct (@resolve_fraction_in_range L get_label_indices_per_class memory
              val_size (firstn k (shuffle seed labels)) Hval)
    as (p2 & j' & Hp2 & Hf2 & Hr2 & Hres2).
  { rewrite length_firstn. lia. }
  rewrite Hres2 in Hv. injection Hv as Hv.
  apply arange_inj in Hv; [| lia | lia]. subst j'.
  rewrite length_firstn, HSl, Hl in Hp2.
  replace (Z.of_nat (Nat.min k N)) with (Z.of_nat k) in Hp2 by lia.
  rewrite HSl, Hl in Hp1.
  exists (firstn (k - j) (skipn j (shuffle seed data))),
         (firstn (k - j) (skipn j (shuffle seed labels))),
         (firstn j (shuffle seed data)), (firstn j (shuffle seed labels)),
         (skipn k (shuffle seed data)), (skipn k (shuffle seed labels)),
         p1, (Z.of_nat k), p2, (Z.of_nat j).
  split; [exact H |]. split; [exact Hp1 |]. split; [exact Hf1 |].
  split; [exact Hp2 |]. split; [exact Hf2 |].
  rewrite !length_firstn, !length_skipn. lia.
Qed.

End SplitOutputs.

(** ** The sizes [1.0] *)

Lemma valid_fraction_one : valid_fraction Float64.one.
Proof. split; vm_compute; reflexivity. Qed.

Section SizeOne.

Variables L X : Type.
Variable get_label_indices_per_class : list L -> list (list Z) * list L.
Variable memory : Z.
Variable shuffle_order : Z -> nat -> list nat.
Hypothesis shuffle_order_perm :
  forall seed n, Permutation (shuffle_order seed n) (seq 0 n).

Local Abbreviation resolve :=
  (Preprocessing._get_set_indices get_label_indices_per_class memory).
Local Abbreviation shuffle := (Preprocessing.shuffle shuffle_order).
Local Abbreviation train_val_test_split :=
  (@Preprocessing.train_val_test_split L X get_label_indices_per_class memory
     shuffle_order).

(** The fraction [1.0] resolves to every position. *)
Lemma resolve_one (labels : list L) :
  Z.of_nat (length labels) < 2 ^ 53 ->
  resolve (VFloat Float64.one) labels [] =
  Ok (Np.arange (Z.of_nat (length labels))).
Proof.
  intros HN.
  rewrite resolve_float_eq by (vm_compute; reflexivity).
  destruct (@RoundingExact.int_mul_one (Z.of_nat (length labels))
              ltac:(lia)) as (p & -> & Hp).
  cbn [bind]. rewrite Hp. reflexivity.
Qed.

(** X6. With [train_size = 1.0] every sample is selected for training:
    the split returns empty test arrays. *)
Theorem train_size_one_leaves_test_empty :
  forall (N : nat) (data : list X) (labels : list L)
         (val_size : spec_float) (seed : Z),
    length data = N ->
    length labels = N ->
    Z.of_nat N < 2 ^ 53 ->
    valid_fraction val_size ->
    exists train_x train_y val_x val_y,
      train_val_test_split data labels (VFloat Float64.one)
        (VFloat val_size) seed =
      Ok (train_x, train_y, val_x, val_y, [], []) /\
      (length train_x + length val_x = N)%nat.
Proof.
  intros N data labels val_size seed Hd Hl HN Hval.
  pose proof (@shuffle_length shuffle_order shuffle_order_perm X seed data)
    as HSd.
  pose proof (@shuffle_length shuffle_order shuffle_order_perm L seed labels)
    as HSl.
  destruct (@train_val_test_split_returns L X get_label_indices_per_class memory
              shuffle_order shuffle_order_perm N data labels
              (VFloat Float64.one) val_size seed Hd Hl HN
              valid_fraction_one Hval)
    as ([[[[[train_x train_y] val_x] val_y] test_x] test_y] & H).
  destruct (@split_outputs_shape L X get_label_indices_per_class memory
              shuffle_order shuffle_order_perm N data labels _ _ _
              _ _ _ _ _ _ Hd Hl H)
    as (k & j & Hjk & Ht & _ & Hvx & _ & Htx & _ & Hex & Hey).
  rewrite resolve_one in Ht by (rewrite HSl, Hl; exact HN).
  injection Ht as Ht. apply arange_inj in Ht; [| lia | lia].
  assert (k = N) by lia. subst k.
  rewrite skipn_all2 in Hex, Hey by lia. subst test_x test_y.
  exists train_x, train_y, val_x, val_y. split; [exact H |].
  subst train_x val_x. rewrite !length_firstn, !length_skipn. lia.
Qed.

(** X7. With [val_size = 1.0] every selected training sample becomes a
    validation sample: the split returns empty train arrays. *)
Theorem val_size_one_leaves_train_empty :
  forall (N : nat) (data : list X) (labels : list L)
         (train_size : value) (seed : Z),
    length data = N ->
    length labels = N ->
    Z.of_nat N < 2 ^ 53 ->
    valid_train_size N train_size ->
    exists val_x val_y test_x test_y,
      train_val_test_split data labels train_size (VFloat Float64.one) seed =
      Ok ([], [], val_x, val_y, test_x, test_y) /\
      (length val_x + length test_x = N)%nat.
Proof.
  intros N data labels train_size seed Hd Hl HN Htrain.
  pose proof (@shuffle_length shuffle_order shuffle_order_perm X seed data)
    as HSd.
  pose proof (@shuffle_length shuffle_order shuffle_order_perm L seed labels)
    as HSl.
  destruct (@train_val_test_split_returns L X get_label_indices_per_class memory
              shuffle_order shuffle_order_perm N data labels
              train_size Float64.one seed Hd Hl HN Htrain
              valid_fraction_one)
    as ([[[[[train_x train_y] val_x] val_y] test_x] test_y] & H).
  destruct (@split_outputs_shape L X get_label_indices_per_class memory
              shuffle_order shuffle_order_perm N data labels _ _ _
              _ _ _ _ _ _ Hd Hl H)
    as (k & j & Hjk & _ & Hv & Hvx & _ & Htx & Hty & Hex & _).
  rewrite resolve_one in Hv by (rewrite length_firstn; lia).
  injection Hv as Hv. apply arange_inj in Hv; [| lia | lia].
  rewrite length_firstn, HSl, Hl in Hv.
  assert (j = k) by lia. subst j.
  rewrite Nat.sub_diag in Htx, Hty. cbn [firstn] in Htx, Hty.
  subst train_x train_y.
  exists val_x, val_y, test_x, test_y. split; [exact H |].
  subst val_x test_x. rewrite length_firstn, length_skipn. lia.
Qed.

End SizeOne.

(** ** More on [remove_nan_samples] *)

Lemma select_all_true {A B : Type} (keep : A -> bool) (a : list A)
    (b : list B) :
  length b = length a ->
  (forall x, In x a -> keep x = true) ->
  map fst (filter snd (combine b (map keep a))) = b.
Proof.
  revert b. induction a as [| x a IH]; intros [| y b] Hlen Hall;
    simpl in *; try discriminate; try reflexivity.
  rewrite (Hall x) by (left; reflexivity). simpl. f_equal.
  apply IH; [lia |]. intros z Hz. apply Hall. right. exact Hz.
Qed.

(** On aligned arrays the function returns the filtered data and the
    labels selected by the same mask. *)
Lemma remove_nan_samples_aligned {L : Type}
    (data : list (list spec_float)) (labels : list L) :
  length labels = length data ->
  Preprocessing.remove_nan_samples data labels =
  Ok (filter nan_free data,
      map fst (filter snd (combine labels (map nan_free data)))).
Proof.
  intros Hlen.
  unfold Preprocessing.remove_nan_samples, Np.mask_select.
  rewrite !length_map, Hlen, Nat.eqb_refl. cbn [bind].
  rewrite map_map. fold has_nan.
  change (fun x => negb (has_nan x)) with nan_free.
  rewrite select_self. reflexivity.
Qed.

Lemma remove_nan_samples_ok_inv {L : Type}
    (data : list (list spec_float)) (labels : list L)
    (data' : list (list spec_float)) (labels' : list L) :
  Preprocessing.remove_nan_samples data labels = Ok (data', labels') ->
  length labels = length data /\
  data' = filter nan_free data /\
  labels' = map fst (filter snd (combine labels (map nan_free data))).
Proof.
  intros H.
  assert (Hlen : length labels = length data).
  { unfold Preprocessing.remove_nan_samples, Np.mask_select in H.
    rewrite !length_map in H.
    destruct (Nat.eqb (length labels) (length data)) eqn:E;
      [apply Nat.eqb_eq; exact E | discriminate H]. }
  rewrite (remove_nan_samples_aligned data labels Hlen) in H.
  injection H as <- <-. auto.
Qed.

(** X8. Data without any NaN passes through [remove_nan_samples]
    unchanged, with its labels. *)
Theorem remove_nan_samples_keeps_clean_data :
  forall (L : Type) (data : list (list spec_float)) (labels : list L),
    length labels = length data ->
    (forall sample, In sample data -> has_nan sample = false) ->
    Preprocessing.remove_nan_samples data labels = Ok (data, labels).
Proof.
  intros L data labels Hlen Hclean.
  assert (Hkeep : forall s, In s data -> nan_free s = true).
  { intros s Hs. unfold nan_free. rewrite (Hclean s Hs). reflexivity. }
  rewrite (remove_nan_samples_aligned data labels Hlen).
  rewrite (filter_all nan_free data Hkeep).
  rewrite (select_all_true nan_free data labels Hlen Hkeep).
  reflexivity.
Qed.

(** X9. [remove_nan_samples] is idempotent: applied to its own result it
    returns that result again. *)
Theorem remove_nan_samples_idempotent :
  forall (L : Type) (data data' : list (list spec_float))
         (labels labels' : list L),
    Preprocessing.remove_nan_samples data labels = Ok (data', labels') ->
    Preprocessing.remove_nan_samples data' labels' = Ok (data', labels').
Proof.
  intros L data data' labels labels' H.
  apply remove_nan_samples_ok_inv in H. destruct H as (Hlen & -> & ->).
  assert (Hlen' :
    length (map fst (filter snd (combine labels (map nan_free data)))) =
    length (filter nan_free data))
    by (apply select_other_length; exact Hlen).
  assert (Hkeep : forall s, In s (filter nan_free data) -> nan_free s = true).
  { intros s Hs. apply filter_In in Hs. apply Hs. }
  rewrite (remove_nan_samples_aligned _ _ Hlen').
  rewrite (filter_all nan_free _ Hkeep).
  rewrite (select_all_true nan_free _ _ Hlen' Hkeep).
  reflexivity.
Qed.

Section CleanThenSplit.

Variable L : Type.
Variable get_label_indices_per_class : list L -> list (list Z) * list L.
Variable memory : Z.
Variable shuffle_order : Z -> nat -> list nat.
Hypothesis shuffle_order_perm :
  forall seed n, Permutation (shuffle_order seed n) (seq 0 n).

Local Abbreviation train_val_test_split :=
  (@Preprocessing.train_val_test_split L (list spec_float)
     get_label_indices_per_class memory shuffle_order).

(** X10. Cleaning and then splitting: on aligned arrays and valid sizes,
    [remove_nan_samples] followed by [train_val_test_split] returns, and
    the sample/label pairs of the three returned sets are exactly the
    input pairs whose sample has no NaN, each once. *)
Theorem clean_then_split_returns_the_clean_pairs :
  forall (data : list (list spec_float)) (labels : list L)
         (train_size : value) (val_size : spec_float) (seed : Z),
    length labels = length data ->
    Z.of_nat (length (filter nan_free data)) < 2 ^ 53 ->
    valid_train_size (length (filter nan_free data)) train_size ->
    valid_fraction val_size ->
    exists data' labels' train_x train_y val_x val_y test_x test_y,
      Preprocessing.remove_nan_samples data labels = Ok (data', labels') /\
      train_val_test_split data' labels' train_size (VFloat val_size) seed =
        Ok (train_x, train_y, val_x, val_y, test_x, test_y) /\
      Permutation
        (combine (val_x ++ train_x ++ test_x) (val_y ++ train_y ++ test_y))
        (filter (fun p => nan_free (fst p)) (combine data labels)).
Proof.
  intros data labels train_size val_size seed Hlen HN Htrain Hval.
  set (data' := filter nan_free data) in *.
  set (labels' := map fst (filter snd (combine labels (map nan_free data)))).
  assert (Hlen' : length labels' = length data')
    by (apply select_other_length; exact Hlen).
  destruct (@train_val_test_split_returns L (list spec_float)
              get_label_indices_per_class memory shuffle_order
              shuffle_order_perm
              (length data') data' labels' train_size val_size seed
              eq_refl Hlen' HN Htrain Hval)
    as ([[[[[train_x train_y] val_x] val_y] test_x] test_y] & H).
  exists data', labels', train_x, train_y, val_x, val_y, test_x, test_y.
  split; [apply remove_nan_samples_aligned; exact Hlen |].
  split; [exact H |].
  destruct (@split_outputs_shape L (list spec_float)
              get_label_indices_per_class memory shuffle_order
              shuffle_order_perm
              (length data') data' labels' _ _ _ _ _ _ _ _ _
              eq_refl Hlen' H)
    as (k & j & Hjk & _ & _ & -> & -> & -> & -> & -> & ->).
  rewrite !firstn_skipn_split by lia.
  rewrite (@shuffle_combine L (list spec_float) shuffle_order seed
             data' labels') by congruence.
  eapply Permutation_trans.
  - apply (@shuffle_perm shuffle_order shuffle_order_perm).
  - unfold data', labels'.
    rewrite <- (select_self nan_free data) at 1.
    rewrite select_pairs by exact Hlen. apply Permutation_refl.
Qed.

End CleanThenSplit.

(** ** More on [collect_artifacts_report] *)

Section ReporterMore.

Import ArtifactsReporter ReportSpec.

Variable load_metrics : string -> option string -> result all_metrics.
Variable fs : file_system.
Variable py_float : string -> option spec_float.
Variables np_mean np_std np_min np_max : list spec_float -> spec_float.

Local Abbreviation collect :=
  (collect_artifacts_report load_metrics fs py_float np_mean np_std np_min
     np_max).
Local Abbreviation numeric := (numeric py_float).
Local Abbreviation row_values := (row_values py_float).
Local Abbreviation column := (column py_float).
Local Abbreviation stats_of := (stats_of np_mean np_std np_min np_max).

(** *** The steps raise nothing but [ValueError] *)

Lemma append_row_raise (pairs : list (string * string))
    (d : dict (list spec_float)) (e : exn) :
  append_row py_float pairs d = Raise e -> e = ValueError.
Proof.
  revert d. induction pairs as [| [k v] pairs IH]; intros d; simpl.
  - discriminate.
  - destruct (py_float v); [apply IH | congruence].
Qed.

Lemma append_rows_raise (rows : list (list string))
    (d : dict (list spec_float)) (e : exn) :
  append_rows py_float rows d = Raise e -> e = ValueError.
Proof.
  revert d. induction rows as [| row rows IH]; intros d; simpl.
  - discriminate.
  - destruct (append_row py_float _ d) as [d' | e'] eqn:Hrow; simpl.
    + apply IH.
    + intros H. injection H as <-. eapply append_row_raise. exact Hrow.
Qed.

Lemma fill_stats_raise (ks : list string) (d : dict (list spec_float))
    (r : report) (e : exn) :
  fill_stats np_mean np_std np_min np_max ks d r = Raise e -> e = ValueError.
Proof.
  revert r. induction ks as [| k ks IH]; intros r; simpl.
  - discriminate.
  - destruct (find _ d) as [[k' [| x col]] |]; simpl;
      try congruence; apply IH.
Qed.



(** X12. The consistency failure is raised exactly when the loaded key
    lists are not one and the same sequence, which includes the case of no
    run at all. *)
Theorem consistency_failure_iff_keys_differ :
  forall (experiments_path dest_path : string) (filename : option string)
         (loaded : all_metrics) (before : list fs_event),
    load_metrics experiments_path filename = Ok loaded ->
    (fst (collect experiments_path dest_path filename before) =
       Raise (AssertionError inconsistent_metric_names) <->
     ~ exists keys, consistent_keys loaded keys).
Proof.
  intros experiments_path dest_path filename loaded before Hload.
  unfold collect_artifacts_report, io_bind at 1 2 3, io_lift, io_raise.
  rewrite Hload. split.
  - intros H (keys & Hne & Hall).
    rewrite (nodup_all_equal Hne Hall) in H. cbn [length Nat.eqb negb hd] in H.
    destruct (append_rows py_float _ _) as [d | e] eqn:Hrows.
    + destruct (fill_stats _ _ _ _ _ _ _) as [r | e] eqn:Hstats.
      * destruct (@write_outcome fs dest_path r before)
          as [[_ [Hok | (why & Hwhy)]] | (_ & why & Hwhy)];
          [rewrite Hok in H | rewrite Hwhy in H | rewrite Hwhy in H];
          discriminate H.
      * apply fill_stats_raise in Hstats. subst e. discriminate H.
    + apply append_rows_raise in Hrows. subst e. discriminate H.
  - intros Hno.
    destruct (nodup tuple_eq_dec (metric_keys loaded)) as [| k [| k' l]]
      eqn:Hnd; try reflexivity.
    exfalso. apply Hno. exists k. split.
    + intros Hempty. rewrite Hempty in Hnd. discriminate Hnd.
    + intros k0 Hk0. apply (nodup_In tuple_eq_dec) in Hk0.
      rewrite Hnd in Hk0. destruct Hk0 as [<- | []]. reflexivity.
Qed.

(** *** The artifacts in closed form *)

Lemma dict_set_fresh {V : Type} (d : dict V) (k : string) (v : V) :
  ~ In k (dict_keys d) -> dict_set d k v = d ++ [(k, v)].
Proof.
  induction d as [| [k' v'] d IH]; simpl; intros Hk.
  - reflexivity.
  - destruct (String.eqb k' k) eqn:Heq.
    + apply String.eqb_eq in Heq. exfalso. apply Hk. left. exact Heq.
    + rewrite IH; [reflexivity |]. intros Hin. apply Hk. right. exact Hin.
Qed.

Lemma fresh_artifacts_closed (keys : list string)
    (d : dict (list spec_float)) :
  NoDup (dict_keys d ++ keys) ->
  fold_left (fun d k => dict_set d k []) keys d =
  d ++ map (fun k => (k, [])) keys.
Proof.
  revert d. induction keys as [| k keys IH]; intros d Hnd; simpl.
  - rewrite app_nil_r. reflexivity.
  - assert (Hk : ~ In k (dict_keys d)).
    { intros Hin. apply NoDup_remove_2 in Hnd. apply Hnd.
      apply in_or_app. left. exact Hin. }
    rewrite (@dict_set_fresh _ d k (@nil spec_float) Hk).
    rewrite IH.
    + rewrite <- app_assoc. reflexivity.
    + unfold dict_keys in *. rewrite map_app, <- app_assoc. exact Hnd.
Qed.

Lemma append_row_closed (pairs : list (string * string))
    (d : dict (list spec_float)) :
  Forall (fun p => py_float (snd p) <> None) pairs ->
  append_row py_float pairs d =
  Ok (map (fun kc => (fst kc, snd kc ++ row_values (fst kc) pairs)) d).
Proof.
  revert d. induction pairs as [| [k v] pairs IH]; intros d Hnum.
  - simpl. f_equal. rewrite <- (map_id d) at 1. apply map_ext.
    intros [k c]. simpl. rewrite app_nil_r. reflexivity.
  - inversion Hnum as [| ? ? Hv Hrest]; subst. simpl in Hv.
    simpl. destruct (py_float v) as [x |] eqn:Hx; [| contradiction].
    rewrite (IH _ Hrest). f_equal. unfold dict_append.
    rewrite map_map. apply map_ext. intros [k' c]. cbn [fst snd].
    unfold ReportSpec.row_values. cbn [flat_map fst snd].
    rewrite (String.eqb_sym k k').
    destruct (String.eqb k' k); cbn [fst snd].
    + replace (numeric v) with [x]
        by (unfold ReportSpec.numeric; rewrite Hx; reflexivity).
      rewrite <- app_assoc. reflexivity.
    + reflexivity.
Qed.

Lemma append_rows_closed (rows : list (list string))
    (d : dict (list spec_float)) :
  (forall row, In row rows ->
               Forall (fun p => py_float (snd p) <> None)
                      (combine (dict_keys d) row)) ->
  append_rows py_float rows d =
  Ok (map (fun kc =>
             (fst kc,
              snd kc ++ flat_map (fun row =>
                                    row_values (fst kc)
                                      (combine (dict_keys d) row)) rows))
          d).
Proof.
  revert d. induction rows as [| row rows IH]; intros d Hnum.
  - simpl. f_equal. rewrite <- (map_id d) at 1. apply map_ext.
    intros [k c]. simpl. rewrite app_nil_r. reflexivity.
  - cbn [append_rows].
    rewrite append_row_closed by (apply Hnum; left; reflexivity).
    cbn [bind].
    set (d1 := map _ d).
    assert (Hkeys : dict_keys d1 = dict_keys d).
    { unfold d1, dict_keys. rewrite map_map. reflexivity. }
    rewrite IH.
    + rewrite Hkeys. f_equal. unfold d1. rewrite map_map. apply map_ext.
      intros [k c]. cbn [fst snd flat_map].
      rewrite <- app_assoc. reflexivity.
    + intros r Hr. rewrite Hkeys. apply Hnum. right. exact Hr.
Qed.

Lemma row_values_absent (k : string) (pairs : list (string * string)) :
  ~ In k (map fst pairs) -> row_values k pairs = [].
Proof.
  induction pairs as [| [k' v] pairs IH]; simpl; intros Hk.
  - reflexivity.
  - destruct (String.eqb k' k) eqn:Heq.
    + apply String.eqb_eq in Heq. exfalso. apply Hk. left. exact Heq.
    + apply IH. intros Hin. apply Hk. right. exact Hin.
Qed.

(** With distinct keys, the key at position [i] receives the [i]-th field
    of the row. *)
Lemma row_values_at (keys : list string) (row : list string) (i : nat)
    (k : string) :
  NoDup keys -> nth_error keys i = Some k ->
  row_values k (combine keys row) =
  match nth_error row i with
  | Some field => numeric field
  | None => []
  end.
Proof.
  revert row i. induction keys as [| k0 keys IH]; intros row i Hnd Hk.
  - destruct i; discriminate Hk.
  - inversion Hnd as [| ? ? Hk0 Hnd']; subst.
    destruct row as [| field row].
    + destruct i; reflexivity.
    + destruct i as [| i]; cbn [combine nth_error] in *.
      * injection Hk as ->.
        unfold ReportSpec.row_values. cbn [flat_map fst snd].
        rewrite String.eqb_refl.
        fold (row_values k (combine keys row)).
        rewrite row_values_absent; [apply app_nil_r |].
        intros Hin. apply Hk0. apply in_map_iff in Hin.
        destruct Hin as ([a b] & <- & Hab). apply in_combine_l in Hab.
        exact Hab.
      * unfold ReportSpec.row_values. cbn [flat_map fst snd].
        assert (Hne : String.eqb k0 k = false).
        { apply String.eqb_neq. intros ->. apply Hk0.
          apply nth_error_In in Hk. exact Hk. }
        rewrite Hne. cbn [app].
        apply (IH row i Hnd' Hk).
Qed.

Lemma map_indexed {V : Type} (F : string -> V) (G : nat -> V)
    (keys : list string) (s : nat) :
  (forall i k, nth_error keys i = Some k -> F k = G (s + i)%nat) ->
  map (fun k => (k, F k)) keys =
  map (fun ik => (snd ik, G (fst ik))) (combine (seq s (length keys)) keys).
Proof.
  revert s. induction keys as [| k keys IH]; intros s H.
  - reflexivity.
  - cbn [length seq combine map fst snd]. f_equal.
    + rewrite (H 0%nat k eq_refl). rewrite Nat.add_0_r. reflexivity.
    + apply IH. intros i k' Hk'.
      rewrite (H (S i) k' Hk'). f_equal. lia.
Qed.

(** The artifacts after the loops, for distinct keys and numeric fields:
    one column per key, holding the fields at the position of the key. *)
Lemma artifacts_closed (keys : list string) (rows : list (list string)) :
  NoDup keys ->
  (forall row, In row rows ->
               Forall (fun p => py_float (snd p) <> None) (combine keys row)) ->
  append_rows py_float rows
    (fold_left (fun d k => dict_set d k []) keys []) =
  Ok (map (fun ik => (snd ik, column (fst ik) rows))
          (combine (seq 0 (length keys)) keys)).
Proof.
  intros Hnd Hnum.
  rewrite fresh_artifacts_closed by exact Hnd. cbn [app].
  assert (Hkeys : dict_keys (map (fun k => (k, @nil spec_float)) keys) = keys).
  { unfold dict_keys. rewrite map_map. apply map_id. }
  rewrite append_rows_closed by (rewrite Hkeys; exact Hnum).
  f_equal. rewrite map_map. cbn [fst snd app]. rewrite Hkeys.
  apply (map_indexed
           (fun k => flat_map (fun row => row_values k (combine keys row)) rows)
           (fun i => column i rows) keys 0).
  intros i k Hk. cbn [Nat.add]. unfold ReportSpec.column.
  apply flat_map_ext. intros row. apply row_values_at; assumption.
Qed.

Lemma find_entry (d : dict (list spec_float))
    (e : string * list spec_float) :
  NoDup (dict_keys d) -> In e d ->
  find (fun kv => String.eqb (fst kv) (fst e)) d = Some e.
Proof.
  induction d as [| [k c] d IH]; intros Hnd Hin; [contradiction |].
  inversion Hnd as [| ? ? Hk Hnd']; subst. cbn [find fst].
  destruct Hin as [<- | Hin].
  - cbn [fst]. rewrite String.eqb_refl. reflexivity.
  - destruct (String.eqb k (fst e)) eqn:Heq.
    + apply String.eqb_eq in Heq. exfalso. apply Hk. subst k.
      apply in_map. exact Hin.
    + apply IH; assumption.
Qed.

Lemma fill_stats_closed (entries : dict (list spec_float))
    (d : dict (list spec_float)) (r : report) :
  (forall e, In e entries ->
             find (fun kv => String.eqb (fst kv) (fst e)) d = Some e /\
             snd e <> []) ->
  NoDup (dict_keys r ++ dict_keys entries) ->
  fill_stats np_mean np_std np_min np_max (dict_keys entries) d r =
  Ok (r ++ map (fun e => (fst e, stats_of (snd e))) entries).
Proof.
  revert r. induction entries as [| [k c] entries IH]; intros r He Hnd.
  - simpl. rewrite app_nil_r. reflexivity.
  - destruct (He (k, c) (or_introl eq_refl)) as [Hfind Hcol].
    cbn [fst snd] in Hfind, Hcol.
    cbn [dict_keys map fst fill_stats]. rewrite Hfind. cbn [snd].
    destruct c as [| x c]; [contradiction |].
    cbn [mean_or_nan reduce_nonempty bind].
    assert (Hk : ~ In k (dict_keys r)).
    { intros Hin. cbn [dict_keys map fst] in Hnd.
      apply NoDup_remove_2 in Hnd. apply Hnd. apply in_or_app.
      left. exact Hin. }
    rewrite (@dict_set_fresh _ r k _ Hk).
    fold (dict_keys entries). rewrite IH.
    + rewrite <- app_assoc. reflexivity.
    + intros e Hin. apply He. right. exact Hin.
    + unfold dict_keys in *. rewrite map_app, <- app_assoc. exact Hnd.
Qed.

Lemma in_combine_firstn {A B : Type} (a : list A) (b : list B)
    (p : A * B) :
  In p (combine a b) -> In (snd p) (firstn (length a) b).
Proof.
  revert b. induction a as [| x a IH]; intros [| y b]; simpl;
    try contradiction.
  intros [<- | Hin]; [left; reflexivity | right; apply IH; exact Hin].
Qed.

Lemma zipped_fields_numeric (keys : list string) (rows : list (list string)) :
  (forall row field, In row rows -> In field (firstn (length keys) row) ->
                     py_float field <> None) ->
  forall row, In row rows ->
              Forall (fun p => py_float (snd p) <> None) (combine keys row).
Proof.
  intros H row Hrow. apply Forall_forall. intros p Hp.
  apply (H row (snd p) Hrow). apply in_combine_firstn. exact Hp.
Qed.

Lemma indexed_keys (keys : list string) (s : nat) :
  map snd (combine (seq s (length keys)) keys) = keys.
Proof.
  revert s. induction keys as [| k keys IH]; intros s; simpl.
  - reflexivity.
  - f_equal. apply IH.
Qed.

Lemma in_indexed (keys : list string) (s i : nat) (k : string) :
  nth_error keys i = Some k ->
  In ((s + i)%nat, k) (combine (seq s (length keys)) keys).
Proof.
  revert s i. induction keys as [| k0 keys IH]; intros s i Hk.
  - destruct i; discriminate Hk.
  - destruct i as [| i]; cbn [length seq combine nth_error] in *.
    + injection Hk as ->. left. rewrite Nat.add_0_r. reflexivity.
    + right. replace (s + S i)%nat with (S s + i)%nat by lia.
      apply IH. exact Hk.
Qed.

Lemma artifacts_keys (keys : list string) (rows : list (list string)) :
  dict_keys (map (fun ik => (snd ik, column (fst ik) rows))
                 (combine (seq 0 (length keys)) keys)) = keys.
Proof.
  unfold dict_keys. rewrite map_map. cbn [fst]. apply indexed_keys.
Qed.

(** X13. The report: when the runs share one list of distinct metric
    names (none of them "Stats"), the zipped fields are numeric, every
    metric has a value in some run and the file system accepts the calls
    at [dest_path], the reporter writes one row of labels and, per metric,
    the mean, standard deviation, minimum and maximum of the fields found
    at the position of the metric, taken over the runs in their order. *)
Theorem report_holds_the_statistics_of_each_column :
  forall (experiments_path dest_path : string) (filename : option string)
         (loaded : all_metrics) (keys : list string)
         (before : list fs_event),
    load_metrics experiments_path filename = Ok loaded ->
    consistent_keys loaded keys ->
    NoDup keys ->
    ~ In "Stats"%string keys ->
    (forall row field,
        In row (metric_values loaded) ->
        In field (firstn (length keys) row) -> py_float field <> None) ->
    (forall i, (i < length keys)%nat ->
               column i (metric_values loaded) <> []) ->
    accepts_report fs dest_path ->
    collect experiments_path dest_path filename before =
    (Ok tt,
     before ++
     report_written dest_path
       (expected_report py_float np_mean np_std np_min np_max keys
          (metric_values loaded))).
Proof.
  intros experiments_path dest_path filename loaded keys before
         Hload [Hne Hall] Hnd Hstats Hnum Hcols Hfs.
  unfold collect_artifacts_report, io_bind at 1 2 3, io_lift.
  rewrite Hload, (nodup_all_equal Hne Hall). cbn [length Nat.eqb negb hd].
  rewrite (artifacts_closed (metric_values loaded) Hnd
             (zipped_fields_numeric keys (metric_values loaded) Hnum)).
  set (art := map _ (combine (seq 0 (length keys)) keys)).
  pose proof (artifacts_keys keys (metric_values loaded)) as Hkeys.
  fold art in Hkeys.
  rewrite (@fill_stats_closed art art).
  - rewrite (@write_accepted fs) by exact Hfs.
    unfold ReportSpec.expected_report, art. rewrite map_map.
    reflexivity.
  - intros e He. split.
    + apply find_entry; [rewrite Hkeys; exact Hnd | exact He].
    + unfold art in He. apply in_map_iff in He.
      destruct He as ([i k] & <- & Hik). cbn [fst snd].
      apply Hcols. apply in_combine_l in Hik. apply in_seq in Hik. lia.
  - rewrite Hkeys. cbn [dict_keys map fst app].
    constructor; assumption.
Qed.

Lemma append_row_ok_numeric (pairs : list (string * string))
    (d d' : dict (list spec_float)) :
  append_row py_float pairs d = Ok d' ->
  Forall (fun p => py_float (snd p) <> None) pairs /\
  dict_keys d' = dict_keys d.
Proof.
  revert d. induction pairs as [| [k v] pairs IH]; intros d H.
  - injection H as <-. split; [constructor | reflexivity].
  - simpl in H. destruct (py_float v) as [x |] eqn:Hx; [| discriminate H].
    apply IH in H. destruct H as [Hrest Hkeys]. split.
    + constructor; [simpl; rewrite Hx; discriminate | exact Hrest].
    + rewrite Hkeys. apply dict_append_keys.
Qed.

Lemma append_rows_ok_numeric (rows : list (list string))
    (d d' : dict (list spec_float)) :
  append_rows py_float rows d = Ok d' ->
  forall row, In row rows ->
              Forall (fun p => py_float (snd p) <> None)
                     (combine (dict_keys d) row).
Proof.
  revert d. induction rows as [| row rows IH]; intros d H r Hr.
  - contradiction.
  - simpl in H. apply bind_ok_inv in H. destruct H as (d1 & Hd1 & H).
    apply append_row_ok_numeric in Hd1. destruct Hd1 as [Hnum Hkeys].
    destruct Hr as [<- | Hr]; [exact Hnum |].
    rewrite <- Hkeys. apply (IH d1 H r Hr).
Qed.

Lemma in_firstn_combine {A B : Type} (a : list A) (b : list B) (y : B) :
  In y (firstn (length a) b) -> exists x, In (x, y) (combine a b).
Proof.
  revert b. induction a as [| x a IH]; intros [| y0 b]; simpl;
    try contradiction.
  intros [<- | Hin].
  - exists x. left. reflexivity.
  - destruct (IH b Hin) as (x' & Hx'). exists x'. right. exact Hx'.
Qed.

(** X14. A field that is not a number, at the position of one of the
    metrics, makes the run fail with [ValueError] before anything is
    written. *)
Theorem non_numeric_field_raises_value_error :
  forall (experiments_path dest_path : string) (filename : option string)
         (loaded : all_metrics) (keys row : list string) (field : string)
         (before : list fs_event),
    load_metrics experiments_path filename = Ok loaded ->
    consistent_keys loaded keys ->
    NoDup keys ->
    In row (metric_values loaded) ->
    In field (firstn (length keys) row) ->
    py_float field = None ->
    collect experiments_path dest_path filename before =
    (Raise ValueError, before).
Proof.
  intros experiments_path dest_path filename loaded keys row field before
         Hload [Hne Hall] Hnd Hrow Hfield Hnone.
  unfold collect_artifacts_report, io_bind, io_lift.
  rewrite Hload, (nodup_all_equal Hne Hall). cbn [length Nat.eqb negb hd].
  rewrite fresh_artifacts_closed by exact Hnd. cbn [app].
  destruct (append_rows py_float (metric_values loaded) _) as [d | e]
    eqn:Hrows.
  - exfalso.
    pose proof (append_rows_ok_numeric _ _ Hrows row Hrow) as Hnum.
    unfold dict_keys in Hnum. rewrite map_map, map_id in Hnum.
    destruct (in_firstn_combine keys row field Hfield) as (k & Hk).
    rewrite Forall_forall in Hnum. apply (Hnum (k, field) Hk). exact Hnone.
  - apply append_rows_raise in Hrows. subst e. reflexivity.
Qed.

Lemma fill_stats_ok_inv (ks : list string) (d : dict (list spec_float))
    (r r' : report) :
  fill_stats np_mean np_std np_min np_max ks d r = Ok r' ->
  forall k e, In k ks ->
              find (fun kv => String.eqb (fst kv) k) d = Some e ->
              snd e <> [].
Proof.
  revert r. induction ks as [| k0 ks IH]; intros r H k e Hk Hfind.
  - contradiction.
  - simpl in H.
    destruct (find (fun kv => String.eqb (fst kv) k0) d) as [kv |] eqn:Hf0.
    + destruct (snd kv) as [| x col] eqn:Hcol; [discriminate H |].
      cbn [mean_or_nan reduce_nonempty bind] in H.
      destruct Hk as [<- | Hk].
      * rewrite Hf0 in Hfind. injection Hfind as <-.
        rewrite Hcol. discriminate.
      * apply (IH _ H k e Hk Hfind).
    + discriminate H.
Qed.

(** X15. A metric for which no run has a field makes [np.min] fail on an
    empty column: the run raises [ValueError] and writes nothing. *)
Theorem metric_without_value_raises_value_error :
  forall (experiments_path dest_path : string) (filename : option string)
         (loaded : all_metrics) (keys : list string) (i : nat)
         (before : list fs_event),
    load_metrics experiments_path filename = Ok loaded ->
    consistent_keys loaded keys ->
    NoDup keys ->
    (forall row field,
        In row (metric_values loaded) ->
        In field (firstn (length keys) row) -> py_float field <> None) ->
    (i < length keys)%nat ->
    (forall row, In row (metric_values loaded) -> (length row <= i)%nat) ->
    collect experiments_path dest_path filename before =
    (Raise ValueError, before).
Proof.
  intros experiments_path dest_path filename loaded keys i before
         Hload [Hne Hall] Hnd Hnum Hi Hshort.
  unfold collect_artifacts_report, io_bind, io_lift.
  rewrite Hload, (nodup_all_equal Hne Hall). cbn [length Nat.eqb negb hd].
  rewrite (artifacts_closed (metric_values loaded) Hnd
             (zipped_fields_numeric keys (metric_values loaded) Hnum)).
  set (art := map _ (combine (seq 0 (length keys)) keys)).
  pose proof (artifacts_keys keys (metric_values loaded)) as Hkeys.
  fold art in Hkeys.
  destruct (fill_stats _ _ _ _ (dict_keys art) art _) as [r | e] eqn:Hstats.
  - exfalso.
    destruct (nth_error keys i) as [k |] eqn:Hk.
    2: { apply nth_error_None in Hk. lia. }
    assert (Hin : In (k, column i (metric_values loaded)) art).
    { unfold art. apply in_map_iff. exists (i, k). split; [reflexivity |].
      apply (in_indexed keys 0 i Hk). }
    assert (Hfind : find (fun kv => String.eqb (fst kv) k) art =
                    Some (k, column i (metric_values loaded))).
    { apply (find_entry art (k, column i (metric_values loaded)));
        [rewrite Hkeys; exact Hnd | exact Hin]. }
    assert (HkIn : In k (dict_keys art)).
    { rewrite Hkeys. apply nth_error_In in Hk. exact Hk. }
    assert (Hcol : snd (k, column i (metric_values loaded)) <> []).
    { eapply fill_stats_ok_inv; [exact Hstats | exact HkIn | exact Hfind]. }
    apply Hcol. cbn [snd]. unfold ReportSpec.column.
    clear - Hshort. induction (metric_values loaded) as [| row rows IH].
    + reflexivity.
    + cbn [flat_map].
      assert (Hrow : nth_error row i = None).
      { apply nth_error_None. apply Hshort. left. reflexivity. }
      rewrite Hrow. cbn [app]. apply IH.
      intros r Hr. apply Hshort. right. exact Hr.
  - apply fill_stats_raise in Hstats. subst e. reflexivity.
Qed.

End ReporterMore.

(** ** The list register, called with its three arguments *)

Lemma list_get_middle {A : Type} (pre post : list A) (x : A) :
  list_get (pre ++ x :: post) (length pre) = Ok x.
Proof.
  unfold list_get. rewrite nth_error_app2 by lia.
  rewrite Nat.sub_diag. reflexivity.
Qed.

Lemma list_set_middle {A : Type} (pre post : list A) (x y : A) :
  list_set (pre ++ x :: post) (length pre) y = Ok (pre ++ y :: post).
Proof.
  induction pre as [| z pre IH]; simpl.
  - reflexivity.
  - rewrite IH. reflexivity.
Qed.

Lemma firstn_incl {A : Type} (k : nat) (l : list A) (x : A) :
  In x (firstn k l) -> In x l.
Proof.
  intros Hin. rewrite <- (firstn_skipn k l). apply in_or_app.
  left. exact Hin.
Qed.

Lemma slice_to_incl {A : Type} (l : list A) (n : Z) :
  exists k, slice_to l n = firstn k l.
Proof.
  unfold slice_to. destruct (n <? 0); eexists; reflexivity.
Qed.

Section ListRegister.

Variable L : Type.
Variable get_label_indices_per_class : list L -> list (list Z) * list L.
Variable memory : Z.

Local Abbreviation resolve :=
  (Preprocessing._get_set_indices get_label_indices_per_class memory).

Lemma truncate_classes_closed (sizes : list Z) (pre classes : list (list Z)) :
  Preprocessing.truncate_classes
    (combine (map VInt sizes) (seq (length pre) (length classes)))
    (pre ++ classes) =
  Ok (pre ++ cut_classes sizes classes).
Proof.
  revert pre classes. induction sizes as [| n sizes IH]; intros pre classes.
  - reflexivity.
  - destruct classes as [| c classes]; [reflexivity |].
    cbn [map length seq combine Preprocessing.truncate_classes cut_classes].
    rewrite list_get_middle. cbn [bind py_int].
    rewrite list_set_middle. cbn [bind].
    specialize (IH (pre ++ [slice_to c n]) classes).
    rewrite length_app, Nat.add_1_r, <- !app_assoc in IH. exact IH.
Qed.

(** X16. Called with three arguments and a list of at least two counts
    (or none), the list register concatenates the classes in the order of
    the helper, class [i] cut to its first [size[i]] indices as long as
    there is a count and the classes beyond the counts whole; without any
    class, [np.concatenate] raises [ValueError]. *)
Theorem list_register_selects_per_class :
  forall (sizes : list Z) (labels : list L) (extra : value)
         (classes : list (list Z)) (uniques : list L),
    get_label_indices_per_class labels = (classes, uniques) ->
    length uniques = length classes ->
    length sizes <> 1%nat ->
    resolve (VList (map VInt sizes)) labels [extra] =
    match classes with
    | [] => Raise ValueError
    | _ => Ok (concat (cut_classes sizes classes))
    end.
Proof.
  intros sizes labels extra classes uniques Hg Hu Hlen.
  cbn [Preprocessing._get_set_indices].
  unfold Preprocessing._get_set_indices_list. rewrite Hg, length_map.
  replace (Nat.eqb (length sizes) 1) with false
    by (symmetry; apply Nat.eqb_neq; exact Hlen).
  cbn [bind py_zip]. rewrite Hu.
  pose proof (truncate_classes_closed sizes [] classes) as Hcut0.
  cbn [length app] in Hcut0. rewrite Hcut0. cbn [bind].
  destruct (cut_classes sizes classes) as [| c cs] eqn:Hcut.
  - destruct classes as [| c0 classes]; [reflexivity |].
    destruct sizes; discriminate Hcut.
  - destruct classes as [| c0 classes]; [| reflexivity].
    destruct sizes; discriminate Hcut.
Qed.

Lemma NoDup_app_parts {A : Type} (a b a' b' : list A) :
  NoDup (a ++ b) -> NoDup a' -> NoDup b' -> incl a' a -> incl b' b ->
  NoDup (a' ++ b').
Proof.
  intros Hab Ha' Hb' Hia Hib.
  induction a' as [| x a' IH]; [exact Hb' |].
  inversion Ha' as [| ? ? Hx Hnd]; subst. cbn [app]. constructor.
  - intros Hin. apply in_app_or in Hin. destruct Hin as [Hin | Hin];
      [contradiction |].
    assert (Hxa : In x a) by (apply Hia; left; reflexivity).
    apply Hib in Hin. clear - Hab Hxa Hin.
    induction a as [| y a IHa]; [contradiction |].
    inversion Hab as [| ? ? Hy Hab']; subst.
    destruct Hxa as [-> | Hxa].
    + apply Hy. apply in_or_app. right. exact Hin.
    + apply IHa; assumption.
  - apply IH; [exact Hnd |]. intros z Hz. apply Hia. right. exact Hz.
Qed.

Lemma NoDup_firstn {A : Type} (k : nat) (l : list A) :
  NoDup l -> NoDup (firstn k l).
Proof.
  revert k. induction l as [| x l IH]; intros [| k] Hnd; simpl;
    try constructor.
  - inversion Hnd as [| ? ? Hx Hl]; subst. intros Hin.
    apply Hx. apply (firstn_incl k l x Hin).
  - apply IH. inversion Hnd; assumption.
Qed.

Lemma cut_classes_incl (sizes : list Z) (classes : list (list Z)) :
  incl (concat (cut_classes sizes classes)) (concat classes).
Proof.
  revert classes. induction sizes as [| n sizes IH]; intros classes.
  - destruct classes; apply incl_refl.
  - destruct classes as [| c classes]; [apply incl_refl |].
    cbn [cut_classes concat]. destruct (slice_to_incl c n) as (k & ->).
    apply incl_app_app; [intros x; apply firstn_incl | apply IH].
Qed.

Lemma cut_classes_NoDup (sizes : list Z) (classes : list (list Z)) :
  NoDup (concat classes) -> NoDup (concat (cut_classes sizes classes)).
Proof.
  revert classes. induction sizes as [| n sizes IH]; intros classes Hnd.
  - destruct classes; exact Hnd.
  - destruct classes as [| c classes]; [exact Hnd |].
    cbn [cut_classes concat] in *. destruct (slice_to_incl c n) as (k & ->).
    apply (@NoDup_app_parts _ c (concat classes)); try exact Hnd.
    + apply NoDup_firstn. apply NoDup_app_remove_r in Hnd. exact Hnd.
    + apply IH. apply NoDup_app_remove_l in Hnd. exact Hnd.
    + intros x. apply firstn_incl.
    + apply cut_classes_incl.
Qed.

(** X17. Whatever the counts, negative ones included, the list register
    selects only indices that the helper listed, and none twice when the
    helper lists none twice. *)
Theorem list_register_selects_listed_indices_once :
  forall (sizes : list Z) (labels : list L) (extra : value)
         (classes : list (list Z)) (uniques : list L)
         (train_indices : list Z),
    get_label_indices_per_class labels = (classes, uniques) ->
    length uniques = length classes ->
    resolve (VList (map VInt sizes)) labels [extra] = Ok train_indices ->
    incl train_indices (concat classes) /\
    (NoDup (concat classes) -> NoDup train_indices).
Proof.
  intros sizes labels extra classes uniques train_indices Hg Hu H.
  cbn [Preprocessing._get_set_indices] in H.
  unfold Preprocessing._get_set_indices_list in H.
  rewrite Hg, length_map in H.
  destruct (Nat.eqb (length sizes) 1) eqn:Hone.
  - destruct sizes as [| n [| m sizes]]; try discriminate Hone.
    cbn in H. discriminate H.
  - cbn [bind py_zip] in H. rewrite Hu in H.
    pose proof (truncate_classes_closed sizes [] classes) as Hcut0.
    cbn [length app] in Hcut0. rewrite Hcut0 in H.
    cbn [bind] in H. unfold Np.concatenate in H.
    destruct (cut_classes sizes classes) as [| c cs] eqn:Hcut;
      [discriminate H |].
    cbn [bind] in H. injection H as <-.
    change (c ++ concat cs) with (concat (c :: cs)). rewrite <- Hcut. split.
    + apply cut_classes_incl.
    + apply cut_classes_NoDup.
Qed.

End ListRegister.

(** ** reshape_cube_to_1d_samples *)

Lemma length_flat_map_fixed {A B : Type} (f : A -> list B) (l : list A)
    (w : nat) :
  (forall x, In x l -> length (f x) = w) ->
  length (flat_map f l) = (length l * w)%nat.
Proof.
  induction l as [| x l IH]; intros Hf; simpl.
  - reflexivity.
  - rewrite length_app, (Hf x) by (left; reflexivity).
    rewrite IH; [reflexivity |].
    intros y Hy. apply Hf. right. exact Hy.
Qed.

Lemma nth_error_flat_map_fixed {A B : Type} (f : A -> list B) (l : list A)
    (w i j : nat) :
  (forall x, In x l -> length (f x) = w) ->
  (j < w)%nat ->
  nth_error (flat_map f l) (i * w + j) =
  match nth_error l i with
  | Some x => nth_error (f x) j
  | None => None
  end.
Proof.
  revert i. induction l as [| x l IH]; intros i Hf Hj.
  - cbn [flat_map]. destruct i; destruct (_ * w + j)%nat; reflexivity.
  - cbn [flat_map]. destruct i as [| i].
    + cbn [Nat.mul Nat.add nth_error].
      apply nth_error_app1. rewrite (Hf x) by (left; reflexivity). exact Hj.
    + rewrite nth_error_app2 by (rewrite (Hf x) by (left; reflexivity); lia).
      rewrite (Hf x) by (left; reflexivity).
      replace (S i * w + j - w)%nat with (i * w + j)%nat by lia.
      cbn [nth_error]. apply IH; [| exact Hj].
      intros y Hy. apply Hf. right. exact Hy.
Qed.

Lemma gather_length {A : Type} (elements : list A) (idx : list nat) :
  (forall x, In x idx -> (x < length elements)%nat) ->
  length (Reshape.gather elements idx) = length idx.
Proof.
  induction idx as [| x idx IH]; intros Hidx; simpl.
  - reflexivity.
  - destruct (nth_error elements x) as [y |] eqn:Hy.
    + simpl. f_equal. apply IH. intros z Hz. apply Hidx. right. exact Hz.
    + apply nth_error_None in Hy.
      specialize (Hidx x (or_introl eq_refl)). lia.
Qed.

Lemma gather_nth {A : Type} (elements : list A) (idx : list nat) (k : nat) :
  (forall x, In x idx -> (x < length elements)%nat) ->
  nth_error (Reshape.gather elements idx) k =
  match nth_error idx k with
  | Some x => nth_error elements x
  | None => None
  end.
Proof.
  revert k. induction idx as [| x idx IH]; intros k Hidx.
  - destruct k; reflexivity.
  - cbn [Reshape.gather flat_map].
    destruct (nth_error elements x) as [y |] eqn:Hy.
    + destruct k as [| k]; cbn [app nth_error]; [symmetry; exact Hy |].
      apply IH. intros z Hz. apply Hidx. right. exact Hz.
    + apply nth_error_None in Hy.
      specialize (Hidx x (or_introl eq_refl)). lia.
Qed.

Lemma chunks_length {A : Type} (rows cols : nat) (l : list A) :
  length (Reshape.chunks rows cols l) = rows.
Proof.
  revert l. induction rows as [| rows IH]; intros l; simpl.
  - reflexivity.
  - rewrite IH. reflexivity.
Qed.

Lemma chunks_row_length {A : Type} (rows cols : nat) (l : list A) :
  length l = (rows * cols)%nat ->
  Forall (fun row => length row = cols) (Reshape.chunks rows cols l).
Proof.
  revert l. induction rows as [| rows IH]; intros l Hlen; simpl.
  - constructor.
  - constructor.
    + rewrite length_firstn. simpl in Hlen. lia.
    + apply IH. rewrite length_skipn. simpl in Hlen. lia.
Qed.

Lemma concat_chunks {A : Type} (rows cols : nat) (l : list A) :
  length l = (rows * cols)%nat ->
  concat (Reshape.chunks rows cols l) = l.
Proof.
  revert l. induction rows as [| rows IH]; intros l Hlen; simpl.
  - destruct l; [reflexivity | discriminate Hlen].
  - rewrite IH.
    + apply firstn_skipn.
    + rewrite length_skipn. simpl in Hlen. lia.
Qed.

Lemma normalize_axis_range (ndim : nat) (idx : Z) (axis : nat) :
  Reshape.normalize_axis ndim idx = Some axis ->
  (axis < ndim)%nat /\ - Z.of_nat ndim <= idx < Z.of_nat ndim.
Proof.
  unfold Reshape.normalize_axis.
  destruct ((- Z.of_nat ndim <=? idx) && (idx <? Z.of_nat ndim)) eqn:Hr;
    [| discriminate].
  apply andb_true_iff in Hr. destruct Hr as [Hlo Hhi].
  apply Z.leb_le in Hlo. apply Z.ltb_lt in Hhi.
  intros H. injection H as <-. split; [| lia].
  assert (0 <= idx mod Z.of_nat ndim < Z.of_nat ndim)
    by (apply Z.mod_pos_bound; lia).
  lia.
Qed.

(** The positions read by the rolled array lie inside the cube. *)
Lemma source_index_in_cube (axis d0 d1 d2 h w c i j k : nat) :
  (axis < 3)%nat ->
  Reshape.rolled_shape axis d0 d1 d2 = (h, w, c) ->
  (i < h)%nat -> (j < w)%nat -> (k < c)%nat ->
  (Reshape.source_index axis d0 d1 d2 i j k < d0 * d1 * d2)%nat.
Proof.
  intros Haxis Hshape Hi Hj Hk.
  destruct axis as [| [| [| axis]]]; [| | | lia];
    cbn [Reshape.rolled_shape Reshape.source_index] in *;
    injection Hshape as <- <- <-.
  - assert (k * d1 + i + 1 <= d0 * d1)%nat by nia. nia.
  - assert (i * d1 + k + 1 <= d0 * d1)%nat by nia. nia.
  - assert (i * d1 + j + 1 <= d0 * d1)%nat by nia. nia.
Qed.

Lemma size3 (d0 d1 d2 : nat) :
  Reshape.size [d0; d1; d2] = (d0 * d1 * d2)%nat.
Proof. unfold Reshape.size. simpl. lia. Qed.

Lemma rolled_pixels (axis d0 d1 d2 h w c : nat) :
  Reshape.rolled_shape axis d0 d1 d2 = (h, w, c) ->
  (h * w * c = d0 * d1 * d2)%nat.
Proof.
  destruct axis as [| [| axis]]; cbn [Reshape.rolled_shape];
    intros H; injection H as <- <- <-; lia.
Qed.

Lemma nth_error_seq_lt (s n i : nat) :
  (i < n)%nat -> nth_error (seq s n) i = Some (s + i)%nat.
Proof.
  revert s i. induction n as [| n IH]; intros s i Hi; [lia |].
  destruct i as [| i]; cbn [seq nth_error].
  - f_equal. lia.
  - rewrite IH by lia. f_equal. lia.
Qed.

Lemma firstn_add {A : Type} (a b : nat) (l : list A) :
  firstn (a + b) l = firstn a l ++ firstn b (skipn a l).
Proof.
  revert l. induction a as [| a IH]; intros l.
  - reflexivity.
  - destruct l as [| x l]; cbn [Nat.add firstn skipn app].
    + rewrite firstn_nil. reflexivity.
    + rewrite IH. reflexivity.
Qed.

(** Gathering [c] consecutive positions is slicing. *)
Lemma gather_segment {A : Type} (l : list A) (s c : nat) :
  (s + c <= length l)%nat ->
  Reshape.gather l (map (fun k => (s + k)%nat) (seq 0 c)) =
  firstn c (skipn s l).
Proof.
  revert s. induction c as [| c IH]; intros s Hlen.
  - reflexivity.
  - cbn [seq map Reshape.gather flat_map]. rewrite Nat.add_0_r.
    destruct (nth_error l s) as [x |] eqn:Hx.
    2: { apply nth_error_None in Hx. lia. }
    rewrite (skipn_cons_nth _ _ Hx). cbn [firstn app]. f_equal.
    rewrite <- seq_shift, map_map.
    rewrite <- (IH (S s)) by lia.
    unfold Reshape.gather. f_equal. apply map_ext. intros k. lia.
Qed.

(** Consecutive blocks of [c] elements, starting at block [s]. *)
Lemma concat_blocks {A : Type} (l : list A) (c n s : nat) :
  concat (map (fun p => firstn c (skipn ((s + p) * c) l)) (seq 0 n)) =
  firstn (n * c) (skipn (s * c) l).
Proof.
  revert s. induction n as [| n IH]; intros s.
  - reflexivity.
  - cbn [seq map concat]. rewrite Nat.add_0_r.
    rewrite <- seq_shift, map_map.
    replace (S n * c)%nat with (c + n * c)%nat by lia.
    rewrite firstn_add, skipn_skipn. f_equal.
    replace (c + s * c)%nat with (S s * c)%nat by lia.
    rewrite <- IH. f_equal. apply map_ext. intros p.
    f_equal. f_equal. lia.
Qed.

Lemma concat_flat_map {A B : Type} (f : A -> list (list B)) (l : list A) :
  concat (flat_map f l) = concat (map (fun x => concat (f x)) l).
Proof.
  induction l as [| x l IH]; [reflexivity |].
  cbn [flat_map map concat]. rewrite concat_app, IH. reflexivity.
Qed.

Section CubeFacts.

Import Reshape.

Variables A B F : Type.
Variable data_to_float32 : A -> F.
Variable labels_to_float32 : B -> F.

Local Abbreviation reshape_cube :=
  (reshape_cube_to_1d_samples data_to_float32 labels_to_float32).

(** What the function returns on a cube it accepts. *)
Lemma reshape_cube_accepts (data : ndarray A) (labels : ndarray B)
    (idx : Z) (axis d0 d1 d2 h w c : nat) :
  shape data = [d0; d1; d2] ->
  normalize_axis 3 idx = Some axis ->
  rolled_shape axis d0 d1 d2 = (h, w, c) ->
  (h * w)%nat <> 0%nat ->
  (size (shape labels) mod (h * w) = 0)%nat ->
  reshape_cube data labels idx =
  inr (map (map data_to_float32) (pixel_rows axis d0 d1 d2 (flat data)),
       map (map labels_to_float32)
           (chunks (h * w) (size (shape labels) / (h * w)) (flat labels))).
Proof.
  intros Hshape Haxis Hrolled Hpix Hmod.
  unfold reshape_cube_to_1d_samples. rewrite Hshape. cbn [length].
  rewrite Haxis, Hrolled. unfold reshape_rows.
  replace (Nat.eqb (h * w) 0) with false
    by (symmetry; apply Nat.eqb_neq; exact Hpix).
  rewrite Hmod. reflexivity.
Qed.

Lemma pixel_rows_length (axis d0 d1 d2 h w c : nat) (elements : list A) :
  rolled_shape axis d0 d1 d2 = (h, w, c) ->
  length (pixel_rows axis d0 d1 d2 elements) = (h * w)%nat.
Proof.
  intros Hrolled. unfold pixel_rows. rewrite Hrolled.
  rewrite (@length_flat_map_fixed _ _ _ _ w).
  - rewrite length_seq. reflexivity.
  - intros i _. rewrite length_map, length_seq. reflexivity.
Qed.

(** X18. On a cube of shape [(d0, d1, d2)] with a valid channel axis and
    labels whose size is a multiple of the number of pixels, the function
    returns one data row and one label row per pixel: the data rows hold
    one value per channel, the label rows the labels of the pixel. *)
Theorem reshape_cube_returns_one_row_per_pixel :
  forall (data : ndarray A) (labels : ndarray B) (idx : Z)
         (axis d0 d1 d2 h w c : nat),
    well_formed data ->
    well_formed labels ->
    shape data = [d0; d1; d2] ->
    normalize_axis 3 idx = Some axis ->
    rolled_shape axis d0 d1 d2 = (h, w, c) ->
    (h * w)%nat <> 0%nat ->
    (size (shape labels) mod (h * w) = 0)%nat ->
    exists data' labels',
      reshape_cube data labels idx = inr (data', labels') /\
      length data' = (h * w)%nat /\
      length labels' = (h * w)%nat /\
      Forall (fun row => length row = c) data' /\
      Forall (fun row => length row = (size (shape labels) / (h * w))%nat)
             labels'.
Proof.
  intros data labels idx axis d0 d1 d2 h w c
         Hwf Hwfl Hshape Haxis Hrolled Hpix Hmod.
  eexists. eexists.
  split; [eapply reshape_cube_accepts; eassumption |].
  destruct (normalize_axis_range _ _ Haxis) as [Haxis3 _].
  unfold well_formed in Hwf. rewrite Hshape, size3 in Hwf.
  split; [rewrite length_map; eapply pixel_rows_length; exact Hrolled |].
  split; [rewrite length_map; apply chunks_length |].
  split.
  - apply Forall_forall. intros row Hrow.
    apply in_map_iff in Hrow. destruct Hrow as (raw & <- & Hraw).
    rewrite length_map. unfold pixel_rows in Hraw. rewrite Hrolled in Hraw.
    apply in_flat_map in Hraw. destruct Hraw as (i & Hi & Hraw).
    apply in_map_iff in Hraw. destruct Hraw as (j & <- & Hj).
    apply in_seq in Hi. apply in_seq in Hj.
    rewrite gather_length; [rewrite length_map, length_seq; reflexivity |].
    intros x Hx. apply in_map_iff in Hx. destruct Hx as (k & <- & Hk).
    apply in_seq in Hk. rewrite Hwf.
    eapply source_index_in_cube; [exact Haxis3 | exact Hrolled | lia ..].
  - apply Forall_forall. intros row Hrow.
    apply in_map_iff in Hrow. destruct Hrow as (raw & <- & Hraw).
    rewrite length_map.
    assert (Hrows : Forall (fun r => length r =
                                     (size (shape labels) / (h * w))%nat)
                      (chunks (h * w) (size (shape labels) / (h * w))
                              (flat labels))).
    { apply chunks_row_length. rewrite Hwfl.
      apply Nat.Div0.div_exact in Hmod. lia. }
    rewrite Forall_forall in Hrows. apply Hrows. exact Hraw.
Qed.

(** X19. Row [i * W + j] of the returned data is the spectrum of the pixel
    [(i, j)]: its entry [k] is the cast of the cube element at channel [k]
    of that pixel (for channels first, the element [k][i][j]). *)
Theorem reshape_cube_rows_are_pixel_spectra :
  forall (data : ndarray A) (labels : ndarray B) (idx : Z)
         (axis d0 d1 d2 h w c : nat)
         (data' labels' : list (list F)) (i j k : nat),
    well_formed data ->
    shape data = [d0; d1; d2] ->
    normalize_axis 3 idx = Some axis ->
    rolled_shape axis d0 d1 d2 = (h, w, c) ->
    reshape_cube data labels idx = inr (data', labels') ->
    (i < h)%nat -> (j < w)%nat -> (k < c)%nat ->
    exists row x,
      nth_error data' (i * w + j) = Some row /\
      nth_error (flat data) (cube_position axis d1 d2 i j k) = Some x /\
      nth_error row k = Some (data_to_float32 x).
Proof.
  intros data labels idx axis d0 d1 d2 h w c data' labels' i j k
         Hwf Hshape Haxis Hrolled H Hi Hj Hk.
  destruct (normalize_axis_range _ _ Haxis) as [Haxis3 _].
  unfold well_formed in Hwf. rewrite Hshape, size3 in Hwf.
  unfold reshape_cube_to_1d_samples in H. rewrite Hshape in H.
  cbn [length] in H. rewrite Haxis, Hrolled in H.
  destruct (reshape_rows (h * w) labels) as [rows |]; [| discriminate H].
  injection H as <- _.
  assert (Hsrc : (source_index axis d0 d1 d2 i j k < length (flat data))%nat).
  { rewrite Hwf.
    eapply source_index_in_cube;
      [exact Haxis3 | exact Hrolled | assumption ..]. }
  assert (Hpos : cube_position axis d1 d2 i j k =
                 source_index axis d0 d1 d2 i j k).
  { destruct axis as [| [| axis]]; reflexivity. }
  destruct (nth_error (flat data) (source_index axis d0 d1 d2 i j k))
    as [x |] eqn:Hx.
  2: { apply nth_error_None in Hx. lia. }
  exists (map data_to_float32
            (gather (flat data)
               (map (source_index axis d0 d1 d2 i j) (seq 0 c)))), x.
  split; [| split].
  - rewrite nth_error_map. unfold pixel_rows. rewrite Hrolled.
    rewrite (@nth_error_flat_map_fixed _ _ _ _ w).
    + rewrite nth_error_seq_lt by exact Hi. cbn [Nat.add].
      rewrite nth_error_map, nth_error_seq_lt by exact Hj. reflexivity.
    + intros i0 _. rewrite length_map, length_seq. reflexivity.
    + exact Hj.
  - rewrite Hpos. exact Hx.
  - rewrite nth_error_map, gather_nth.
    + rewrite nth_error_map, nth_error_seq_lt by exact Hk.
      cbn [Nat.add option_map]. rewrite Hx. reflexivity.
    + intros y Hy. apply in_map_iff in Hy. destruct Hy as (k0 & <- & Hk0).
      apply in_seq in Hk0. rewrite Hwf.
      eapply source_index_in_cube; [exact Haxis3 | exact Hrolled | lia ..].
Qed.

(** X20. The three ways in which the function fails: the channel index is
    outside [-ndim, ndim) ([AxisError]); else the data is not
    three-dimensional (the unpacking of its shape fails); else the cube has
    no pixel or the size of the labels is not a multiple of the number of
    pixels (the reshape of the labels fails). *)
Theorem reshape_cube_failures :
  forall (data : ndarray A) (labels : ndarray B) (idx : Z),
    let ndim := Z.of_nat (length (shape data)) in
    (reshape_cube data labels idx = inl AxisError <->
     ~ (- ndim <= idx < ndim)) /\
    (reshape_cube data labels idx = inl UnpackError <->
     (- ndim <= idx < ndim) /\ length (shape data) <> 3%nat) /\
    (reshape_cube data labels idx = inl ReshapeError <->
     exists axis d0 d1 d2 h w c,
       shape data = [d0; d1; d2] /\
       normalize_axis 3 idx = Some axis /\
       rolled_shape axis d0 d1 d2 = (h, w, c) /\
       ((h * w)%nat = 0%nat \/
        (size (shape labels) mod (h * w))%nat <> 0%nat)).
Proof.
  intros data labels idx ndim. unfold reshape_cube_to_1d_samples.
  destruct (normalize_axis (length (shape data)) idx) as [axis |] eqn:Haxis.
  - destruct (normalize_axis_range _ _ Haxis) as [Haxis3 Hrange].
    fold ndim in Hrange.
    destruct (shape data) as [| d0 [| d1 [| d2 [| d3 rest]]]] eqn:Hshape;
      cbn [length] in *.
    1, 2, 3, 5:
      (split; [split; [discriminate | intros Hn; contradiction] |];
       split; [split; [intros _; split; [exact Hrange | lia]
                      | reflexivity] |];
       split; [discriminate |];
       intros (a & x0 & x1 & x2 & h & w & c & Hs & _); discriminate Hs).
    destruct (rolled_shape axis d0 d1 d2) as [[h w] c] eqn:Hrolled.
    unfold reshape_rows.
    destruct (Nat.eqb (h * w) 0) eqn:Hpix; cbn [orb].
    + apply Nat.eqb_eq in Hpix.
      split; [split; [discriminate | intros Hn; contradiction] |].
      split; [split; [discriminate | intros [_ Hn]; lia] |].
      split; [intros _ | reflexivity].
      exists axis, d0, d1, d2, h, w, c. auto.
    + apply Nat.eqb_neq in Hpix.
      destruct (Nat.eqb (size (shape labels) mod (h * w)) 0) eqn:Hmod;
        cbn [negb].
      * apply Nat.eqb_eq in Hmod.
        split; [split; [discriminate | intros Hn; contradiction] |].
        split; [split; [discriminate | intros [_ Hn]; lia] |].
        split; [discriminate |].
        intros (a & x0 & x1 & x2 & h' & w' & c' & Hs & Ha & Hr & Hbad).
        injection Hs as <- <- <-.
        assert (a = axis) by congruence. subst a.
        rewrite Hrolled in Hr. injection Hr as <- <- <-.
        destruct Hbad; contradiction.
      * apply Nat.eqb_neq in Hmod.
        split; [split; [discriminate | intros Hn; contradiction] |].
        split; [split; [discriminate | intros [_ Hn]; lia] |].
        split; [intros _ | reflexivity].
        exists axis, d0, d1, d2, h, w, c. auto.
  - assert (Hrange : ~ (- ndim <= idx < ndim)).
    { unfold normalize_axis in Haxis. fold ndim in Haxis.
      destruct ((- ndim <=? idx) && (idx <? ndim)) eqn:Hr;
        [discriminate Haxis |].
      apply andb_false_iff in Hr. intros [Hlo Hhi].
      destruct Hr as [Hr | Hr];
        [apply Z.leb_gt in Hr | apply Z.ltb_ge in Hr]; lia. }
    split; [split; [intros _; exact Hrange | reflexivity] |].
    split; [split; [discriminate | intros [Hr _]; contradiction] |].
    split; [discriminate |].
    intros (a & d0 & d1 & d2 & h & w & c & Hs & Ha & _).
    rewrite Hs in Haxis. cbn [length] in Haxis. congruence.
Qed.

(** X21. With the channels already on the last axis the function only
    regroups and casts: the returned data rows, one after the other, are
    the elements of the cube in their order. *)
Theorem reshape_cube_channels_last_keeps_order :
  forall (data : ndarray A) (labels : ndarray B) (idx : Z)
         (h w c : nat) (data' labels' : list (list F)),
    well_formed data ->
    shape data = [h; w; c] ->
    normalize_axis 3 idx = Some 2%nat ->
    reshape_cube data labels idx = inr (data', labels') ->
    concat data' = map data_to_float32 (flat data).
Proof.
  intros data labels idx h w c data' labels' Hwf Hshape Haxis H.
  unfold well_formed in Hwf. rewrite Hshape, size3 in Hwf.
  unfold reshape_cube_to_1d_samples in H. rewrite Hshape in H.
  cbn [length] in H. rewrite Haxis in H. cbn [rolled_shape] in H.
  destruct (reshape_rows (h * w) labels) as [rows |]; [| discriminate H].
  injection H as <- _.
  rewrite <- concat_map. f_equal.
  unfold pixel_rows. cbn [rolled_shape].
  rewrite concat_flat_map.
  assert (Hrow : forall i,
    In i (seq 0 h) ->
    concat (map (fun j =>
                   gather (flat data)
                     (map (source_index 2 h w c i j) (seq 0 c)))
                (seq 0 w)) =
    firstn (w * c) (skipn ((0 + i) * (w * c)) (flat data))).
  { intros i Hi. apply in_seq in Hi.
    replace ((0 + i) * (w * c))%nat with ((i * w) * c)%nat by lia.
    rewrite <- concat_blocks. f_equal. apply map_ext_in.
    intros j Hj. apply in_seq in Hj. cbn [source_index].
    apply gather_segment. rewrite Hwf.
    assert (Hrow : (i * w + j + 1 <= h * w)%nat) by nia.
    apply (Nat.mul_le_mono_r _ _ c) in Hrow. lia. }
  rewrite (map_ext_in _ _ _ Hrow).
  rewrite concat_blocks. cbn [Nat.mul skipn].
  apply firstn_all2. rewrite Hwf. lia.
Qed.

End CubeFacts.

(** ** Reshaping, then cleaning *)

(** X22. The two arrays that [reshape_cube_to_1d_samples] returns have one
    row per pixel each, so [remove_nan_samples] accepts them whatever the
    cube was: it returns the pixels whose spectrum has no NaN, with as many
    label rows. *)
Theorem reshaped_cube_can_be_cleaned :
  forall (A B : Type) (data_to_float32 : A -> spec_float)
         (labels_to_float32 : B -> spec_float)
         (data : Reshape.ndarray A) (labels : Reshape.ndarray B) (idx : Z)
         (data' labels' : list (list spec_float)),
    Reshape.reshape_cube_to_1d_samples data_to_float32 labels_to_float32
      data labels idx = inr (data', labels') ->
    length labels' = length data' /\
    exists kept,
      Preprocessing.remove_nan_samples data' labels' =
        Ok (filter nan_free data', kept) /\
      length kept = length (filter nan_free data').
Proof.
  intros A B data_to_float32 labels_to_float32 data labels idx
         data' labels' H.
  assert (Hlen : length labels' = length data').
  { unfold Reshape.reshape_cube_to_1d_samples in H.
    destruct (Reshape.normalize_axis _ idx) as [axis |]; [| discriminate H].
    destruct (Reshape.shape data) as [| d0 [| d1 [| d2 [| d3 rest]]]];
      try discriminate H.
    destruct (Reshape.rolled_shape axis d0 d1 d2) as [[h w] c] eqn:Hrolled.
    unfold Reshape.reshape_rows in H.
    destruct (Nat.eqb (h * w) 0 || _); [discriminate H |].
    injection H as <- <-.
    rewrite !length_map, chunks_length.
    unfold Reshape.pixel_rows. rewrite Hrolled.
    rewrite (@length_flat_map_fixed _ _ _ _ w).
    - rewrite length_seq. reflexivity.
    - intros i _. rewrite length_map, length_seq. reflexivity. }
  split; [exact Hlen |].
  eexists. split.
  - apply remove_nan_samples_aligned. exact Hlen.
  - apply select_other_length. exact Hlen.
Qed.

(* ================================================================== *)
(** * Runs of the further properties *)

Module MoreRuns.

Import ArtifactsReporter Samples MoreSamples Reshape.

Lemma reversed_is_permutation (seed : Z) (n : nat) :
  Permutation (reverse_order seed n) (seq 0 n).
Proof. apply Permutation_sym, Permutation_rev. Defined.

Lemma fraction_0_8 : valid_fraction Float64.lit_0_8.
Proof. split; vm_compute; reflexivity. Defined.

Lemma fraction_0_7 : valid_fraction Float64.lit_0_7.
Proof. split; vm_compute; reflexivity. Defined.

Lemma fraction_0_1 : valid_fraction Float64.lit_0_1.
Proof. split; vm_compute; reflexivity. Defined.

(** Ten samples gathered in reverse order, [train_size = 0.8] and
    [val_size = 0.7]: eight samples are selected, five of them for
    validation. *)
Example split10_run :
  split10 (VFloat Float64.lit_0_8) (VFloat Float64.lit_0_7) 0 =
  Ok ([14; 13; 12], [1; 0; 2], [19; 18; 17; 16; 15], [0; 2; 1; 0; 2],
      [11; 10], [1; 0]).
Proof. vm_compute. reflexivity. Qed.

(** *** Splits *)

Lemma split_outputs_are_consecutive_slices_witness :
  exists k j : nat,
    (j <= k <= 10)%nat /\
    Preprocessing._get_set_indices glipc memory (VFloat Float64.lit_0_8)
      (Preprocessing.shuffle reverse_order 0 labels10) [] =
      Ok (Np.arange (Z.of_nat k)) /\
    Preprocessing._get_set_indices glipc memory (VFloat Float64.lit_0_7)
      (firstn k (Preprocessing.shuffle reverse_order 0 labels10)) [] =
      Ok (Np.arange (Z.of_nat j)) /\
    [19; 18; 17; 16; 15] =
      firstn j (Preprocessing.shuffle reverse_order 0 data10) /\
    [0; 2; 1; 0; 2] =
      firstn j (Preprocessing.shuffle reverse_order 0 labels10) /\
    [14; 13; 12] =
      firstn (k - j) (skipn j (Preprocessing.shuffle reverse_order 0 data10)) /\
    [1; 0; 2] =
      firstn (k - j)
        (skipn j (Preprocessing.shuffle reverse_order 0 labels10)) /\
    [11; 10] = skipn k (Preprocessing.shuffle reverse_order 0 data10) /\
    [1; 0] = skipn k (Preprocessing.shuffle reverse_order 0 labels10).
Proof.
  apply (@split_outputs_are_consecutive_slices Z Z glipc memory reverse_order
           reversed_is_permutation 10 data10 labels10
           (VFloat Float64.lit_0_8) (VFloat Float64.lit_0_7) 0
           [14; 13; 12] [1; 0; 2] [19; 18; 17; 16; 15] [0; 2; 1; 0; 2]
           [11; 10] [1; 0]).
  - reflexivity.
  - reflexivity.
  - vm_compute. reflexivity.
Defined.

Lemma split_outputs_partition_the_input_witness :
  [19; 18; 17; 16; 15] ++ [14; 13; 12] ++ [11; 10] =
    Preprocessing.shuffle reverse_order 0 data10 /\
  [0; 2; 1; 0; 2] ++ [1; 0; 2] ++ [1; 0] =
    Preprocessing.shuffle reverse_order 0 labels10 /\
  Permutation ([19; 18; 17; 16; 15] ++ [14; 13; 12] ++ [11; 10]) data10 /\
  Permutation
    (combine ([19; 18; 17; 16; 15] ++ [14; 13; 12] ++ [11; 10])
             ([0; 2; 1; 0; 2] ++ [1; 0; 2] ++ [1; 0]))
    (combine data10 labels10).
Proof.
  apply (@split_outputs_partition_the_input Z Z glipc memory reverse_order
           reversed_is_permutation 10 data10 labels10
           (VFloat Float64.lit_0_8) (VFloat Float64.lit_0_7) 0
           [14; 13; 12] [1; 0; 2] [19; 18; 17; 16; 15] [0; 2; 1; 0; 2]
           [11; 10] [1; 0]).
  - reflexivity.
  - reflexivity.
  - vm_compute. reflexivity.
Defined.

(** Ten samples, [train_size = 6] and [val_size = 0.7]: four validation
    and two train samples, four test samples. *)
Lemma int_train_size_counts_witness :
  1 <= 6 <= Z.of_nat 10 /\
  Z.of_nat (length [15; 14] + length [19; 18; 17; 16]) = 6 /\
  Z.of_nat (length [13; 12; 11; 10]) = Z.of_nat 10 - 6 /\
  length [2; 1] = length [15; 14] /\
  length [0; 2; 1; 0] = length [19; 18; 17; 16] /\
  length [0; 2; 1; 0] = length [13; 12; 11; 10].
Proof.
  apply (@int_train_size_counts_train_and_validation Z Z glipc memory
           reverse_order
           reversed_is_permutation 10 data10 labels10 6
           (VFloat Float64.lit_0_7) 0
           [15; 14] [2; 1] [19; 18; 17; 16] [0; 2; 1; 0]
           [13; 12; 11; 10] [0; 2; 1; 0]).
  - reflexivity.
  - reflexivity.
  - reflexivity.
  - vm_compute. reflexivity.
Defined.

Lemma split_returns_iff_sizes_valid_witness :
  (exists out, split10 (VInt 6) (VFloat Float64.lit_0_7) 0 = Ok out) <->
  valid_train_size 10 (VInt 6) /\ in_unit_interval Float64.lit_0_7 = true.
Proof.
  apply (@split_returns_iff_sizes_valid Z Z glipc memory reverse_order
           reversed_is_permutation 10 data10 labels10 (VInt 6)
           Float64.lit_0_7 0).
  - reflexivity.
  - reflexivity.
  - reflexivity.
  - reflexivity.
  - vm_compute. reflexivity.
Defined.

Lemma fraction_sizes_count_in_two_steps_witness :
  exists train_x train_y val_x val_y test_x test_y p1 k p2 j,
    split10 (VFloat Float64.lit_0_8) (VFloat Float64.lit_0_7) 0 =
      Ok (train_x, train_y, val_x, val_y, test_x, test_y) /\
    Float64.int_mul (Z.of_nat 10) Float64.lit_0_8 = Ok p1 /\
    Float64.floor p1 = Some k /\
    Float64.int_mul k Float64.lit_0_7 = Ok p2 /\
    Float64.floor p2 = Some j /\
    0 <= j <= k /\ k <= Z.of_nat 10 /\
    Z.of_nat (length val_x) = j /\
    Z.of_nat (length train_x) = k - j /\
    Z.of_nat (length test_x) = Z.of_nat 10 - k.
Proof.
  apply (@fraction_sizes_count_in_two_steps Z Z glipc memory reverse_order
           reversed_is_permutation 10 data10 labels10
           Float64.lit_0_8 Float64.lit_0_7 0).
  - reflexivity.
  - reflexivity.
  - reflexivity.
  - exact fraction_0_8.
  - exact fraction_0_7.
Defined.

Lemma train_size_one_leaves_test_empty_witness :
  exists train_x train_y val_x val_y,
    split10 (VFloat Float64.one) (VFloat Float64.lit_0_7) 0 =
      Ok (train_x, train_y, val_x, val_y, [], []) /\
    (length train_x + length val_x = 10)%nat.
Proof.
  apply (@train_size_one_leaves_test_empty Z Z glipc memory reverse_order
           reversed_is_permutation 10 data10 labels10 Float64.lit_0_7 0).
  - reflexivity.
  - reflexivity.
  - reflexivity.
  - exact fraction_0_7.
Defined.

Lemma val_size_one_leaves_train_empty_witness :
  exists val_x val_y test_x test_y,
    split10 (VFloat Float64.lit_0_8) (VFloat Float64.one) 0 =
      Ok ([], [], val_x, val_y, test_x, test_y) /\
    (length val_x + length test_x = 10)%nat.
Proof.
  apply (@val_size_one_leaves_train_empty Z Z glipc memory reverse_order
           reversed_is_permutation 10 data10 labels10
           (VFloat Float64.lit_0_8) 0).
  - reflexivity.
  - reflexivity.
  - reflexivity.
  - exact fraction_0_8.
Defined.

(** *** Cleaning *)

Lemma clean2_has_no_nan :
  forall sample, In sample clean2 -> has_nan sample = false.
Proof. intros sample [<- | [<- | []]]; reflexivity. Defined.

Lemma remove_nan_samples_keeps_clean_data_witness :
  Preprocessing.remove_nan_samples clean2 [7; 9] = Ok (clean2, [7; 9]).
Proof.
  apply (@remove_nan_samples_keeps_clean_data Z clean2 [7; 9]).
  - reflexivity.
  - exact clean2_has_no_nan.
Defined.

Lemma remove_nan_samples_idempotent_witness :
  Preprocessing.remove_nan_samples clean2 [7; 9] = Ok (clean2, [7; 9]).
Proof.
  apply (@remove_nan_samples_idempotent Z samples3 clean2 [7; 8; 9] [7; 9]).
  reflexivity.
Defined.

Lemma clean_then_split_witness :
  exists data' labels' train_x train_y val_x val_y test_x test_y,
    Preprocessing.remove_nan_samples samples3 [7; 8; 9] =
      Ok (data', labels') /\
    Preprocessing.train_val_test_split glipc memory reverse_order data' labels'
      (VInt 2) (VFloat Float64.lit_0_7) 0 =
      Ok (train_x, train_y, val_x, val_y, test_x, test_y) /\
    Permutation
      (combine (val_x ++ train_x ++ test_x) (val_y ++ train_y ++ test_y))
      (filter (fun p => nan_free (fst p)) (combine samples3 [7; 8; 9])).
Proof.
  apply (@clean_then_split_returns_the_clean_pairs Z glipc memory reverse_order
           reversed_is_permutation samples3 [7; 8; 9] (VInt 2)
           Float64.lit_0_7 0).
  - reflexivity.
  - reflexivity.
  - vm_compute. split; discriminate.
  - exact fraction_0_7.
Defined.

(** *** Reporter runs *)

Lemma consistency_failure_iff_keys_differ_witness :
  fst (run_reporter_after inconsistent_runs "out/report.csv" []) =
    Raise (AssertionError inconsistent_metric_names) <->
  ~ exists keys, ReportSpec.consistent_keys inconsistent_runs keys.
Proof.
  apply (@consistency_failure_iff_keys_differ
           (fun _ _ => Ok inconsistent_runs) accepting float_of_digits
           mean std minimum maximum
           "experiments" "out/report.csv" None inconsistent_runs []).
  reflexivity.
Defined.

Lemma acc_f1_shared :
  ReportSpec.consistent_keys consistent_runs ["acc"; "f1"]%string.
Proof.
  split; [discriminate |].
  intros k [<- | [<- | []]]; reflexivity.
Defined.

Lemma acc_f1_distinct : NoDup ["acc"; "f1"]%string.
Proof.
  constructor.
  - intros [E | []]. discriminate E.
  - constructor; [intros [] | constructor].
Defined.

Lemma acc_f1_not_stats : ~ In "Stats"%string ["acc"; "f1"]%string.
Proof. intros [E | [E | []]]; discriminate E. Defined.

Lemma consistent_fields_numeric :
  forall row field,
    In row (metric_values consistent_runs) ->
    In field (firstn (length ["acc"; "f1"]%string) row) ->
    float_of_digits field <> None.
Proof.
  intros row field [<- | [<- | []]] [<- | [<- | []]]; vm_compute; discriminate.
Defined.

Lemma consistent_columns_filled :
  forall i, (i < length ["acc"; "f1"]%string)%nat ->
            ReportSpec.column float_of_digits i (metric_values consistent_runs)
            <> [].
Proof.
  intros [| [| i]] Hi; [vm_compute; discriminate .. |].
  simpl in Hi. lia.
Defined.

Lemma report_csv_is_accepted : accepts_report accepting "out/report.csv".
Proof. split; [discriminate | intros; reflexivity]. Defined.

Lemma report_holds_the_statistics_witness :
  run_reporter_after consistent_runs "out/report.csv" [MakeDirs "out"] =
  (Ok tt,
   [MakeDirs "out"] ++
   report_written "out/report.csv"
     (ReportSpec.expected_report float_of_digits mean std minimum maximum
        ["acc"; "f1"]%string (metric_values consistent_runs))).
Proof.
  apply (@report_holds_the_statistics_of_each_column
           (fun _ _ => Ok consistent_runs) accepting float_of_digits
           mean std minimum maximum
           "experiments" "out/report.csv" None consistent_runs
           ["acc"; "f1"]%string [MakeDirs "out"]).
  - reflexivity.
  - exact acc_f1_shared.
  - exact acc_f1_distinct.
  - exact acc_f1_not_stats.
  - exact consistent_fields_numeric.
  - exact consistent_columns_filled.
  - exact report_csv_is_accepted.
Defined.

Example expected_report_of_consistent_runs :
  ReportSpec.expected_report float_of_digits mean std minimum maximum
    ["acc"; "f1"]%string (metric_values consistent_runs) =
  Samples.expected_report.
Proof. vm_compute. reflexivity. Qed.

(** With the empty destination [os.makedirs] raises and nothing is saved;
    on a file system that refuses the calls the first call raises. *)
Example empty_dest_path_saves_nothing :
  run_reporter_after consistent_runs "" [] =
  (Raise (OSError FileNotFoundError), [MakeDirs ""]).
Proof. vm_compute. reflexivity. Qed.

Example refused_calls_raise :
  collect_artifacts_report (fun _ _ => Ok consistent_runs) read_only
    float_of_digits mean std minimum maximum "experiments" "out" None [] =
    (Raise (OSError PermissionError), [MakeDirs "out"]) /\
  collect_artifacts_report (fun _ _ => Ok consistent_runs) read_only
    float_of_digits mean std minimum maximum "experiments" "out/report.csv"
    None [] =
    (Raise (OSError PermissionError),
     [SaveMetrics "out/report.csv" Samples.expected_report None]).
Proof. split; vm_compute; reflexivity. Qed.

Lemma acc_f1_shared_non_numeric :
  ReportSpec.consistent_keys non_numeric_runs ["acc"; "f1"]%string.
Proof.
  split; [discriminate |].
  intros k [<- | [<- | []]]; reflexivity.
Defined.

Lemma non_numeric_field_witness :
  run_reporter_after non_numeric_runs "out/report.csv" [] =
  (Raise ValueError, []).
Proof.
  apply (@non_numeric_field_raises_value_error
           (fun _ _ => Ok non_numeric_runs) accepting float_of_digits
           mean std minimum maximum
           "experiments" "out/report.csv" None non_numeric_runs
           ["acc"; "f1"]%string ["3"; "n/a"]%string "n/a"%string []).
  - reflexivity.
  - exact acc_f1_shared_non_numeric.
  - exact acc_f1_distinct.
  - right. left. reflexivity.
  - right. left. reflexivity.
  - vm_compute. reflexivity.
Defined.

Lemma acc_f1_shared_short :
  ReportSpec.consistent_keys short_runs ["acc"; "f1"]%string.
Proof.
  split; [discriminate |].
  intros k [<- | []]; reflexivity.
Defined.

Lemma short_fields_numeric :
  forall row field,
    In row (metric_values short_runs) ->
    In field (firstn (length ["acc"; "f1"]%string) row) ->
    float_of_digits field <> None.
Proof.
  intros row field [<- | []] [<- | []]; vm_compute; discriminate.
Defined.

Lemma short_rows_are_short :
  forall row, In row (metric_values short_runs) -> (length row <= 1)%nat.
Proof. intros row [<- | []]. simpl. lia. Defined.

Lemma metric_without_value_witness :
  run_reporter_after short_runs "out/report.csv" [] = (Raise ValueError, []).
Proof.
  apply (@metric_without_value_raises_value_error
           (fun _ _ => Ok short_runs) accepting float_of_digits
           mean std minimum maximum
           "experiments" "out/report.csv" None short_runs
           ["acc"; "f1"]%string 1%nat []).
  - reflexivity.
  - exact acc_f1_shared_short.
  - exact acc_f1_distinct.
  - exact short_fields_numeric.
  - simpl. lia.
  - exact short_rows_are_short.
Defined.

(** *** The list register *)

Lemma list_register_selects_per_class_witness :
  Preprocessing._get_set_indices glipc memory
    (VList (map VInt [5; -1])) labels13 [VOther] =
  Ok (concat (cut_classes [5; -1]
                [[0; 1; 2; 3; 4; 5]; [6; 7; 8; 9]; [10; 11; 12]])).
Proof.
  apply (@list_register_selects_per_class Z glipc memory [5; -1] labels13
           VOther
           [[0; 1; 2; 3; 4; 5]; [6; 7; 8; 9]; [10; 11; 12]] [0; 1; 2]).
  - vm_compute. reflexivity.
  - reflexivity.
  - simpl. lia.
Defined.

Example list_register_counts_5_and_minus_1 :
  Preprocessing._get_set_indices glipc memory
    (VList (map VInt [5; -1])) labels13 [VOther] =
  Ok [0; 1; 2; 3; 4; 6; 7; 8; 10; 11; 12].
Proof. vm_compute. reflexivity. Qed.

Lemma list_register_selects_listed_indices_witness :
  incl [0; 1; 2; 3; 4; 6; 7; 8; 10; 11; 12]
       (concat [[0; 1; 2; 3; 4; 5]; [6; 7; 8; 9]; [10; 11; 12]]) /\
  (NoDup (concat [[0; 1; 2; 3; 4; 5]; [6; 7; 8; 9]; [10; 11; 12]]) ->
   NoDup [0; 1; 2; 3; 4; 6; 7; 8; 10; 11; 12]).
Proof.
  apply (@list_register_selects_listed_indices_once Z glipc memory [5; -1]
           labels13
           VOther [[0; 1; 2; 3; 4; 5]; [6; 7; 8; 9]; [10; 11; 12]] [0; 1; 2]
           [0; 1; 2; 3; 4; 6; 7; 8; 10; 11; 12]).
  - vm_compute. reflexivity.
  - reflexivity.
  - vm_compute. reflexivity.
Defined.

(** *** Cubes *)

Lemma cube_chw_well_formed : well_formed cube_chw.
Proof. reflexivity. Defined.

Lemma cube_hwc_well_formed : well_formed cube_hwc.
Proof. reflexivity. Defined.

Lemma pixel_labels_well_formed : well_formed pixel_labels.
Proof. reflexivity. Defined.

Lemma reshape_cube_returns_one_row_per_pixel_witness :
  exists data' labels',
    reshape_ints cube_chw pixel_labels 0 = inr (data', labels') /\
    length data' = (2 * 3)%nat /\
    length labels' = (2 * 3)%nat /\
    Forall (fun row => length row = 4%nat) data' /\
    Forall (fun row => length row =
                       (size (shape pixel_labels) / (2 * 3))%nat) labels'.
Proof.
  apply (@reshape_cube_returns_one_row_per_pixel Z Z spec_float
           float32_of_int float32_of_int cube_chw pixel_labels 0
           0%nat 4%nat 2%nat 3%nat 2%nat 3%nat 4%nat).
  - exact cube_chw_well_formed.
  - exact pixel_labels_well_formed.
  - reflexivity.
  - reflexivity.
  - reflexivity.
  - simpl. lia.
  - reflexivity.
Defined.

Example reshape_cube_chw_run :
  reshape_ints cube_chw pixel_labels 0 =
  inr (map (map float32_of_int)
         [[0; 6; 12; 18]; [1; 7; 13; 19]; [2; 8; 14; 20];
          [3; 9; 15; 21]; [4; 10; 16; 22]; [5; 11; 17; 23]],
       map (map float32_of_int) [[0]; [1]; [2]; [0]; [1]; [2]]).
Proof. vm_compute. reflexivity. Qed.

(** Pixel [(1, 2)] of the channels-first cube: its channel [3] is the
    element [3][1][2], at position [(3 * 2 + 1) * 3 + 2 = 23]. *)
Lemma reshape_cube_rows_are_pixel_spectra_witness :
  exists row x,
    nth_error
      (map (map float32_of_int)
         [[0; 6; 12; 18]; [1; 7; 13; 19]; [2; 8; 14; 20];
          [3; 9; 15; 21]; [4; 10; 16; 22]; [5; 11; 17; 23]])
      (1 * 3 + 2) = Some row /\
    nth_error (flat cube_chw) (cube_position 0 2 3 1 2 3) = Some x /\
    nth_error row 3 = Some (float32_of_int x).
Proof.
  apply (@reshape_cube_rows_are_pixel_spectra Z Z spec_float
           float32_of_int float32_of_int cube_chw pixel_labels 0
           0%nat 4%nat 2%nat 3%nat 2%nat 3%nat 4%nat
           (map (map float32_of_int)
              [[0; 6; 12; 18]; [1; 7; 13; 19]; [2; 8; 14; 20];
               [3; 9; 15; 21]; [4; 10; 16; 22]; [5; 11; 17; 23]])
           (map (map float32_of_int) [[0]; [1]; [2]; [0]; [1]; [2]])
           1%nat 2%nat 3%nat).
  - exact cube_chw_well_formed.
  - reflexivity.
  - reflexivity.
  - reflexivity.
  - vm_compute. reflexivity.
  - lia.
  - lia.
  - lia.
Defined.

Lemma reshape_cube_channels_last_witness :
  concat
    (map (map float32_of_int)
       [[0; 1; 2; 3]; [4; 5; 6; 7]; [8; 9; 10; 11];
        [12; 13; 14; 15]; [16; 17; 18; 19]; [20; 21; 22; 23]]) =
  map float32_of_int (flat cube_hwc).
Proof.
  apply (@reshape_cube_channels_last_keeps_order Z Z spec_float
           float32_of_int float32_of_int cube_hwc pixel_labels (-1)
           2%nat 3%nat 4%nat
           (map (map float32_of_int)
              [[0; 1; 2; 3]; [4; 5; 6; 7]; [8; 9; 10; 11];
               [12; 13; 14; 15]; [16; 17; 18; 19]; [20; 21; 22; 23]])
           (map (map float32_of_int) [[0]; [1]; [2]; [0]; [1]; [2]])).
  - exact cube_hwc_well_formed.
  - reflexivity.
  - reflexivity.
  - vm_compute. reflexivity.
Defined.

(** Two pixels of two channels, the second with a NaN in its second
    channel: one pixel and one label row are left. *)
Lemma reshaped_cube_can_be_cleaned_witness :
  length [[float32_of_int 3]; [float32_of_int 4]] =
    length [[float32_of_double Float64.one;
             float32_of_double Float64.lit_0_1];
            [float32_of_double Float64.lit_0_8; S754_nan]] /\
  exists kept,
    Preprocessing.remove_nan_samples
      [[float32_of_double Float64.one; float32_of_double Float64.lit_0_1];
       [float32_of_double Float64.lit_0_8; S754_nan]]
      [[float32_of_int 3]; [float32_of_int 4]] =
    Ok (filter nan_free
          [[float32_of_double Float64.one;
            float32_of_double Float64.lit_0_1];
           [float32_of_double Float64.lit_0_8; S754_nan]], kept) /\
    length kept =
      length (filter nan_free
                [[float32_of_double Float64.one;
                  float32_of_double Float64.lit_0_1];
                 [float32_of_double Float64.lit_0_8; S754_nan]]).
Proof.
  apply (@reshaped_cube_can_be_cleaned spec_float Z
           float32_of_double float32_of_int cube_nan two_labels 0).
  vm_compute. reflexivity.
Defined.

End MoreRuns.
